(** * Settlement validator (tools/migration/recalculate-compare.py)

    A shallow embedding of the three-level settlement validator and of the
    helpers it is built from: the timestamp normalizer [norm], the rate
    resolvers [margin_rate_at] and [sub_price_at], the period classifier
    ([find_primary_product], [find_addons]), the lookup builders and the
    per-settlement loop body of [main]; and of the two scripts that feed it
    spot prices, fetch-spot-prices.py (merging fetched records into the
    cache) and push-spot-prices.py (converting and posting the cache).

    Conventions of the embedding.
    - A Python [str] is a [string] of bytes (its UTF-8 encoding).  Byte-wise
      lexicographic order on UTF-8 coincides with Python's code-point order,
      and the two ASCII patterns removed by [norm] can only match at
      code-point boundaries.
    - A JSON number is a binary64 [float] (Rocq's primitive floats), which is
      what Python computes with as soon as one operand is a float; comparisons
      with NaN are false on both sides.
    - A Python [dict] is an association list with unique keys kept in
      insertion order ([Dict]); loops over [.items()] and [.values()] follow
      that order.
    - [sorted] is the stable sort; it is written as a stable insertion sort
      driven by Python's [<] on the keys.
    - [sum] adds from left to right starting at zero (CPython 3.12 and later
      compensate the rounding of a float sum; the two agree whenever the
      partial sums are exact).
    - JSON [null] and a missing key are [None].
    - The [datetime] library is a parameter ([DatetimeLib]): what the parser
      accepts differs between interpreters, and the validator is modelled,
      and its properties are proved, for every parser.  The worked values
      use [datetime_fragment]. *)

From Stdlib Require Import String Ascii List ZArith Lia Bool.
From Stdlib Require Import Permutation Sorted OrdersEx RelationClasses.
From Stdlib Require Import Floats Numbers.Cyclic.Int63.Uint63.
Import ListNotations.

Set Warnings "-inexact-float".

Local Open Scope list_scope.
Local Open Scope string_scope.

(* ================================================================= *)
(** ** Python strings *)

Module PyStr.

(** [s.replace(old, new)] for a non-empty [old]: scan from the left; at an
    occurrence of [old] emit [new] and skip the occurrence ([skip] counts
    the characters of the occurrence still to drop). *)
Fixpoint replace_from (old new : string) (skip : nat) (s : string) : string :=
  match s with
  | EmptyString => EmptyString
  | String c s' =>
      match skip with
      | S k => replace_from old new k s'
      | O =>
          if prefix old s
          then new ++ replace_from old new (String.length old - 1) s'
          else String c (replace_from old new O s')
      end
  end.

(** With an empty [old], Python puts [new] before every character and at
    the end. *)
Fixpoint interleave (new s : string) : string :=
  match s with
  | EmptyString => new
  | String c s' => new ++ String c (interleave new s')
  end.

Definition replace (old new s : string) : string :=
  match old with
  | EmptyString => interleave new s
  | String _ _ => replace_from old new O s
  end.

(** [s.startswith(p)] *)
Definition startswith (s p : string) : bool := prefix p s.

(** Python's [<] and [<=] on [str]. *)
Definition lt (a b : string) : bool := String.ltb a b.
Definition le (a b : string) : bool := String.leb a b.

(** [c] does not occur in [s]. *)
Fixpoint free_of (c : ascii) (s : string) : bool :=
  match s with
  | EmptyString => true
  | String d s' => negb (Ascii.eqb c d) && free_of c s'
  end.

End PyStr.

(** [norm]: strip ["+00:00"], then ["Z"]. *)
Definition norm (ts : string) : string :=
  PyStr.replace "Z" EmptyString (PyStr.replace "+00:00" EmptyString ts).

Local Open Scope list_scope.

(* ================================================================= *)
(** ** Python containers and builtins *)

(** [dict] with [str] keys: unique keys, insertion order. *)
Module Dict.

Definition t (V : Type) : Type := list (string * V).

Definition empty {V : Type} : t V := [].

(** [d.get(k)] *)
Fixpoint get {V : Type} (k : string) (d : t V) : option V :=
  match d with
  | [] => None
  | (k', v) :: d' => if String.eqb k k' then Some v else get k d'
  end.

(** [d[k] = v]: an existing key keeps its position, a new key goes last. *)
Fixpoint set {V : Type} (k : string) (v : V) (d : t V) : t V :=
  match d with
  | [] => [(k, v)]
  | (k', v') :: d' =>
      if String.eqb k k' then (k', v) :: d' else (k', v') :: set k v d'
  end.

(** [k in d] *)
Definition mem {V : Type} (k : string) (d : t V) : bool :=
  match get k d with Some _ => true | None => false end.

Definition items {V : Type} (d : t V) : list (string * V) := d.
Definition values {V : Type} (d : t V) : list V := map snd d.
Definition keys {V : Type} (d : t V) : list string := map fst d.

End Dict.

Section Sorting.

Variables (A : Type) (ltb : A -> A -> bool).

(** Insert [x], which stood before every element of [l] in the input, into
    the sorted [l]: it passes only the elements strictly below it, so equal
    elements keep their input order. *)
Fixpoint insert (x : A) (l : list A) : list A :=
  match l with
  | [] => [x]
  | y :: l' => if ltb y x then y :: insert x l' else x :: y :: l'
  end.

(** [sorted(l)] under the comparison [ltb]. *)
Definition py_sorted (l : list A) : list A := fold_right insert [] l.

End Sorting.

Arguments insert {A} ltb x l.
Arguments py_sorted {A} ltb l.

(** [sorted(l, key=f)] with [str] keys. *)
Definition sorted_by_key {A : Type} (key : A -> string) (l : list A) : list A :=
  py_sorted (fun a b => PyStr.lt (key a) (key b)) l.

(** [sum(l)] *)
Definition py_sum (l : list float) : float := fold_left PrimFloat.add l 0%float.

(** [x or default] for an optional string: [None] and the empty string are falsy. *)
Definition truthy_str (o : option string) : option string :=
  match o with
  | Some EmptyString => None
  | other => other
  end.

Definition str_or (o : option string) (default : string) : string :=
  match truthy_str o with Some s => s | None => default end.

(** Membership in a set of strings. *)
Definition str_in (s : string) (l : list string) : bool := existsb (String.eqb s) l.

(* ================================================================= *)
(** ** Timestamps as instants *)

(** The [datetime] library as the validator uses it: the parser, which
    returns a value or raises ([None]); the difference of two values, which
    raises when one is naive and the other aware; and the length of a
    difference in seconds.  Which strings the parser accepts depends on the
    interpreter, so the validator is modelled over any such library. *)
Class DatetimeLib : Type := {
  datetime : Type;
  timedelta : Type;
  fromisoformat : string -> option datetime;
  datetime_sub : datetime -> datetime -> option timedelta;
  total_seconds : timedelta -> float
}.

(** One such library, used for the worked values: timestamps of the form
    [YYYY-MM-DD?HH:MM:SS] with an optional [+HH:MM] or [-HH:MM] offset ([?]
    is any one separator character), on which it computes what CPython's
    [datetime] computes.  Other strings are outside of it (it answers [None]
    for them) and nothing is derived from its answer there. *)
Module DateTime.

Local Open Scope Z_scope.

Record t : Type := mk {
  local_seconds : Z;        (* wall-clock seconds since 0001-01-01T00:00:00 *)
  utcoffset : option Z      (* seconds east of UTC; [None] for a naive value *)
}.

Definition digit (c : ascii) : option Z :=
  let n := Z.of_N (N_of_ascii c) in
  if (48 <=? n) && (n <=? 57) then Some (n - 48) else None.

Definition two (a b : ascii) : option Z :=
  match digit a, digit b with
  | Some x, Some y => Some (10 * x + y)
  | _, _ => None
  end.

Definition four (a b c d : ascii) : option Z :=
  match two a b, two c d with
  | Some x, Some y => Some (100 * x + y)
  | _, _ => None
  end.

Definition is_leap (y : Z) : bool :=
  (y mod 4 =? 0) && (negb (y mod 100 =? 0) || (y mod 400 =? 0)).

Definition days_in_month (y m : Z) : Z :=
  if m =? 2 then (if is_leap y then 29 else 28)
  else if (m =? 4) || (m =? 6) || (m =? 9) || (m =? 11) then 30 else 31.

Definition days_before_year (y : Z) : Z :=
  let p := y - 1 in p * 365 + p / 4 - p / 100 + p / 400.

Fixpoint days_before_month_from (y : Z) (k : nat) : Z :=
  match k with
  | O => 0
  | S k' => days_before_month_from y k' + days_in_month y (Z.of_nat k)
  end.

Definition days_before_month (y m : Z) : Z :=
  days_before_month_from y (Z.to_nat (m - 1)).

Definition ordinal (y m d : Z) : Z :=
  days_before_year y + days_before_month y m + d.

Definition date_ok (y m d : Z) : bool :=
  (1 <=? y) && (1 <=? m) && (m <=? 12) && (1 <=? d) && (d <=? days_in_month y m).

Definition time_ok (h mi s : Z) : bool :=
  (h <? 24) && (mi <? 60) && (s <? 60).

Definition is_char (c : ascii) (lit : string) : bool :=
  String.eqb (String c EmptyString) lit.

(** The offset suffix: nothing, or a sign and [HH:MM]. *)
Definition parse_offset (s : list ascii) : option (option Z) :=
  match s with
  | [] => Some None
  | [sg; h1; h2; c; m1; m2] =>
      match two h1 h2, two m1 m2 with
      | Some h, Some m =>
          if is_char c ":" && (h <? 24) && (m <? 60) then
            if is_char sg "+" then Some (Some (h * 3600 + m * 60))
            else if is_char sg "-" then Some (Some (- (h * 3600 + m * 60)))
            else None
          else None
      | _, _ => None
      end
  | _ => None
  end.

Definition fromisoformat (s : string) : option t :=
  match list_ascii_of_string s with
  | y1 :: y2 :: y3 :: y4 :: c1 :: mo1 :: mo2 :: c2 :: d1 :: d2 :: _sep ::
    h1 :: h2 :: c3 :: mi1 :: mi2 :: c4 :: s1 :: s2 :: rest =>
      match four y1 y2 y3 y4, two mo1 mo2, two d1 d2,
            two h1 h2, two mi1 mi2, two s1 s2, parse_offset rest with
      | Some y, Some mo, Some d, Some h, Some mi, Some sec, Some off =>
          if is_char c1 "-" && is_char c2 "-" && is_char c3 ":" && is_char c4 ":"
             && date_ok y mo d && time_ok h mi sec
          then Some (mk ((ordinal y mo d - 1) * 86400 + h * 3600 + mi * 60 + sec) off)
          else None
      | _, _, _, _, _, _, _ => None
      end
  | _ => None
  end.

(** The instant on the UTC time line of an offset-aware value. *)
Definition utc_seconds (d : t) : option Z :=
  match utcoffset d with
  | Some off => Some (local_seconds d - off)
  | None => None
  end.

(** [(a - b)] in seconds; mixing a naive and an aware value raises. *)
Definition sub (a b : t) : option Z :=
  match utcoffset a, utcoffset b with
  | Some oa, Some ob => Some ((local_seconds a - oa) - (local_seconds b - ob))
  | None, None => Some (local_seconds a - local_seconds b)
  | _, _ => None
  end.

(** [timedelta.total_seconds()] of a whole number of seconds. *)
Definition total_seconds (secs : Z) : float :=
  if secs <? 0 then PrimFloat.opp (PrimFloat.of_uint63 (Uint63.of_Z (- secs)))
  else PrimFloat.of_uint63 (Uint63.of_Z secs).

End DateTime.

Definition datetime_fragment : DatetimeLib :=
  {| datetime := DateTime.t;
     timedelta := Z;
     fromisoformat := DateTime.fromisoformat;
     datetime_sub := DateTime.sub;
     total_seconds := DateTime.total_seconds |}.

(** [parse_ts]: read ['Z'] as ["+00:00"], then parse. *)
Definition parse_ts `{L : DatetimeLib} (ts : string) : option datetime :=
  fromisoformat (PyStr.replace "Z" "+00:00" ts).

(* ================================================================= *)
(** ** Data model: the two cache documents *)

Record HourlyDetail : Type := {
  hd_timestamp : string;
  hd_kwh : float;
  hd_rateDkkPerKwh : float;
  hd_amountDkk : float
}.

Record TariffLine : Type := {
  partyChargeTypeId : string;
  amountDkk : float;
  isSubscription : bool;
  hourlyDetail : option (list HourlyDetail)
}.

Record Settlement : Type := {
  periodStart : string;
  periodEnd : string;
  totalEnergyKwh : float;
  marginAmountDkk : float;
  tariffLines : list TariffLine
}.

Record Rate : Type := {
  startDate : string;
  endDate : option string;
  rateDkkPerKwh : float
}.

Record Product : Type := {
  name : string;
  pricingModel : string;
  rates : list Rate
}.

Record ProductPeriod : Type := {
  pp_start : string;
  pp_end : option string;
  productName : string
}.

Record Observation : Type := {
  timestamp : string;
  kwh : float
}.

Record PricePoint : Type := {
  pt_timestamp : string;
  pt_price : float
}.

Record Price : Type := {
  price_type : string;
  chargeId : string;
  points : list PricePoint
}.

Record SpotPrice : Type := {
  hourUtc : string;
  spotPriceDkk : option float
}.

(** The migration cache: [observations] is [data["timeSeries"][0]["observations"]]
    and [productPeriods] is
    [data["customers"][0]["meteringPoints"][0]["productPeriods"]]. *)
Record Data : Type := {
  settlements : list Settlement;
  observations : list Observation;
  products_list : list Product;
  productPeriods : list ProductPeriod;
  prices : list Price
}.

(** The spot price cache: [spot_cache["prices"]]. *)
Definition SpotCache : Type := list SpotPrice.

(* ================================================================= *)
(** ** Lookups *)

(** Spot prices: normalized timestamp to DKK per kWh; [null] prices are left
    out. *)
Definition add_spot_price (d : Dict.t float) (p : SpotPrice) : Dict.t float :=
  match spotPriceDkk p with
  | Some v => Dict.set (norm (hourUtc p)) (v / 1000.0)%float d
  | None => d
  end.

Definition build_spot_lookup (spot_cache : SpotCache) : Dict.t float :=
  fold_left add_spot_price spot_cache Dict.empty.

(** Observations: normalized timestamp to kWh. *)
Definition build_obs_lookup (obs : list Observation) : Dict.t float :=
  fold_left (fun d o => Dict.set (norm (timestamp o)) (kwh o) d) obs Dict.empty.

(** Products by name. *)
Definition build_products (ps : list Product) : Dict.t Product :=
  fold_left (fun d p => Dict.set (name p) p d) ps Dict.empty.

(** Product periods sorted by their raw start. *)
Definition build_prod_periods (pps : list ProductPeriod) : list ProductPeriod :=
  sorted_by_key pp_start pps.

Definition addon_names : list string :=
  [ "Grøn strøm";
    "Leje af plads Anrenne/Mast/Koncent. El";
    "Refusion af omk. for el-forbrug (el)";
    "ØgetBal.geb.udenf-for" ]%string.

(** Python's [<] on a pair [(str, float)]: the first components decide
    unless they are equal, then the second ones do unless they are equal. *)
Definition point_lt (a b : string * float) : bool :=
  if String.eqb (fst a) (fst b)
  then (if PrimFloat.eqb (snd a) (snd b) then false
        else PrimFloat.ltb (snd a) (snd b))
  else PyStr.lt (fst a) (fst b).

(** The sorted points of one subscription price. *)
Definition sorted_points (pts : list PricePoint) : list (string * float) :=
  py_sorted point_lt (map (fun pt => (norm (pt_timestamp pt), pt_price pt)) pts).

(** Subscription prices: charge id to sorted [(norm_ts, monthly_price)]. *)
Definition build_sub_prices (ps : list Price) : Dict.t (list (string * float)) :=
  fold_left
    (fun d p =>
       if String.eqb (price_type p) "Abonnement"
       then Dict.set (chargeId p) (sorted_points (points p)) d
       else d)
    ps Dict.empty.

(** The lookups [main] builds before the settlement loop. *)
Record Lookups : Type := {
  spot_lookup : Dict.t float;
  obs_lookup : Dict.t float;
  products : Dict.t Product;
  prod_periods : list ProductPeriod;
  sub_prices : Dict.t (list (string * float))
}.

Definition build_lookups (data : Data) (spot_cache : SpotCache) : Lookups :=
  {| spot_lookup := build_spot_lookup spot_cache;
     obs_lookup := build_obs_lookup (observations data);
     products := build_products (products_list data);
     prod_periods := build_prod_periods (productPeriods data);
     sub_prices := build_sub_prices (prices data) |}.

(* ================================================================= *)
(** ** Helper functions *)

(** [s <= ps < e] for a product period. *)
Definition period_active (pp : ProductPeriod) (ps : string) : bool :=
  let s := norm (pp_start pp) in
  let e := norm (str_or (pp_end pp) "2099") in
  PyStr.le s ps && PyStr.lt ps e.

Fixpoint find_primary_scan (prods : Dict.t Product) (ps : string)
    (pps : list ProductPeriod) : option Product :=
  match pps with
  | [] => None
  | pp :: rest =>
      if period_active pp ps && negb (str_in (productName pp) addon_names)
      then Dict.get (productName pp) prods
      else find_primary_scan prods ps rest
  end.

(** The primary (non-addon) product active at [period_start]. *)
Definition find_primary_product (lk : Lookups) (period_start : string) : option Product :=
  find_primary_scan (products lk) (norm period_start) (rev (prod_periods lk)).

Fixpoint find_addons_scan (prods : Dict.t Product) (ps : string)
    (pps : list ProductPeriod) (addons : list Product) : list Product :=
  match pps with
  | [] => addons
  | pp :: rest =>
      if period_active pp ps && str_in (productName pp) addon_names
      then match Dict.get (productName pp) prods with
           | Some prod => find_addons_scan prods ps rest (addons ++ [prod])
           | None => find_addons_scan prods ps rest addons
           end
      else find_addons_scan prods ps rest addons
  end.

(** The addon products active at [period_start]. *)
Definition find_addons (lk : Lookups) (period_start : string) : list Product :=
  find_addons_scan (products lk) (norm period_start) (prod_periods lk) [].

(** One turn of the loop of [margin_rate_at]: the rate after looking at [r]. *)
Definition rate_step (ps : string) (rate : float) (r : Rate) : float :=
  let rs := norm (startDate r) in
  match truthy_str (endDate r) with
  | Some e =>
      (* Range: startDate <= period < endDate *)
      if PyStr.le rs ps && PyStr.lt ps (norm e) then rateDkkPerKwh r else rate
  | None =>
      (* Step function: strict less than *)
      if PyStr.lt rs ps then rateDkkPerKwh r else rate
  end.

(** The margin rate (DKK/kWh) of a product at [period_start]. *)
Definition margin_rate_at (product : Product) (period_start : string) : float :=
  let ps := norm period_start in
  fold_left (rate_step ps) (sorted_by_key startDate (rates product)) 0%float.

(** The loop of [sub_price_at]: keep the last price whose instant is not
    after [ps]; stop at the first instant after it. *)
Fixpoint sub_price_scan (ps : string) (pts : list (string * float)) (val : float) : float :=
  match pts with
  | [] => val
  | (t, p) :: rest =>
      if PyStr.le t ps then sub_price_scan ps rest p else val
  end.

(** The subscription monthly price at [period_start]. *)
Definition sub_price_at (lk : Lookups) (charge_id period_start : string) : float :=
  let ps := norm period_start in
  let pts := match Dict.get charge_id (sub_prices lk) with
             | Some l => l
             | None => []
             end in
  sub_price_scan ps pts 0%float.

(* ================================================================= *)
(** ** The settlement loop of [main] *)

(** What the formatted messages carry. *)
Record ConsistencyError : Type := {
  ce_cid : string; ce_total : float; ce_sum : float; ce_diff : float
}.

Record ObsError : Type := {
  oe_hts : string; oe_hd : float; oe_obs : float
}.

Record AddonDiff : Type := {
  ad_name : string; ad_calc : float; ad_ref : float; ad_d : float
}.

Record SubDiff : Type := {
  sd_cid : string; sd_amt : float; sd_monthly : float; sd_days : float
}.

(** The entries of [issues]: ["consistency"], ["obs(n)"], ["margin(d)"] and
    ["addon(n)"]. *)
Inductive Issue : Type :=
| IssueConsistency
| IssueObs (n : nat)
| IssueMargin (d : float)
| IssueAddon (n : nat).

(** The icon of the status line: skipped, validated, failed. *)
Inductive Status : Type := Skipped | Passed | Failed.

(** Truthiness of [t.get("hourlyDetail")]: a missing, [null] or empty list
    is falsy. *)
Definition truthy_detail (t : TariffLine) : option (list HourlyDetail) :=
  match hourlyDetail t with
  | Some (h :: l) => Some (h :: l)
  | _ => None
  end.

(** The observations of the period: [ps <= t < pe]. *)
Definition in_period (ps pe : string) (item : string * float) : bool :=
  PyStr.le ps (fst item) && PyStr.lt (fst item) pe.

Definition period_obs_of (lk : Lookups) (ps pe : string) : Dict.t float :=
  filter (in_period ps pe) (Dict.items (obs_lookup lk)).

(* ----------------------------------------------------------------- *)
(** *** Level 1: internal consistency of tariff lines *)

Record Tier1 : Type := {
  consistency_ok : bool;
  consistency_errors : list ConsistencyError;
  dh_total_ref : float;
  product_total_ref : float
}.

Definition tier1_init : Tier1 :=
  {| consistency_ok := true; consistency_errors := [];
     dh_total_ref := 0%float; product_total_ref := 0%float |}.

(** The hourly sum and the discrepancy of one line. *)
Definition hd_sum_of (hd : list HourlyDetail) : float := py_sum (map hd_amountDkk hd).

Definition line_diff (t : TariffLine) (hd : list HourlyDetail) : float :=
  PrimFloat.abs (amountDkk t - hd_sum_of hd)%float.

Definition tier1_step (st : Tier1) (t : TariffLine) : Tier1 :=
  let cid := partyChargeTypeId t in
  let is_product := PyStr.startswith cid "PRODUCT:" in
  let product_total := if is_product then (product_total_ref st + amountDkk t)%float
                       else product_total_ref st in
  let dh_total := if is_product then dh_total_ref st
                  else (dh_total_ref st + amountDkk t)%float in
  match truthy_detail t with
  | Some hd =>
      let diff := line_diff t hd in
      if (0.01 <? diff)%float
      then {| consistency_ok := false;
              consistency_errors :=
                consistency_errors st ++
                [ {| ce_cid := cid; ce_total := amountDkk t;
                     ce_sum := hd_sum_of hd; ce_diff := diff |} ];
              dh_total_ref := dh_total; product_total_ref := product_total |}
      else {| consistency_ok := consistency_ok st;
              consistency_errors := consistency_errors st;
              dh_total_ref := dh_total; product_total_ref := product_total |}
  | None =>
      {| consistency_ok := consistency_ok st;
         consistency_errors := consistency_errors st;
         dh_total_ref := dh_total; product_total_ref := product_total |}
  end.

Definition tier1 (s : Settlement) : Tier1 :=
  fold_left tier1_step (tariffLines s) tier1_init.

(* ----------------------------------------------------------------- *)
(** *** Level 2: observation matching *)

Record Tier2 : Type := {
  obs_matched : nat;
  obs_mismatched : nat;
  obs_missing : nat;
  obs_errors : list ObsError
}.

Definition tier2_init : Tier2 :=
  {| obs_matched := 0; obs_mismatched := 0; obs_missing := 0; obs_errors := [] |}.

Definition tier2_step (period_obs : Dict.t float) (st : Tier2) (h : HourlyDetail) : Tier2 :=
  let hts := norm (hd_timestamp h) in
  match Dict.get hts period_obs with
  | Some o =>
      if (PrimFloat.abs (hd_kwh h - o) <? 0.005)%float
      then {| obs_matched := obs_matched st + 1;
              obs_mismatched := obs_mismatched st;
              obs_missing := obs_missing st;
              obs_errors := obs_errors st |}
      else {| obs_matched := obs_matched st;
              obs_mismatched := obs_mismatched st + 1;
              obs_missing := obs_missing st;
              obs_errors :=
                if Nat.ltb (length (obs_errors st)) 3
                then obs_errors st ++
                     [ {| oe_hts := hts; oe_hd := hd_kwh h; oe_obs := o |} ]
                else obs_errors st |}
  | None =>
      {| obs_matched := obs_matched st;
         obs_mismatched := obs_mismatched st;
         obs_missing := obs_missing st + 1;
         obs_errors := obs_errors st |}
  end.

(** The first tariff line with hourly detail that is not a subscription; the
    loop stops after it. *)
Fixpoint tier2_line (lines : list TariffLine) : option (list HourlyDetail) :=
  match lines with
  | [] => None
  | t :: rest =>
      match truthy_detail t with
      | Some hd => if negb (isSubscription t) then Some hd else tier2_line rest
      | None => tier2_line rest
      end
  end.

Definition tier2 (period_obs : Dict.t float) (has_obs : bool) (s : Settlement) : Tier2 :=
  if has_obs then
    match tier2_line (tariffLines s) with
    | Some hd => fold_left (tier2_step period_obs) hd tier2_init
    | None => tier2_init
    end
  else tier2_init.

(* ----------------------------------------------------------------- *)
(** *** Level 3: independent calculations *)

(** 3a: spot price. *)
Record SpotAcc : Type := {
  spot_total : float;
  spot_hours : nat;
  spot_missing_hours : nat
}.

Definition spot_init : SpotAcc :=
  {| spot_total := 0%float; spot_hours := 0; spot_missing_hours := 0 |}.

Definition spot_step (spots : Dict.t float) (acc : SpotAcc) (item : string * float) : SpotAcc :=
  let (ts, k) := item in
  match Dict.get ts spots with
  | Some sp =>
      {| spot_total := (spot_total acc + k * sp)%float;
         spot_hours := spot_hours acc + 1;
         spot_missing_hours := spot_missing_hours acc |}
  | None =>
      {| spot_total := spot_total acc;
         spot_hours := spot_hours acc;
         spot_missing_hours := spot_missing_hours acc + 1 |}
  end.

Definition spot_loop (lk : Lookups) (period_obs : Dict.t float) : SpotAcc :=
  fold_left (spot_step (spot_lookup lk)) (Dict.items period_obs) spot_init.

(** The energy a rate is multiplied with: the observed total, or the
    settlement's own total kWh when the period has no observation. *)
Definition energy_basis (period_obs : Dict.t float) (has_obs : bool) (total_kwh : float) : float :=
  if has_obs then py_sum (Dict.values period_obs) else total_kwh.

(** 3c: addon product amounts. *)
Definition addon_step (s : Settlement) (period_obs : Dict.t float) (has_obs : bool)
    (ps_raw : string) (addon_diffs : list AddonDiff) (addon : Product) : list AddonDiff :=
  let addon_name := name addon in
  let addon_rate := margin_rate_at addon ps_raw in
  let product_key := ("PRODUCT:" ++ addon_name)%string in
  match find (fun t => String.eqb (partyChargeTypeId t) product_key) (tariffLines s) with
  | Some ref_line =>
      let ref_amt := amountDkk ref_line in
      let calc_amt := (energy_basis period_obs has_obs (totalEnergyKwh s) * addon_rate)%float in
      let d := (calc_amt - ref_amt)%float in
      if (0.50 <? PrimFloat.abs d)%float
      then addon_diffs ++
           [ {| ad_name := addon_name; ad_calc := calc_amt; ad_ref := ref_amt; ad_d := d |} ]
      else addon_diffs
  | None => addon_diffs
  end.

(** 3d: the day count of the period; [None] when a timestamp does not parse
    or the two cannot be subtracted (the exception ends the run). *)
Definition period_days `{L : DatetimeLib} (ps_raw pe_raw : string) : option float :=
  match parse_ts ps_raw, parse_ts pe_raw with
  | Some ps_dt, Some pe_dt =>
      match datetime_sub pe_dt ps_dt with
      | Some delta => Some (total_seconds delta / 86400)%float
      | None => None
      end
  | _, _ => None
  end.

Definition is_sub_line (t : TariffLine) : bool :=
  isSubscription t && negb (PyStr.startswith (partyChargeTypeId t) "PRODUCT:").

Definition sub_mismatch (ref_amt monthly_rate days : float) : bool :=
  ((0 <? monthly_rate) && (0.01 <? PrimFloat.abs ref_amt) &&
   (let ratio := ref_amt / monthly_rate in
    (0.15 <? PrimFloat.abs (ratio - 1.0)) &&
    (0.15 <? PrimFloat.abs (ratio - days / 30.0))))%float.

Fixpoint sub_loop `{L : DatetimeLib}
    (lk : Lookups) (ps_raw pe_raw : string) (lines : list TariffLine)
    (sub_diffs : list SubDiff) : option (list SubDiff) :=
  match lines with
  | [] => Some sub_diffs
  | t :: rest =>
      if is_sub_line t then
        let cid := partyChargeTypeId t in
        let monthly_rate := sub_price_at lk cid ps_raw in
        match period_days ps_raw pe_raw with
        | Some days =>
            let ref_amt := amountDkk t in
            if sub_mismatch ref_amt monthly_rate days
            then sub_loop lk ps_raw pe_raw rest
                   (sub_diffs ++
                    [ {| sd_cid := cid; sd_amt := ref_amt;
                         sd_monthly := monthly_rate; sd_days := days |} ])
            else sub_loop lk ps_raw pe_raw rest sub_diffs
        | None => None
        end
      else sub_loop lk ps_raw pe_raw rest sub_diffs
  end.

(* ----------------------------------------------------------------- *)
(** *** Overall status and the result record *)

Definition margin_issue (margin_diff : option float) : list Issue :=
  match margin_diff with
  | Some d => if (1.0 <? PrimFloat.abs d)%float then [IssueMargin d] else []
  | None => []
  end.

Definition issues_of (t1 : Tier1) (t2 : Tier2) (margin_diff : option float)
    (addon_diffs : list AddonDiff) : list Issue :=
  (if negb (consistency_ok t1) then [IssueConsistency] else []) ++
  (if Nat.ltb 2 (obs_mismatched t2) then [IssueObs (obs_mismatched t2)] else []) ++
  margin_issue margin_diff ++
  (match addon_diffs with
   | [] => []
   | _ :: _ => [IssueAddon (length addon_diffs)]
   end).

(** The dictionary [r] appended to [results]. *)
Record Result : Type := {
  r_i : nat;
  r_ps : string;
  r_pe : string;
  r_kwh : float;
  r_has_obs : bool;
  r_obs_n : nat;
  r_prod : string;
  r_model : string;
  r_tier1 : Tier1;
  r_tier2 : Tier2;
  r_recalc_spot : option float;
  r_recalc_margin : option float;
  r_margin_ref : float;
  r_margin_diff : option float;
  r_addon_diffs : list AddonDiff;
  r_sub_diffs : list SubDiff;
  r_issues : list Issue;
  r_ok : bool;
  r_spot_missing : option nat
}.

(** The result of the loop body for settlement [s] at position [i], given
    the subscription findings of step 3d. *)
Definition result_of (lk : Lookups) (i : nat) (s : Settlement)
    (sub_diffs : list SubDiff) : Result :=
  let ps_raw := periodStart s in
  let pe_raw := periodEnd s in
  let ps := norm ps_raw in
  let pe := norm pe_raw in
  let total_kwh := totalEnergyKwh s in
  let margin_ref := marginAmountDkk s in
  let period_obs := period_obs_of lk ps pe in
  let has_obs := Nat.ltb 0 (length period_obs) in
  let prod := find_primary_product lk ps_raw in
  let prod_name := match prod with Some p => name p | None => "?"%string end in
  let model := match prod with Some p => pricingModel p | None => "Unknown"%string end in
  let addons := find_addons lk ps_raw in
  let t1 := tier1 s in
  let t2 := tier2 period_obs has_obs s in
  let spot :=
    if has_obs && String.eqb model "SpotAddon"
    then Some (spot_loop lk period_obs) else None in
  let recalc_spot := option_map spot_total spot in
  let recalc_margin :=
    match prod with
    | Some p =>
        Some (energy_basis period_obs has_obs total_kwh * margin_rate_at p ps_raw)%float
    | None => None
    end in
  let margin_diff := option_map (fun m => (m - margin_ref)%float) recalc_margin in
  let addon_diffs := fold_left (addon_step s period_obs has_obs ps_raw) addons [] in
  let issues := issues_of t1 t2 margin_diff addon_diffs in
  let is_ok := Nat.eqb (length issues) 0 in
  {| r_i := i; r_ps := ps; r_pe := pe; r_kwh := total_kwh;
     r_has_obs := has_obs; r_obs_n := length period_obs;
     r_prod := prod_name; r_model := model;
     r_tier1 := t1; r_tier2 := t2;
     r_recalc_spot := recalc_spot; r_recalc_margin := recalc_margin;
     r_margin_ref := margin_ref; r_margin_diff := margin_diff;
     r_addon_diffs := addon_diffs; r_sub_diffs := sub_diffs;
     r_issues := issues; r_ok := is_ok;
     r_spot_missing := option_map spot_missing_hours spot |}.

(** The body of the loop; [None] when the day count of step 3d raises. *)
Definition validate_settlement `{L : DatetimeLib}
    (lk : Lookups) (i : nat) (s : Settlement) : option Result :=
  match sub_loop lk (periodStart s) (periodEnd s) (tariffLines s) [] with
  | Some sub_diffs => Some (result_of lk i s sub_diffs)
  | None => None
  end.

(** The icon printed for a result. *)
Definition icon (r : Result) : Status :=
  if negb (r_has_obs r) then Skipped
  else if r_ok r then Passed
  else Failed.

(** The settlement loop: every settlement, or only the one at [--index]; an
    exception in one turn ends the run. *)
Fixpoint settlement_loop `{L : DatetimeLib} (lk : Lookups) (index : option nat) (i : nat)
    (ss : list Settlement) (results : list Result) : option (list Result) :=
  match ss with
  | [] => Some results
  | s :: rest =>
      let skip := match index with
                  | Some j => negb (Nat.eqb i j)
                  | None => false
                  end in
      if skip then settlement_loop lk index (S i) rest results
      else match validate_settlement lk i s with
           | Some r => settlement_loop lk index (S i) rest (results ++ [r])
           | None => None
           end
  end.

Definition main_results `{L : DatetimeLib}
    (data : Data) (spot_cache : SpotCache) (index : option nat)
  : option (list Result) :=
  settlement_loop (build_lookups data spot_cache) index 0 (settlements data) [].

(* ================================================================= *)
(** ** Vocabulary of the properties *)

(** The order of two elements by their string keys. *)
Definition key_le {A : Type} (key : A -> string) (a b : A) : Prop :=
  PyStr.le (key a) (key b) = true.

Definition key_lt {A : Type} (key : A -> string) (a b : A) : Prop :=
  PyStr.lt (key a) (key b) = true.

(** The schedule order of two subscription points. *)
Definition instant_le (a b : string * float) : Prop :=
  PyStr.le (fst a) (fst b) = true.

(** The applicability condition of a schedule entry at the (normalized)
    reference instant [t], in the words of the two conventions. *)
Definition applicable (r : Rate) (t : string) : Prop :=
  match truthy_str (endDate r) with
  | Some e => PyStr.le (norm (startDate r)) t = true /\ PyStr.lt t (norm e) = true
  | None => PyStr.lt (norm (startDate r)) t = true
  end.

(** The same condition as a test. *)
Definition applies (t : string) (r : Rate) : bool :=
  match truthy_str (endDate r) with
  | Some e => PyStr.le (norm (startDate r)) t && PyStr.lt t (norm e)
  | None => PyStr.lt (norm (startDate r)) t
  end.

(** Product [p] with the schedule [rs]. *)
Definition with_rates (p : Product) (rs : list Rate) : Product :=
  {| name := name p; pricingModel := pricingModel p; rates := rs |}.

(** The hourly amounts of a line added up: every entry, in order, from
    zero. *)
Definition detail_sum (hd : list HourlyDetail) : float :=
  fold_left (fun acc h => (acc + hd_amountDkk h)%float) hd 0%float.

(** The discrepancy between the amount of a line and its hourly amounts. *)
Definition discrepancy (t : TariffLine) (hd : list HourlyDetail) : float :=
  PrimFloat.abs (amountDkk t - detail_sum hd)%float.

(** What one tariff line adds to [consistency_errors]. *)
Definition tier1_finding (t : TariffLine) : list ConsistencyError :=
  match truthy_detail t with
  | Some hd =>
      if (0.01 <? discrepancy t hd)%float
      then [ {| ce_cid := partyChargeTypeId t; ce_total := amountDkk t;
                ce_sum := detail_sum hd; ce_diff := discrepancy t hd |} ]
      else []
  | None => []
  end.

(** A tariff line whose amount is [amount] and whose hourly amounts are
    [hourly]. *)
Definition line_with (amount : float) (hourly : list float) : TariffLine :=
  {| partyChargeTypeId := "40000"; amountDkk := amount; isSubscription := false;
     hourlyDetail :=
       Some (map (fun a => {| hd_timestamp := "2024-01-01T00:00:00Z"; hd_kwh := 1;
                              hd_rateDkkPerKwh := a; hd_amountDkk := a |}) hourly) |}.

(** The three outcomes for an hourly detail entry [h] against the
    observations of the period. *)
Definition is_matched (period_obs : Dict.t float) (h : HourlyDetail) : bool :=
  match Dict.get (norm (hd_timestamp h)) period_obs with
  | Some o => (PrimFloat.abs (hd_kwh h - o) <? 0.005)%float
  | None => false
  end.

Definition is_mismatched (period_obs : Dict.t float) (h : HourlyDetail) : bool :=
  match Dict.get (norm (hd_timestamp h)) period_obs with
  | Some o => negb (PrimFloat.abs (hd_kwh h - o) <? 0.005)%float
  | None => false
  end.

Definition is_missing (period_obs : Dict.t float) (h : HourlyDetail) : bool :=
  match Dict.get (norm (hd_timestamp h)) period_obs with
  | Some _ => false
  | None => true
  end.

(** What a mismatching entry adds to [obs_errors] while there is room. *)
Definition mismatch_record (period_obs : Dict.t float) (h : HourlyDetail) : list ObsError :=
  match Dict.get (norm (hd_timestamp h)) period_obs with
  | Some o =>
      if (PrimFloat.abs (hd_kwh h - o) <? 0.005)%float then []
      else [ {| oe_hts := norm (hd_timestamp h); oe_hd := hd_kwh h; oe_obs := o |} ]
  | None => []
  end.

(** What one observation hour adds to the spot total, and whether it lacks
    a spot price. *)
Definition spot_contribution (spots : Dict.t float) (item : string * float) : list float :=
  match Dict.get (fst item) spots with
  | Some sp => [(snd item * sp)%float]
  | None => []
  end.

Definition lacks_spot (spots : Dict.t float) (item : string * float) : bool :=
  match Dict.get (fst item) spots with
  | Some _ => false
  | None => true
  end.

(** The cache entry carries a price. *)
Definition has_price (p : SpotPrice) : bool :=
  match spotPriceDkk p with Some _ => true | None => false end.

(** What one addon adds to [addon_diffs], given the energy [basis]. *)
Definition addon_finding (s : Settlement) (basis : float) (ps_raw : string)
    (addon : Product) : list AddonDiff :=
  match find (fun t => String.eqb (partyChargeTypeId t) ("PRODUCT:" ++ name addon)%string)
             (tariffLines s) with
  | Some ref_line =>
      let calc_amt := (basis * margin_rate_at addon ps_raw)%float in
      let d := (calc_amt - amountDkk ref_line)%float in
      if (0.50 <? PrimFloat.abs d)%float
      then [ {| ad_name := name addon; ad_calc := calc_amt;
                ad_ref := amountDkk ref_line; ad_d := d |} ]
      else []
  | None => []
  end.

(* ================================================================= *)
(** ** Worked values *)

(** A ranged entry for the first quarter of 2024 and the spot product that
    carries it. *)
Definition rate_q1 : Rate :=
  {| startDate := "2024-01-01"; endDate := Some "2024-04-01"%string;
     rateDkkPerKwh := 0.02 |}.

Definition product_q1 : Product :=
  {| name := "Spot"; pricingModel := "SpotAddon"; rates := [rate_q1] |}.

(** Two open-ended entries with distinct starts. *)
Definition rate_jan : Rate :=
  {| startDate := "2024-01-01"; endDate := None; rateDkkPerKwh := 0.1 |}.

Definition rate_feb : Rate :=
  {| startDate := "2024-02-01"; endDate := None; rateDkkPerKwh := 0.2 |}.

(** Two entries that start at the same instant. *)
Definition rate_tie_a : Rate :=
  {| startDate := "2024-01-01"; endDate := None; rateDkkPerKwh := 0.1 |}.

Definition rate_tie_b : Rate :=
  {| startDate := "2024-01-01"; endDate := None; rateDkkPerKwh := 0.2 |}.

(** A settlement for Level 1 whose lines carry several hourly amounts. *)
Definition settlement_lines : Settlement :=
  {| periodStart := "2024-01-01T00:00:00Z"; periodEnd := "2024-01-02T00:00:00Z";
     totalEnergyKwh := 24; marginAmountDkk := 0.48;
     tariffLines := [ line_with 0.75 [0.25; 0.25; 0.25]%float;
                      line_with 0.5 [0.5; 0.25]%float;
                      line_with 0.505 [0.25; 0.25]%float ] |}.

(* ----------------------------------------------------------------- *)
(** *** A small cache *)

(** One metering point on the spot product with the green-power addon and a
    monthly subscription.  January 1st has three observations; February has
    none.  The spot cache prices hour 00, holds a [null] for hour 01 and has
    no entry for hour 03. *)
Definition hour (hh : string) : string := ("2024-01-01T" ++ hh ++ ":00:00Z")%string.

Definition detail (hh : string) (k : float) : HourlyDetail :=
  {| hd_timestamp := hour hh; hd_kwh := k; hd_rateDkkPerKwh := 0.25;
     hd_amountDkk := 0.25 |}.

Definition subscription_line : TariffLine :=
  {| partyChargeTypeId := "40000"; amountDkk := 10; isSubscription := true;
     hourlyDetail := None |}.

Definition settlement_jan : Settlement :=
  {| periodStart := "2024-01-01T00:00:00Z"; periodEnd := "2024-01-02T00:00:00Z";
     totalEnergyKwh := 4; marginAmountDkk := 0.08;
     tariffLines :=
       [ subscription_line;
         {| partyChargeTypeId := "DT_C_01"; amountDkk := 0.75; isSubscription := false;
            hourlyDetail := Some [detail "00" 1; detail "01" 1.01; detail "02" 1] |} ] |}.

Definition settlement_feb : Settlement :=
  {| periodStart := "2024-02-01T00:00:00Z"; periodEnd := "2024-03-01T00:00:00Z";
     totalEnergyKwh := 100; marginAmountDkk := 50;
     tariffLines :=
       [ subscription_line;
         {| partyChargeTypeId := "PRODUCT:Grøn strøm"; amountDkk := 1;
            isSubscription := false; hourlyDetail := None |} ] |}.

Definition product_green : Product :=
  {| name := "Grøn strøm"; pricingModel := "Fixed";
     rates := [ {| startDate := "2023-01-01"; endDate := None; rateDkkPerKwh := 0.05 |} ] |}.

Definition cache : Data :=
  {| settlements := [settlement_jan; settlement_feb];
     observations :=
       [ {| timestamp := hour "00"; kwh := 1 |};
         {| timestamp := hour "01"; kwh := 1 |};
         {| timestamp := hour "03"; kwh := 2 |} ];
     products_list := [product_q1; product_green];
     productPeriods :=
       [ {| pp_start := "2023-01-01T00:00:00Z"; pp_end := None; productName := "Spot" |};
         {| pp_start := "2023-01-01T00:00:00Z"; pp_end := None;
            productName := "Grøn strøm" |} ];
     prices :=
       [ {| price_type := "Abonnement"; chargeId := "40000";
            points := [ {| pt_timestamp := "2023-01-01T00:00:00Z"; pt_price := 30 |} ] |} ] |}.

Definition spot_prices : SpotCache :=
  [ {| hourUtc := hour "00"; spotPriceDkk := Some 500%float |};
    {| hourUtc := hour "01"; spotPriceDkk := None |} ].

Definition lookups : Lookups := build_lookups cache spot_prices.

Definition result_jan : Result :=
  result_of lookups 0 settlement_jan
    [ {| sd_cid := "40000"; sd_amt := 10; sd_monthly := 30; sd_days := 1 |} ].

Definition result_feb : Result :=
  result_of lookups 1 settlement_feb
    [ {| sd_cid := "40000"; sd_amt := 10; sd_monthly := 30; sd_days := 29 |} ].

(* ----------------------------------------------------------------- *)
(** *** Timestamps on the time line *)

(** The UTC instant, in seconds, that an offset-aware timestamp denotes. *)
Definition utc_instant (ts : string) : option Z :=
  match parse_ts (L := datetime_fragment) ts with
  | Some d => DateTime.utc_seconds d
  | None => None
  end.

(** An open-ended entry and a ranged entry that start at midnight UTC of
    2024-01-01; the ranged one ends at midnight UTC of 2024-04-01. *)
Definition rate_open_z : Rate :=
  {| startDate := "2024-01-01T00:00:00Z"; endDate := None; rateDkkPerKwh := 0.1 |}.

Definition rate_ranged_z : Rate :=
  {| startDate := "2024-01-01T00:00:00Z"; endDate := Some "2024-04-01T00:00:00Z"%string;
     rateDkkPerKwh := 0.02 |}.

(** A cache whose subscription schedule for charge 40000 is listed out of
    order; an earlier subscription price of the same charge and a tariff of
    the same charge come before it. *)
Definition cache_schedule : Data :=
  {| settlements := []; observations := []; products_list := []; productPeriods := [];
     prices :=
       [ {| price_type := "Abonnement"; chargeId := "40000";
            points := [ {| pt_timestamp := "2020-01-01T00:00:00Z"; pt_price := 99 |} ] |};
         {| price_type := "Abonnement"; chargeId := "40000";
            points := [ {| pt_timestamp := "2024-06-01T00:00:00Z"; pt_price := 40 |};
                        {| pt_timestamp := "2023-01-01T00:00:00Z"; pt_price := 30 |};
                        {| pt_timestamp := "2024-01-01T00:00:00Z"; pt_price := 35 |} ] |};
         {| price_type := "Tarif"; chargeId := "40000";
            points := [ {| pt_timestamp := "2024-02-01T00:00:00Z"; pt_price := 1 |} ] |} ] |}.

(** Two subscription schedules whose only entry is written with an offset:
    [2024-01-01T00:00:00-01:00] is 01:00 UTC of that day, and
    [2024-01-01T00:00:00+01:00] is 23:00 UTC of the day before. *)
Definition cache_offsets : Data :=
  {| settlements := []; observations := []; products_list := []; productPeriods := [];
     prices :=
       [ {| price_type := "Abonnement"; chargeId := "40000";
            points := [ {| pt_timestamp := "2024-01-01T00:00:00-01:00";
                           pt_price := 40 |} ] |};
         {| price_type := "Abonnement"; chargeId := "40001";
            points := [ {| pt_timestamp := "2024-01-01T00:00:00+01:00";
                           pt_price := 50 |} ] |} ] |}.

(* ----------------------------------------------------------------- *)
(** *** A period that ends before the last observation *)

(** The first three hours of January 1st.  The line has an entry for hour
    03, for which the cache has an observation of the same kWh, but hour 03
    is not in the period. *)
Definition settlement_hours : Settlement :=
  {| periodStart := hour "00"; periodEnd := hour "03";
     totalEnergyKwh := 4; marginAmountDkk := 0.04;
     tariffLines :=
       [ {| partyChargeTypeId := "DT_C_01"; amountDkk := 0.75; isSubscription := false;
            hourlyDetail := Some [detail "00" 1; detail "01" 1.01; detail "03" 2] |} ] |}.

Definition result_hours : Result := result_of lookups 0 settlement_hours [].

(* ----------------------------------------------------------------- *)
(** *** A spot cache with several entries per hour *)

(** Hour 01 comes first; hour 00 is priced twice, with a [null] entry in
    between; hour 03 has no entry. *)
Definition spot_prices_late : SpotCache :=
  [ {| hourUtc := hour "01"; spotPriceDkk := Some 250%float |};
    {| hourUtc := hour "00"; spotPriceDkk := Some 500%float |};
    {| hourUtc := hour "00"; spotPriceDkk := None |};
    {| hourUtc := "2024-01-01T00:00:00+00:00"; spotPriceDkk := Some 750%float |} ].

Definition lookups_late : Lookups := build_lookups cache spot_prices_late.

Definition result_jan_late : Result :=
  result_of lookups_late 0 settlement_jan
    [ {| sd_cid := "40000"; sd_amt := 10; sd_monthly := 30; sd_days := 1 |} ].

(* ================================================================= *)
(** ** The summary of [main] *)

(** The name an issue is counted under: [iss.split("(")[0]]. *)
Definition issue_type (iss : Issue) : string :=
  match iss with
  | IssueConsistency => "consistency"
  | IssueObs _ => "obs"
  | IssueMargin _ => "margin"
  | IssueAddon _ => "addon"
  end.

(** [issue_types[k] += 1] on a [defaultdict(int)]. *)
Definition count_issue (d : Dict.t nat) (k : string) : Dict.t nat :=
  Dict.set k (match Dict.get k d with Some n => n | None => 0 end + 1) d.

Definition issue_types_of (results : list Result) : Dict.t nat :=
  fold_left
    (fun d r => fold_left (fun d' iss => count_issue d' (issue_type iss)) (r_issues r) d)
    results Dict.empty.

(** [sorted(issue_types.items(), key=lambda x: -x[1])] *)
Definition issue_breakdown (results : list Result) : list (string * nat) :=
  py_sorted (fun a b => Z.ltb (- Z.of_nat (snd a)) (- Z.of_nat (snd b)))
            (Dict.items (issue_types_of results)).

(** [max] of a non-empty sequence of floats: a later item replaces the
    current one only when it is greater. *)
Definition py_max (x : float) (l : list float) : float :=
  fold_left (fun m y => if (m <? y)%float then y else m) l x.

(** The values of [key] that are not [None]. *)
Definition present {A B : Type} (key : A -> option B) (l : list A) : list B :=
  flat_map (fun a => match key a with Some b => [b] | None => [] end) l.

(** [sum] of integers. *)
Definition nat_sum (l : list nat) : nat := fold_left Nat.add l 0.

(** What the summary prints when some settlement has observations. *)
Record ObsSummary : Type := {
  sum_validated : nat;
  sum_all_consistent : bool;
  sum_margin : option (float * float);
  sum_spot : option (float * nat * nat);
  sum_obs_match : nat;
  sum_obs_mismatch : nat;
  sum_obs_missing : nat;
  sum_none_ok : bool
}.

Record Summary : Type := {
  sum_total : nat;
  sum_with_obs : nat;
  sum_without_obs : nat;
  sum_details : option ObsSummary;
  sum_issues : list (string * nat)
}.

Definition spot_missing_truthy (r : Result) : list nat :=
  match r_spot_missing r with
  | Some (S n) => [S n]
  | _ => []
  end.

Definition summary_of (results : list Result) : Summary :=
  let with_obs := filter r_has_obs results in
  let without_obs := filter (fun r => negb (r_has_obs r)) results in
  let ok_list := filter r_ok with_obs in
  let details :=
    match with_obs with
    | [] => None
    | _ :: _ =>
        let all_consistent := forallb (fun r => consistency_ok (r_tier1 r)) results in
        let margin_diffs := present r_margin_diff with_obs in
        let margin :=
          match map PrimFloat.abs margin_diffs with
          | [] => None
          | d :: ds => Some (py_sum (d :: ds), py_max d ds)
          end in
        let spot_totals := present r_recalc_spot with_obs in
        let spot :=
          match spot_totals with
          | [] => None
          | _ :: _ =>
              Some (py_sum spot_totals, length spot_totals,
                    nat_sum (flat_map spot_missing_truthy with_obs))
          end in
        Some {| sum_validated := length ok_list;
                sum_all_consistent := all_consistent;
                sum_margin := margin;
                sum_spot := spot;
                sum_obs_match := nat_sum (map (fun r => obs_matched (r_tier2 r)) with_obs);
                sum_obs_mismatch := nat_sum (map (fun r => obs_mismatched (r_tier2 r)) with_obs);
                sum_obs_missing := nat_sum (map (fun r => obs_missing (r_tier2 r)) with_obs);
                sum_none_ok := match ok_list with [] => true | _ :: _ => false end |}
    end in
  {| sum_total := length results;
     sum_with_obs := length with_obs;
     sum_without_obs := length without_obs;
     sum_details := details;
     sum_issues := issue_breakdown results |}.

(* ================================================================= *)
(** ** Vocabulary of the further properties *)

(** An element of a loop of dictionary assignments writes under [k]; the
    value it writes. *)
Definition assigns {A V : Type} (kv : A -> option (string * V)) (k : string) (x : A) : bool :=
  match kv x with
  | Some (k', _) => String.eqb k k'
  | None => false
  end.

Definition assigned {A V : Type} (kv : A -> option (string * V)) (x : A) : option V :=
  match kv x with
  | Some (_, v) => Some v
  | None => None
  end.

(** A product period is a candidate for the primary product, or for an
    addon, at the normalized instant [ps]. *)
Definition qualifies_primary (ps : string) (pp : ProductPeriod) : bool :=
  period_active pp ps && negb (str_in (productName pp) addon_names).

Definition qualifies_addon (ps : string) (pp : ProductPeriod) : bool :=
  period_active pp ps && str_in (productName pp) addon_names.

(** The tariff line carries a product charge. *)
Definition is_product_line (t : TariffLine) : bool :=
  PyStr.startswith (partyChargeTypeId t) "PRODUCT:".

(** The addon product a product period contributes at [ps], if any. *)
Definition addon_of (prods : Dict.t Product) (ps : string) (pp : ProductPeriod)
  : list Product :=
  if qualifies_addon ps pp
  then match Dict.get (productName pp) prods with
       | Some prod => [prod]
       | None => []
       end
  else [].

(** What one tariff line adds to [sub_diffs], given the day count. *)
Definition sub_finding (lk : Lookups) (ps_raw : string) (days : float)
    (t : TariffLine) : list SubDiff :=
  if is_sub_line t then
    let monthly_rate := sub_price_at lk (partyChargeTypeId t) ps_raw in
    if sub_mismatch (amountDkk t) monthly_rate days
    then [ {| sd_cid := partyChargeTypeId t; sd_amt := amountDkk t;
              sd_monthly := monthly_rate; sd_days := days |} ]
    else []
  else [].

(** The number of results whose status line shows [c]. *)
Definition shows (c : Status) (r : Result) : bool :=
  match icon r, c with
  | Skipped, Skipped | Passed, Passed | Failed, Failed => true
  | _, _ => false
  end.

(** The number of issues counted under [k] in all results. *)
Definition issues_named (k : string) (results : list Result) : nat :=
  length (filter (fun iss => String.eqb k (issue_type iss)) (flat_map r_issues results)).

(* ================================================================= *)
(** ** The spot price cache (fetch-spot-prices.py, push-spot-prices.py) *)

(** A record of the price service and an entry of the cache file. *)
Record ApiRecord : Type := {
  HourUTC : string;
  HourDK : string;
  PriceArea : string;
  SpotPriceDKK : option float;
  SpotPriceEUR : option float
}.

Record CachedPrice : Type := {
  c_hourUtc : string;
  c_hourDk : string;
  c_area : string;
  c_spotPriceDkk : option float;
  c_spotPriceEur : option float
}.

(** The state of the fetch loop: [cache["prices"]], the set
    [existing_hours] (used through membership only) and [new_count]. *)
Record FetchState : Type := {
  fs_prices : list CachedPrice;
  fs_existing_hours : list string;
  fs_new_count : nat
}.

Definition load_state (prices : list CachedPrice) : FetchState :=
  {| fs_prices := prices;
     fs_existing_hours := map c_hourUtc prices;
     fs_new_count := 0 |}.

Definition cache_entry (r : ApiRecord) : CachedPrice :=
  {| c_hourUtc := HourUTC r; c_hourDk := HourDK r; c_area := PriceArea r;
     c_spotPriceDkk := SpotPriceDKK r; c_spotPriceEur := SpotPriceEUR r |}.

(** One turn of [for r in records]. *)
Definition merge_record (st : FetchState) (r : ApiRecord) : FetchState :=
  if str_in (HourUTC r) (fs_existing_hours st) then st
  else {| fs_prices := fs_prices st ++ [cache_entry r];
          fs_existing_hours := HourUTC r :: fs_existing_hours st;
          fs_new_count := fs_new_count st + 1 |}.

(** The records of one batch, and of the batches of a run in order. *)
Definition merge_records (st : FetchState) (records : list ApiRecord) : FetchState :=
  fold_left merge_record records st.

Definition merge_batches (prices : list CachedPrice) (batches : list (list ApiRecord))
  : FetchState :=
  fold_left merge_records batches (load_state prices).

(** [cache["prices"].sort(key=lambda p: p["hourUtc"])] *)
Definition sort_prices (prices : list CachedPrice) : list CachedPrice :=
  sorted_by_key c_hourUtc prices.

(** The statistics of the cache written after the sort: [Some None] for an
    empty cache, which gets no statistics, and [None] where [min] raises
    for an empty sequence. *)
Record Stats : Type := {
  st_min : float;
  st_max : float;
  st_avg : float;
  st_first : string;
  st_last : string
}.

(** [min] of a non-empty sequence of floats: a later item replaces the
    current one only when it is less. *)
Definition py_min (x : float) (l : list float) : float :=
  fold_left (fun m y => if (y <? m)%float then y else m) l x.

Definition len_float {A : Type} (l : list A) : float :=
  PrimFloat.of_uint63 (Uint63.of_Z (Z.of_nat (length l))).

Definition stats_of (prices : list CachedPrice) : option (option Stats) :=
  match prices with
  | [] => Some None
  | p0 :: _ =>
      match present c_spotPriceDkk prices with
      | [] => None
      | v :: vs =>
          Some (Some {| st_min := py_min v vs;
                        st_max := py_max v vs;
                        st_avg := (py_sum (v :: vs) / len_float (v :: vs))%float;
                        st_first := c_hourUtc p0;
                        st_last := c_hourUtc (last prices p0) |})
      end
  end.

(** [range(i, n, step)] for a positive [step], with [fuel] turns at most. *)
Fixpoint range_from (fuel i n step : nat) : list nat :=
  match fuel with
  | O => []
  | S f => if Nat.ltb i n then i :: range_from f (i + step) n step else []
  end.

Definition py_range (n step : nat) : list nat := range_from n 0 n step.

(** [l[i:j]] for [0 <= i <= j]. *)
Definition slice {A : Type} (l : list A) (i j : nat) : list A :=
  firstn (j - i) (skipn i l).

Definition BATCH_SIZE : nat := 2000.

Record PushPoint : Type := {
  push_timestamp : string;
  priceDkkPerKwh : float
}.

(** [p["spotPriceDkk"] is None] *)
Definition null_price (p : SpotPrice) : bool :=
  match spotPriceDkk p with None => true | Some _ => false end.

(** The batches of the push loop: [points[i:i+BATCH_SIZE]] for [i] in
    [range(0, len(points), BATCH_SIZE)]. *)
Definition batches_of (points : list PushPoint) : list (list PushPoint) :=
  map (fun i => slice points i (i + BATCH_SIZE)) (py_range (length points) BATCH_SIZE).

(** What one [requests.post] gives back: the call raises, or there is a
    reply with a status code.  The body of a reply counts only when the
    status is 200: [None] when [r.json()] raises, otherwise the numbers
    under ["inserted"] and ["updated"], each of which may be absent. *)
Inductive Post : Type :=
| PostRaises
| PostReply (status_code : Z) (json : option (option Z * option Z)).

(** How a run of the push loop ends: it posts every batch and prints the
    totals, it leaves through [sys.exit(1)] after a reply that is not 200,
    or an exception of [requests.post] or [r.json()] ends it. *)
Inductive PushEnd : Type :=
| Done (total_inserted total_updated : Z)
| Exit1
| Raised.

(** The batches handed to [requests.post], in order, and the end of the
    run. *)
Record PushRun : Type := {
  sent : list (list PushPoint);
  push_end : PushEnd
}.

(** [result.get(key, 0)] *)
Definition get_or_zero (o : option Z) : Z :=
  match o with Some n => n | None => 0%Z end.

(** The push loop from its [k]-th request on; [replies j] is what the
    [j]-th request of the run gives back. *)
Fixpoint push_loop (replies : nat -> Post) (batches : list (list PushPoint)) (k : nat)
    (sent_so_far : list (list PushPoint)) (total_inserted total_updated : Z) : PushRun :=
  match batches with
  | [] => {| sent := sent_so_far; push_end := Done total_inserted total_updated |}
  | batch :: rest =>
      match replies k with
      | PostRaises => {| sent := sent_so_far ++ [batch]; push_end := Raised |}
      | PostReply status_code json =>
          if negb (Z.eqb status_code 200)
          then {| sent := sent_so_far ++ [batch]; push_end := Exit1 |}
          else match json with
               | None => {| sent := sent_so_far ++ [batch]; push_end := Raised |}
               | Some (ins, upd) =>
                   push_loop replies rest (S k) (sent_so_far ++ [batch])
                             (total_inserted + get_or_zero ins)
                             (total_updated + get_or_zero upd)
               end
      end
  end.

(** A request that lets the loop go on, one that makes it leave through
    [sys.exit(1)], and the counts a reply adds to the totals. *)
Definition accepted (p : Post) : bool :=
  match p with
  | PostReply status_code (Some _) => Z.eqb status_code 200
  | _ => false
  end.

Definition refused (p : Post) : bool :=
  match p with
  | PostReply status_code _ => negb (Z.eqb status_code 200)
  | PostRaises => false
  end.

Definition inserted_of (p : Post) : Z :=
  match p with
  | PostReply _ (Some (ins, _)) => get_or_zero ins
  | _ => 0%Z
  end.

Definition updated_of (p : Post) : Z :=
  match p with
  | PostReply _ (Some (_, upd)) => get_or_zero upd
  | _ => 0%Z
  end.

(** The sum of [f] over the replies to the requests [k], ..., [k + n - 1]. *)
Definition total_over (f : Post -> Z) (replies : nat -> Post) (k n : nat) : Z :=
  fold_left Z.add (map (fun j => f (replies j)) (seq k n)) 0%Z.

Section Push.

(** Python's [round(x, 8)]. *)
Variable round8 : float -> float.

(** The conversion loop: the points to push and the number of entries
    skipped for a [null] price. *)
Definition convert_step (st : list PushPoint * nat) (p : SpotPrice) : list PushPoint * nat :=
  match spotPriceDkk p with
  | None => (fst st, snd st + 1)
  | Some v =>
      (fst st ++ [ {| push_timestamp := hourUtc p;
                      priceDkkPerKwh := round8 (v / 1000)%float |} ],
       snd st)
  end.

(** The point of a priced cache entry. *)
Definition point_of (p : SpotPrice) : list PushPoint :=
  match spotPriceDkk p with
  | None => []
  | Some v => [ {| push_timestamp := hourUtc p;
                   priceDkkPerKwh := round8 (v / 1000)%float |} ]
  end.

Definition convert_prices (prices : list SpotPrice) : list PushPoint * nat :=
  fold_left convert_step prices ([], 0).

(** A run of the push script against the replies of the server; [None]
    when there is no point, where [points[0]] raises before anything is
    sent. *)
Definition push_run (replies : nat -> Post) (prices : list SpotPrice) : option PushRun :=
  let points := fst (convert_prices prices) in
  match points with
  | [] => None
  | _ :: _ => Some (push_loop replies (batches_of points) 0 [] 0 0)
  end.

End Push.

(* ================================================================= *)
(** * Properties *)

(* ================================================================= *)
(** ** Strings *)

Local Open Scope string_scope.

Section ReplaceFacts.

Variables (c0 : ascii) (old' new : string).
Let old := String c0 old'.

Lemma prefix_head_diff (d : ascii) (s : string) :
  Ascii.eqb c0 d = false -> prefix old (String d s) = false.
Proof.
  intros H. unfold old. cbn [prefix].
  destruct (ascii_dec c0 d) as [->|]; [|reflexivity].
  rewrite Ascii.eqb_refl in H. discriminate.
Qed.

(** A stretch of text in which the first character of [old] does not occur
    is copied unchanged. *)
Lemma replace_from_free (s t : string) :
  PyStr.free_of c0 s = true ->
  PyStr.replace_from old new O (s ++ t) = s ++ PyStr.replace_from old new O t.
Proof.
  induction s as [|d s IH]; intros Hfree; [reflexivity|].
  cbn [PyStr.free_of] in Hfree. apply andb_true_iff in Hfree as [Hd Hs].
  apply negb_true_iff in Hd.
  change ((String d s) ++ t) with (String d (s ++ t)).
  cbn [PyStr.replace_from].
  rewrite (prefix_head_diff d _ Hd), (IH Hs). reflexivity.
Qed.

End ReplaceFacts.

Lemma append_empty_r (s : string) : s ++ EmptyString = s.
Proof. induction s; cbn; congruence. Qed.

Lemma norm_free (s : string) :
  PyStr.free_of "+" s = true -> PyStr.free_of "Z" s = true -> norm s = s.
Proof.
  intros Hp Hz. unfold norm, PyStr.replace.
  rewrite <- (append_empty_r s) at 1.
  rewrite (replace_from_free "+" "00:00" EmptyString s EmptyString Hp). cbn [PyStr.replace_from].
  rewrite append_empty_r.
  rewrite <- (append_empty_r s) at 1.
  rewrite (replace_from_free "Z" EmptyString EmptyString s EmptyString Hz). cbn [PyStr.replace_from].
  apply append_empty_r.
Qed.

Lemma norm_Z_form (s : string) :
  PyStr.free_of "+" s = true -> PyStr.free_of "Z" s = true ->
  norm (s ++ "Z") = s.
Proof.
  intros Hp Hz. unfold norm, PyStr.replace.
  rewrite (replace_from_free "+" "00:00" EmptyString s "Z" Hp).
  change (PyStr.replace_from "+00:00" EmptyString 0 "Z") with "Z".
  rewrite (replace_from_free "Z" EmptyString EmptyString s "Z" Hz).
  change (PyStr.replace_from "Z" EmptyString 0 "Z") with EmptyString.
  apply append_empty_r.
Qed.

Lemma norm_offset_form (s : string) :
  PyStr.free_of "+" s = true -> PyStr.free_of "Z" s = true ->
  norm (s ++ "+00:00") = s.
Proof.
  intros Hp Hz. unfold norm, PyStr.replace.
  rewrite (replace_from_free "+" "00:00" EmptyString s "+00:00" Hp).
  change (PyStr.replace_from "+00:00" EmptyString 0 "+00:00") with EmptyString.
  rewrite append_empty_r.
  rewrite <- (append_empty_r s) at 1.
  rewrite (replace_from_free "Z" EmptyString EmptyString s EmptyString Hz).
  cbn [PyStr.replace_from]. apply append_empty_r.
Qed.

(** The order [PyStr.lt] is a strict total order and [PyStr.le] is its
    reflexive closure. *)
Section StringOrder.

Lemma compare_refl (s : string) : String.compare s s = Eq.
Proof.
  pose proof (String.compare_antisym s s) as H.
  destruct (String.compare s s); cbn in H; congruence.
Qed.

Lemma lt_irrefl (s : string) : PyStr.lt s s = false.
Proof. unfold PyStr.lt, String.ltb. now rewrite compare_refl. Qed.

Lemma le_refl (s : string) : PyStr.le s s = true.
Proof. unfold PyStr.le, String.leb. now rewrite compare_refl. Qed.

Lemma lt_trans (a b c : string) :
  PyStr.lt a b = true -> PyStr.lt b c = true -> PyStr.lt a c = true.
Proof.
  unfold PyStr.lt, String.ltb.
  change String.compare with String_as_OT.compare. intros Hab Hbc.
  assert (Hac : String_as_OT.lt a c).
  { transitivity b; unfold String_as_OT.lt.
    - revert Hab. destruct (String_as_OT.compare a b); congruence.
    - revert Hbc. destruct (String_as_OT.compare b c); congruence. }
  unfold String_as_OT.lt in Hac. now rewrite Hac.
Qed.

Lemma le_negb_lt (a b : string) : PyStr.le a b = negb (PyStr.lt b a).
Proof.
  unfold PyStr.le, PyStr.lt, String.leb, String.ltb.
  rewrite (String.compare_antisym b a).
  destruct (String.compare a b); reflexivity.
Qed.

Lemma lt_connex (a b : string) :
  PyStr.lt a b = false -> PyStr.lt b a = false -> a = b.
Proof.
  unfold PyStr.lt, String.ltb. rewrite (String.compare_antisym b a).
  destruct (String.compare a b) eqn:E; cbn; try discriminate.
  intros _ _. now apply String.compare_eq_iff.
Qed.

Lemma lt_asym (a b : string) : PyStr.lt a b = true -> PyStr.lt b a = false.
Proof.
  intros H. destruct (PyStr.lt b a) eqn:E; [|reflexivity].
  pose proof (lt_trans _ _ _ H E) as C. rewrite lt_irrefl in C. discriminate.
Qed.

Lemma le_iff (a b : string) :
  PyStr.le a b = true <-> PyStr.lt a b = true \/ a = b.
Proof.
  rewrite le_negb_lt, negb_true_iff. split.
  - intros H. destruct (PyStr.lt a b) eqn:E; [now left|right].
    now apply lt_connex.
  - intros [H| ->]; [now apply lt_asym|apply lt_irrefl].
Qed.

Lemma le_trans (a b c : string) :
  PyStr.le a b = true -> PyStr.le b c = true -> PyStr.le a c = true.
Proof.
  rewrite !le_iff. intros [H1| ->] [H2| ->]; auto.
  left. eapply lt_trans; eassumption.
Qed.

Lemma le_lt_trans (a b c : string) :
  PyStr.le a b = true -> PyStr.lt b c = true -> PyStr.lt a c = true.
Proof.
  rewrite le_iff. intros [H1| ->] H2; auto. eapply lt_trans; eassumption.
Qed.

Lemma lt_le_trans (a b c : string) :
  PyStr.lt a b = true -> PyStr.le b c = true -> PyStr.lt a c = true.
Proof.
  rewrite le_iff. intros H1 [H2| <-]; auto. eapply lt_trans; eassumption.
Qed.

End StringOrder.

Local Open Scope list_scope.

Example parse_ts_Z :
  parse_ts (L := datetime_fragment) "2024-01-02T00:00:00Z"
  = Some (DateTime.mk 63839750400 (Some 0%Z)).
Proof. vm_compute. reflexivity. Qed.

(* ================================================================= *)
(** ** Floats *)

(** Disequality of two floats, by a test that tells them apart. *)
Lemma float_neq (x y : float) : PrimFloat.eqb x x <> PrimFloat.eqb x y -> x <> y.
Proof. intros H E. apply H. now rewrite <- E. Qed.

(** On numbers (no NaN on either side) [<=] is the negation of the
    converse [<]. *)
Lemma SFcompare_antisym (a b : spec_float) :
  SFcompare b a = option_map CompOpp (SFcompare a b).
Proof.
  destruct a as [sa|sa| |sa ma ea], b as [sb|sb| |sb mb eb]; cbn;
    try reflexivity; try (destruct sa; reflexivity); try (destruct sb; reflexivity);
    try (destruct sa, sb; reflexivity).
  destruct sa, sb; cbn; try reflexivity; f_equal.
  all: pose proof (Pos.compare_cont_antisym ma mb Eq) as H; cbn [CompOpp] in H;
    rewrite (Z.compare_antisym ea eb), <- H; destruct (ea ?= eb)%Z; cbn;
    try reflexivity; now destruct (Pos.compare_cont Eq ma mb).
Qed.

Lemma float_not_lt_iff_ge (x y : float) :
  (x =? x)%float = true -> (y =? y)%float = true ->
  ((x <? y)%float = false <-> (y <=? x)%float = true).
Proof.
  rewrite !FloatAxioms.eqb_spec, FloatAxioms.ltb_spec, FloatAxioms.leb_spec. unfold SFeqb, SFltb, SFleb.
  rewrite (SFcompare_antisym (Prim2SF x) (Prim2SF y)).
  intros Hx Hy.
  destruct (Prim2SF x) as [[]|[]| |[] ma ea], (Prim2SF y) as [[]|[]| |[] mb eb];
    cbn in *; try discriminate; try (split; congruence).
  all: destruct (ea ?= eb)%Z; cbn; try (split; congruence).
  all: destruct (Pos.compare_cont Eq ma mb); cbn; split; congruence.
Qed.

(* ================================================================= *)
(** ** The stable sort *)

Section SortFacts.

Context {A : Type} (ltb : A -> A -> bool) (R : A -> A -> Prop).

Hypothesis R_trans : forall a b c, R a b -> R b c -> R a c.
Hypothesis ltb_R : forall a b, ltb a b = true -> R a b.
Hypothesis nltb_R : forall a b, ltb a b = false -> R b a.

Lemma insert_perm (x : A) (l : list A) : Permutation (insert ltb x l) (x :: l).
Proof.
  induction l as [|y l IH]; cbn; [reflexivity|].
  destruct (ltb y x); [|reflexivity].
  rewrite IH. apply perm_swap.
Qed.

Lemma py_sorted_perm (l : list A) : Permutation (py_sorted ltb l) l.
Proof.
  induction l as [|x l IH]; cbn; [reflexivity|].
  rewrite insert_perm. now constructor.
Qed.

Lemma insert_sorted (x : A) (l : list A) :
  StronglySorted R l -> StronglySorted R (insert ltb x l).
Proof.
  induction 1 as [|y l Hs IH Hy]; cbn.
  - repeat constructor.
  - destruct (ltb y x) eqn:E.
    + constructor; [exact IH|].
      apply (Permutation_Forall (Permutation_sym (insert_perm x l))).
      constructor; auto.
    + constructor; [constructor; assumption|].
      constructor; [auto|].
      eapply Forall_impl; [|exact Hy]. intros z Hz.
      eapply R_trans; [apply nltb_R; exact E|exact Hz].
Qed.

Lemma py_sorted_sorted (l : list A) : StronglySorted R (py_sorted ltb l).
Proof.
  induction l as [|x l IH]; cbn; [constructor|]. now apply insert_sorted.
Qed.

End SortFacts.

Section StrictlySorted.

Context {A : Type} (Lt : A -> A -> Prop).
Hypothesis Lt_asym : forall a b, Lt a b -> Lt b a -> False.

(** Two lists in strictly ascending order with the same elements are the
    same list. *)
Lemma strictly_sorted_unique (l1 l2 : list A) :
  StronglySorted Lt l1 -> StronglySorted Lt l2 -> Permutation l1 l2 -> l1 = l2.
Proof.
  intros H1; revert l2.
  induction H1 as [|a l1 Hs1 IH Ha]; intros l2 H2 HP.
  - apply Permutation_nil in HP. now subst.
  - destruct H2 as [|b l2 Hs2 Hb].
    + symmetry in HP. apply Permutation_nil in HP. discriminate.
    + assert (a = b) as ->.
      { assert (Hin1 : In a (b :: l2)).
        { eapply Permutation_in; [exact HP|now left]. }
        assert (Hin2 : In b (a :: l1)).
        { eapply Permutation_in; [symmetry; exact HP|now left]. }
        destruct Hin1 as [->|Hin1]; [reflexivity|].
        destruct Hin2 as [->|Hin2]; [reflexivity|].
        rewrite Forall_forall in Ha, Hb.
        exfalso. exact (Lt_asym _ _ (Ha _ Hin2) (Hb _ Hin1)). }
      f_equal. apply IH; [exact Hs2|].
      eapply Permutation_cons_inv; exact HP.
Qed.

End StrictlySorted.

(** Sorting by a string key. *)
Section KeySort.

Context {A : Type} (key : A -> string).

Lemma sorted_by_key_perm (l : list A) : Permutation (sorted_by_key key l) l.
Proof. apply py_sorted_perm. Qed.

Lemma sorted_by_key_sorted (l : list A) :
  StronglySorted (key_le key) (sorted_by_key key l).
Proof.
  apply py_sorted_sorted; unfold key_le.
  - intros a b c. apply le_trans.
  - intros a b H. apply le_iff. now left.
  - intros a b H. now rewrite le_negb_lt, H.
Qed.

(** With pairwise distinct keys the ascending order is strict. *)
Lemma sorted_nodup_strict (l : list A) :
  StronglySorted (key_le key) l -> NoDup (map key l) -> StronglySorted (key_lt key) l.
Proof.
  induction 1 as [|a l Hs IH Ha]; intros Hnd; [constructor|].
  cbn in Hnd. inversion Hnd as [|? ? Hnotin Hnd']; subst.
  constructor; [now apply IH|].
  rewrite Forall_forall in *. intros b Hb.
  destruct (proj1 (le_iff _ _) (Ha b Hb)) as [Hlt|Heq]; [exact Hlt|].
  exfalso. apply Hnotin. rewrite Heq. now apply in_map.
Qed.

(** The sorted list depends only on the elements, not on their input
    order, when the keys are pairwise distinct. *)
Lemma sorted_by_key_permutation_invariant (l l' : list A) :
  Permutation l l' -> NoDup (map key l) ->
  sorted_by_key key l = sorted_by_key key l'.
Proof.
  intros HP Hnd.
  apply (strictly_sorted_unique (key_lt key)).
  - unfold key_lt. intros a b H1 H2.
    rewrite (lt_asym _ _ H1) in H2. discriminate.
  - apply sorted_nodup_strict; [apply sorted_by_key_sorted|].
    eapply Permutation_NoDup; [|exact Hnd].
    apply Permutation_map. symmetry. apply sorted_by_key_perm.
  - apply sorted_nodup_strict; [apply sorted_by_key_sorted|].
    eapply Permutation_NoDup; [|exact Hnd].
    apply Permutation_map. symmetry.
    eapply Permutation_trans; [apply sorted_by_key_perm|symmetry; exact HP].
  - eapply Permutation_trans; [apply sorted_by_key_perm|].
    eapply Permutation_trans; [exact HP|symmetry; apply sorted_by_key_perm].
Qed.

End KeySort.

(* ================================================================= *)
(** ** Temporal normalizer *)

Lemma replace_Z_by_offset (s : string) :
  PyStr.free_of "Z" s = true ->
  PyStr.replace "Z" "+00:00" (s ++ "Z")%string = (s ++ "+00:00")%string /\
  PyStr.replace "Z" "+00:00" (s ++ "+00:00")%string = (s ++ "+00:00")%string.
Proof.
  intros Hz. unfold PyStr.replace.
  rewrite !(replace_from_free "Z" EmptyString "+00:00" s _ Hz). split; reflexivity.
Qed.

(** C3, as amended: for a timestamp body [s] that contains neither ['Z'] nor
    ['+'], the ['Z'] form [s ++ "Z"] and the explicit zero-offset form
    [s ++ "+00:00"] are read by [parse_ts] as the same value and normalize to
    the identical lookup key, which is [s] itself. *)
Theorem norm_utc_designators_agree `{L : DatetimeLib} (s : string) :
  PyStr.free_of "+" s = true -> PyStr.free_of "Z" s = true ->
  parse_ts (s ++ "Z")%string = parse_ts (s ++ "+00:00")%string /\
  norm (s ++ "Z")%string = norm (s ++ "+00:00")%string /\
  norm (s ++ "Z")%string = s.
Proof.
  intros Hp Hz. repeat split.
  - unfold parse_ts. destruct (replace_Z_by_offset s Hz) as [-> ->]. reflexivity.
  - now rewrite norm_Z_form, norm_offset_form.
  - now apply norm_Z_form.
Qed.

Lemma norm_utc_designators_agree_witness :
  parse_ts (L := datetime_fragment) "2024-01-01T00:00:00Z"
  = parse_ts (L := datetime_fragment) "2024-01-01T00:00:00+00:00" /\
  norm "2024-01-01T00:00:00Z" = norm "2024-01-01T00:00:00+00:00" /\
  norm "2024-01-01T00:00:00Z" = "2024-01-01T00:00:00"%string.
Proof.
  apply (norm_utc_designators_agree "2024-01-01T00:00:00"); reflexivity.
Defined.

(** C3, as stated, fails: [2024-01-01T01:00:00+01:00] and
    [2024-01-01T00:00:00Z] are both accepted by [parse_ts] and denote the
    same UTC instant, yet their lookup keys differ. *)
Lemma norm_same_instant_keys_differ :
  (exists a b u,
      parse_ts (L := datetime_fragment) "2024-01-01T01:00:00+01:00" = Some a /\
      parse_ts (L := datetime_fragment) "2024-01-01T00:00:00Z" = Some b /\
      DateTime.utc_seconds a = Some u /\ DateTime.utc_seconds b = Some u) /\
  norm "2024-01-01T01:00:00+01:00" = "2024-01-01T01:00:00+01:00"%string /\
  norm "2024-01-01T00:00:00Z" = "2024-01-01T00:00:00"%string /\
  norm "2024-01-01T01:00:00+01:00" <> norm "2024-01-01T00:00:00Z".
Proof.
  split.
  - eexists _, _, _. repeat split; vm_compute; reflexivity.
  - repeat split; try reflexivity. vm_compute. discriminate.
Qed.

(* ================================================================= *)
(** ** Rate resolver *)

Lemma applies_iff (r : Rate) (t : string) : applies t r = true <-> applicable r t.
Proof.
  unfold applies, applicable. destruct (truthy_str (endDate r)).
  - apply andb_true_iff.
  - reflexivity.
Qed.

Lemma rate_step_applies (t : string) (rate : float) (r : Rate) :
  rate_step t rate r = if applies t r then rateDkkPerKwh r else rate.
Proof.
  unfold rate_step, applies. cbv zeta.
  destruct (truthy_str (endDate r)); reflexivity.
Qed.

Lemma last_cons_default {A : Type} (a d : A) (l : list A) :
  last (a :: l) d = last l a.
Proof.
  revert a d. induction l as [|b l IH]; intros a d; [reflexivity|].
  change (last (a :: b :: l) d) with (last (b :: l) d).
  now rewrite (IH b d), (IH b a).
Qed.

(** The scan keeps the rate of the last applicable entry. *)
Lemma rate_scan_last (t : string) (l : list Rate) (rate : float) :
  fold_left (rate_step t) l rate =
  last (map rateDkkPerKwh (filter (applies t) l)) rate.
Proof.
  revert rate. induction l as [|r l IH]; intros rate; [reflexivity|].
  cbn [fold_left filter]. rewrite IH, rate_step_applies.
  destruct (applies t r); [|reflexivity].
  cbn [map]. now rewrite last_cons_default.
Qed.

(** An entry that is not applicable changes nothing, wherever the sort puts
    it. *)
Lemma rate_scan_insert_skip (t : string) (r : Rate) (l : list Rate) (rate : float) :
  applies t r = false ->
  fold_left (rate_step t)
    (insert (fun a b => PyStr.lt (startDate a) (startDate b)) r l) rate =
  fold_left (rate_step t) l rate.
Proof.
  intros Hr. revert rate. induction l as [|y l IH]; intros rate; cbn.
  - now rewrite rate_step_applies, Hr.
  - destruct (PyStr.lt (startDate y) (startDate r)); cbn.
    + apply IH.
    + now rewrite (rate_step_applies t rate r), Hr.
Qed.

Lemma filter_none {A : Type} (f : A -> bool) (l : list A) :
  (forall x, In x l -> f x = false) -> filter f l = [].
Proof.
  induction l as [|a l IH]; intros H; [reflexivity|]. cbn.
  rewrite (H a (or_introl eq_refl)). apply IH. intros x Hx. apply H. now right.
Qed.

(** C4, as amended: the resolver compares the normalized timestamp strings
    in string order.  An entry with an end applies exactly when
    [start <= t < end] in that order, an entry without an end exactly when
    [start < t]; the resolver returns the rate of a lone applicable entry,
    and an entry that is not applicable leaves the answer of the rest of the
    schedule in place.  So when the reference is written as the start (or
    the end) is, a ranged entry applies at [t == start] and not at
    [t == end], and at [t == start] of an open-ended entry the prior rate
    still governs. *)
Theorem rate_entry_applicability (p : Product) (r : Rate) (ts : string) :
  let t := norm ts in
  (* the two conventions *)
  (forall e, truthy_str (endDate r) = Some e ->
     (applicable r t <->
      PyStr.le (norm (startDate r)) t = true /\ PyStr.lt t (norm e) = true)) /\
  (truthy_str (endDate r) = None ->
     (applicable r t <-> PyStr.lt (norm (startDate r)) t = true)) /\
  (* what the resolver does with it *)
  (applicable r t -> margin_rate_at (with_rates p [r]) ts = rateDkkPerKwh r) /\
  (~ applicable r t ->
     margin_rate_at (with_rates p (r :: rates p)) ts = margin_rate_at p ts) /\
  (~ applicable r t -> margin_rate_at (with_rates p [r]) ts = 0%float) /\
  (* the boundaries *)
  (forall e, truthy_str (endDate r) = Some e ->
     PyStr.lt (norm (startDate r)) (norm e) = true ->
     (t = norm (startDate r) -> applicable r t) /\
     (t = norm e -> ~ applicable r t)) /\
  (truthy_str (endDate r) = None -> t = norm (startDate r) -> ~ applicable r t).
Proof.
  intros t.
  assert (Hskip : ~ applicable r t -> applies t r = false).
  { intros Hn. destruct (applies t r) eqn:E; [|reflexivity].
    exfalso. apply Hn. now apply applies_iff. }
  split; [|split; [|split; [|split; [|split; [|split]]]]].
  - intros e He. unfold applicable. rewrite He. tauto.
  - intros He. unfold applicable. rewrite He. tauto.
  - intros Ha. apply applies_iff in Ha.
    unfold margin_rate_at, sorted_by_key.
    cbn [with_rates rates py_sorted fold_right insert fold_left]. fold t.
    now rewrite rate_step_applies, Ha.
  - intros Hn. unfold margin_rate_at. cbn [with_rates rates].
    unfold sorted_by_key. cbn [py_sorted fold_right].
    apply rate_scan_insert_skip. fold t. now apply Hskip.
  - intros Hn. unfold margin_rate_at, sorted_by_key.
    cbn [with_rates rates py_sorted fold_right insert fold_left]. fold t.
    now rewrite rate_step_applies, (Hskip Hn).
  - intros e He Hlt. unfold applicable. rewrite He. split.
    + intros ->. split; [apply le_refl|exact Hlt].
    + intros -> [_ Ha]. rewrite lt_irrefl in Ha. discriminate.
  - intros He -> Ha. unfold applicable in Ha. rewrite He, lt_irrefl in Ha.
    discriminate.
Qed.

Lemma rate_entry_applicability_witness :
  applicable rate_q1 (norm "2024-01-01T00:00:00Z") /\
  margin_rate_at (with_rates product_q1 [rate_q1]) "2024-01-01T00:00:00Z" = 0.02%float /\
  ~ applicable rate_q1 (norm "2024-04-01") /\
  margin_rate_at (with_rates product_q1 [rate_q1]) "2024-04-01" = 0%float.
Proof.
  pose proof (rate_entry_applicability product_q1 rate_q1 "2024-01-01T00:00:00Z") as H1.
  pose proof (rate_entry_applicability product_q1 rate_q1 "2024-04-01") as H2.
  cbv zeta in H1, H2.
  destruct H1 as (_ & _ & Happ & _).
  destruct H2 as (_ & _ & _ & _ & Hzero & _).
  assert (Ha : applicable rate_q1 (norm "2024-01-01T00:00:00Z")).
  { vm_compute. split; reflexivity. }
  assert (Hn : ~ applicable rate_q1 (norm "2024-04-01")).
  { vm_compute. intros [_ H]. discriminate H. }
  split; [exact Ha|].
  split; [exact (Happ Ha)|].
  split; [exact Hn|exact (Hzero Hn)].
Defined.

(** C4, as stated, fails: applicability follows the spelling of the
    timestamps, not the instants they denote.  [2024-01-01T01:00:00+01:00]
    is the start instant of the open-ended entry, yet the entry applies
    there; [2024-03-31T23:00:00-01:00] is the end instant of the ranged
    entry, yet the entry applies there.  With the reference written as the
    start and the end are, neither applies. *)
Lemma rate_applicability_follows_spelling :
  utc_instant "2024-01-01T01:00:00+01:00" = Some 63839664000%Z /\
  utc_instant (startDate rate_open_z) = Some 63839664000%Z /\
  applicable rate_open_z (norm "2024-01-01T01:00:00+01:00") /\
  margin_rate_at (with_rates product_q1 [rate_open_z]) "2024-01-01T01:00:00+01:00"
    = 0.1%float /\
  ~ applicable rate_open_z (norm "2024-01-01T00:00:00Z") /\
  margin_rate_at (with_rates product_q1 [rate_open_z]) "2024-01-01T00:00:00Z"
    = 0%float /\
  utc_instant "2024-03-31T23:00:00-01:00" = Some 63847526400%Z /\
  utc_instant "2024-04-01T00:00:00Z" = Some 63847526400%Z /\
  endDate rate_ranged_z = Some "2024-04-01T00:00:00Z"%string /\
  applicable rate_ranged_z (norm "2024-03-31T23:00:00-01:00") /\
  margin_rate_at (with_rates product_q1 [rate_ranged_z]) "2024-03-31T23:00:00-01:00"
    = 0.02%float /\
  ~ applicable rate_ranged_z (norm "2024-04-01T00:00:00Z") /\
  margin_rate_at (with_rates product_q1 [rate_ranged_z]) "2024-04-01T00:00:00Z"
    = 0%float.
Proof.
  repeat split; try (vm_compute; reflexivity).
  - vm_compute. discriminate.
  - vm_compute. intros [_ H]. discriminate H.
Qed.

(** C5, as amended: for a schedule whose entries have pairwise distinct
    start strings, the resolved rate is the same for every permutation of
    the input order; the resolver sorts the entries by start ascending,
    returns the rate of the last applicable entry of the sorted schedule
    (later-starting applicable entries overwrite earlier ones), and returns
    zero when no entry is applicable. *)
Theorem margin_rate_order_independent (p p' : Product) (ts : string) :
  Permutation (rates p) (rates p') ->
  NoDup (map startDate (rates p)) ->
  margin_rate_at p ts = margin_rate_at p' ts /\
  StronglySorted (key_le startDate) (sorted_by_key startDate (rates p)) /\
  Permutation (sorted_by_key startDate (rates p)) (rates p) /\
  margin_rate_at p ts =
    last (map rateDkkPerKwh
            (filter (applies (norm ts)) (sorted_by_key startDate (rates p))))
         0%float /\
  ((forall r, In r (rates p) -> ~ applicable r (norm ts)) ->
   margin_rate_at p ts = 0%float).
Proof.
  intros HP Hnd. split; [|split; [|split; [|split]]].
  - unfold margin_rate_at.
    now rewrite (sorted_by_key_permutation_invariant startDate _ _ HP Hnd).
  - apply sorted_by_key_sorted.
  - apply sorted_by_key_perm.
  - apply rate_scan_last.
  - intros Hnone. unfold margin_rate_at. rewrite rate_scan_last.
    rewrite filter_none; [reflexivity|]. intros r Hr.
    destruct (applies (norm ts) r) eqn:E; [|reflexivity].
    exfalso. apply (Hnone r).
    + eapply Permutation_in; [apply sorted_by_key_perm|exact Hr].
    + now apply applies_iff.
Qed.

Lemma margin_rate_order_independent_witness :
  margin_rate_at (with_rates product_q1 [rate_jan; rate_feb]) "2024-03-01T00:00:00Z" =
  margin_rate_at (with_rates product_q1 [rate_feb; rate_jan]) "2024-03-01T00:00:00Z".
Proof.
  apply (margin_rate_order_independent
           (with_rates product_q1 [rate_jan; rate_feb])
           (with_rates product_q1 [rate_feb; rate_jan])).
  - apply perm_swap.
  - repeat constructor; cbn; intuition discriminate.
Defined.

(** C5, as stated, fails: with two entries sharing a start instant the
    stable sort keeps their input order, so swapping them changes the
    resolved rate. *)
Lemma margin_rate_tie_order_dependent :
  Permutation [rate_tie_a; rate_tie_b] [rate_tie_b; rate_tie_a] /\
  margin_rate_at (with_rates product_q1 [rate_tie_a; rate_tie_b]) "2024-02-01T00:00:00Z"
    = 0.2%float /\
  margin_rate_at (with_rates product_q1 [rate_tie_b; rate_tie_a]) "2024-02-01T00:00:00Z"
    = 0.1%float /\
  margin_rate_at (with_rates product_q1 [rate_tie_a; rate_tie_b]) "2024-02-01T00:00:00Z"
    <> margin_rate_at (with_rates product_q1 [rate_tie_b; rate_tie_a]) "2024-02-01T00:00:00Z".
Proof.
  split; [apply perm_swap|].
  split; [vm_compute; reflexivity|].
  split; [vm_compute; reflexivity|].
  apply float_neq. vm_compute. discriminate.
Qed.

(* ================================================================= *)
(** ** Dictionaries *)

Lemma dict_get_set {V : Type} (k k' : string) (v : V) (d : Dict.t V) :
  Dict.get k (Dict.set k' v d) = if String.eqb k k' then Some v else Dict.get k d.
Proof.
  induction d as [|[k2 v2] d IH]; cbn; [reflexivity|].
  destruct (String.eqb k' k2) eqn:E2; cbn.
  - apply String.eqb_eq in E2. subst k2.
    now destruct (String.eqb k k').
  - rewrite IH. destruct (String.eqb k k2) eqn:E; [|reflexivity].
    destruct (String.eqb k k') eqn:E'; [|reflexivity].
    apply String.eqb_eq in E, E'. subst. rewrite String.eqb_refl in E2.
    discriminate.
Qed.

Lemma dict_get_in {V : Type} (k : string) (v : V) (d : Dict.t V) :
  Dict.get k d = Some v -> In (k, v) d.
Proof.
  induction d as [|[k2 v2] d IH]; cbn; [discriminate|].
  destruct (String.eqb k k2) eqn:E.
  - apply String.eqb_eq in E. intros [= ->]. subst. now left.
  - intros H. right. now apply IH.
Qed.

(* ================================================================= *)
(** ** Subscription resolver *)

Lemma sorted_points_sorted (pts : list PricePoint) :
  StronglySorted instant_le (sorted_points pts).
Proof.
  apply py_sorted_sorted; unfold instant_le, point_lt.
  - intros a b c. apply le_trans.
  - intros a b. destruct (String.eqb (fst a) (fst b)) eqn:E.
    + apply String.eqb_eq in E. rewrite E. intros _. apply le_refl.
    + intros H. apply le_iff. now left.
  - intros a b. destruct (String.eqb (fst a) (fst b)) eqn:E.
    + apply String.eqb_eq in E. rewrite E. intros _. apply le_refl.
    + intros H. now rewrite le_negb_lt, H.
Qed.

Lemma sorted_points_perm (pts : list PricePoint) :
  Permutation (sorted_points pts)
              (map (fun pt => (norm (pt_timestamp pt), pt_price pt)) pts).
Proof. apply py_sorted_perm. Qed.

(** On a schedule in ascending order of instants the scan either finds no
    instant at or before [ps] and keeps [val], or returns the amount of an
    entry at or before [ps] whose instant is the greatest such. *)
Lemma sub_price_scan_spec (ps : string) (pts : list (string * float)) :
  StronglySorted instant_le pts ->
  forall val,
    (sub_price_scan ps pts val = val /\
     forall t a, In (t, a) pts -> PyStr.le t ps = false) \/
    (exists t a,
        In (t, a) pts /\ PyStr.le t ps = true /\
        sub_price_scan ps pts val = a /\
        forall t' a', In (t', a') pts -> PyStr.le t' ps = true ->
                      PyStr.le t' t = true).
Proof.
  induction 1 as [|[t1 a1] rest Hs IH Hall]; intros val.
  - left. split; [reflexivity|]. intros t a [].
  - cbn [sub_price_scan]. rewrite Forall_forall in Hall.
    destruct (PyStr.le t1 ps) eqn:E1.
    + right. destruct (IH a1) as [[Hval Hnone]|(t & a & Hin & Hle & Hres & Hmax)].
      * exists t1, a1. split; [now left|]. split; [exact E1|].
        split; [exact Hval|].
        intros t' a' [[= <- <-]|Hin'] Hle'; [apply le_refl|].
        rewrite (Hnone _ _ Hin') in Hle'. discriminate.
      * exists t, a. split; [now right|]. split; [exact Hle|].
        split; [exact Hres|].
        intros t' a' [[= <- <-]|Hin'] Hle'; [|now apply (Hmax t' a')].
        exact (Hall (t, a) Hin).
    + left. split; [reflexivity|].
      intros t a [[= <- <-]|Hin]; [exact E1|].
      destruct (PyStr.le t ps) eqn:E; [|reflexivity].
      pose proof (le_trans _ _ _ (Hall (t, a) Hin) E) as C. cbn in C.
      rewrite E1 in C. discriminate.
Qed.

(** Every stored schedule is the sorted point list of a subscription price
    with that charge id. *)
Lemma build_sub_prices_get (ps : list Price) (cid : string)
    (pts : list (string * float)) :
  Dict.get cid (build_sub_prices ps) = Some pts ->
  exists p, In p ps /\ price_type p = "Abonnement"%string /\ chargeId p = cid /\
            pts = sorted_points (points p).
Proof.
  unfold build_sub_prices.
  assert (G : forall d,
    Dict.get cid (fold_left
      (fun d p => if String.eqb (price_type p) "Abonnement"
                  then Dict.set (chargeId p) (sorted_points (points p)) d
                  else d) ps d) = Some pts ->
    Dict.get cid d = Some pts \/
    exists p, In p ps /\ price_type p = "Abonnement"%string /\ chargeId p = cid /\
              pts = sorted_points (points p)).
  { induction ps as [|p ps IH]; intros d; cbn [fold_left]; [now left|].
    intros H. destruct (IH _ H) as [Hd|(q & Hq & Hrest)].
    - destruct (String.eqb (price_type p) "Abonnement") eqn:Et; [|now left].
      rewrite dict_get_set in Hd.
      destruct (String.eqb cid (chargeId p)) eqn:Ec; [|now left].
      right. exists p. apply String.eqb_eq in Et, Ec.
      injection Hd as <-. repeat split; auto. now left.
    - right. exists q. split; [now right|exact Hrest]. }
  intros H. destruct (G _ H) as [Hd|Hex]; [discriminate Hd|exact Hex].
Qed.

Example sub_price_at_unsorted_schedule :
  let data :=
    {| settlements := []; observations := []; products_list := [];
       productPeriods := [];
       prices :=
         [ {| price_type := "Abonnement"; chargeId := "40000";
              points := [ {| pt_timestamp := "2024-06-01T00:00:00Z"; pt_price := 40 |};
                          {| pt_timestamp := "2023-01-01T00:00:00Z"; pt_price := 30 |};
                          {| pt_timestamp := "2024-01-01T00:00:00Z"; pt_price := 35 |} ] |} ] |} in
  let lk := build_lookups data [] in
  sub_price_at lk "40000" "2024-03-01T00:00:00Z" = 35%float /\
  sub_price_at lk "40000" "2024-01-01T00:00:00+00:00" = 35%float /\
  sub_price_at lk "40000" "2022-12-31T23:00:00Z" = 0%float /\
  sub_price_at lk "40001" "2024-03-01T00:00:00Z" = 0%float.
Proof. vm_compute. repeat split. Qed.

(* ================================================================= *)
(** ** The loop body returns *)

Lemma validate_settlement_some `{L : DatetimeLib}
    (lk : Lookups) (i : nat) (s : Settlement) (r : Result) :
  validate_settlement lk i s = Some r ->
  exists sub_diffs,
    sub_loop lk (periodStart s) (periodEnd s) (tariffLines s) [] = Some sub_diffs /\
    r = result_of lk i s sub_diffs.
Proof.
  unfold validate_settlement.
  destruct (sub_loop _ _ _ _ _) as [sd|]; [|discriminate].
  intros [= <-]. now exists sd.
Qed.

(** Step 3d raises only on the day count: with a day count, or without a
    subscription line, the loop body returns a result. *)
Lemma sub_loop_total `{L : DatetimeLib}
    (lk : Lookups) (ps_raw pe_raw : string) (lines : list TariffLine) :
  (period_days ps_raw pe_raw <> None \/ forallb (fun t => negb (is_sub_line t)) lines = true) ->
  forall acc, sub_loop lk ps_raw pe_raw lines acc <> None.
Proof.
  intros H. induction lines as [|t rest IH]; intros acc; cbn [sub_loop]; [discriminate|].
  destruct (is_sub_line t) eqn:Es.
  - destruct H as [H|H]; [|cbn in H; rewrite Es in H; discriminate].
    destruct (period_days ps_raw pe_raw); [|congruence].
    destruct (sub_mismatch _ _ _); apply IH; now left.
  - apply IH. destruct H as [H|H]; [now left|right].
    cbn in H. now rewrite Es in H.
Qed.

Lemma validate_settlement_total `{L : DatetimeLib} (lk : Lookups) (i : nat) (s : Settlement) :
  (period_days (periodStart s) (periodEnd s) <> None \/
   forallb (fun t => negb (is_sub_line t)) (tariffLines s) = true) ->
  exists r, validate_settlement lk i s = Some r.
Proof.
  intros H. unfold validate_settlement.
  pose proof (sub_loop_total lk _ _ _ H []) as Hs.
  destruct (sub_loop _ _ _ _ _) as [sd|]; [eauto|congruence].
Qed.

(** Without [--index] the loop appends one result per settlement, in order. *)
Lemma settlement_loop_all `{L : DatetimeLib} (lk : Lookups) (ss : list Settlement) :
  forall i acc rs,
    settlement_loop lk None i ss acc = Some rs ->
    exists rs', rs = acc ++ rs' /\
                Forall2 (fun s r => exists j, validate_settlement lk j s = Some r) ss rs'.
Proof.
  induction ss as [|s ss IH]; intros i acc rs; cbn [settlement_loop].
  - intros [= <-]. exists []. split; [now rewrite app_nil_r|constructor].
  - destruct (validate_settlement lk i s) as [r|] eqn:E; [|discriminate].
    intros H. destruct (IH _ _ _ H) as (rs' & -> & HF).
    exists (r :: rs'). split; [now rewrite <- app_assoc|].
    constructor; [now exists i|exact HF].
Qed.

(* ================================================================= *)
(** ** Level 1 *)

Section Level1Fold.

(** The loop of Level 1, given what [sum] computes for the hourly amounts. *)
Hypothesis sum_details : forall hd, py_sum (map hd_amountDkk hd) = detail_sum hd.

Lemma tier1_step_errors (st : Tier1) (t : TariffLine) :
  consistency_errors (tier1_step st t) = consistency_errors st ++ tier1_finding t /\
  consistency_ok (tier1_step st t) =
    consistency_ok st && match tier1_finding t with [] => true | _ => false end.
Proof.
  unfold tier1_step, tier1_finding, discrepancy, line_diff, hd_sum_of. cbv zeta.
  destruct (truthy_detail t) as [hd|]; cbn.
  - rewrite sum_details. destruct (0.01 <? _)%float; cbn.
    + now rewrite andb_false_r.
    + now rewrite app_nil_r, andb_true_r.
  - now rewrite app_nil_r, andb_true_r.
Qed.

Lemma tier1_fold (lines : list TariffLine) (st : Tier1) :
  consistency_errors (fold_left tier1_step lines st) =
    consistency_errors st ++ flat_map tier1_finding lines /\
  consistency_ok (fold_left tier1_step lines st) =
    consistency_ok st &&
    match flat_map tier1_finding lines with [] => true | _ => false end.
Proof.
  revert st. induction lines as [|t lines IH]; intros st; cbn [fold_left flat_map].
  - now rewrite app_nil_r, andb_true_r.
  - destruct (IH (tier1_step st t)) as [-> ->].
    destruct (tier1_step_errors st t) as [-> ->].
    split; [now rewrite app_assoc|].
    rewrite <- andb_assoc. f_equal.
    destruct (tier1_finding t); [reflexivity|]. cbn. reflexivity.
Qed.

End Level1Fold.

Lemma in_issues_consistency (t1 : Tier1) (t2 : Tier2) (md : option float)
    (ad : list AddonDiff) :
  In IssueConsistency (issues_of t1 t2 md ad) <-> consistency_ok t1 = false.
Proof.
  unfold issues_of, margin_issue. rewrite !in_app_iff. split.
  - intros [H|[H|[H|H]]].
    + destruct (consistency_ok t1); [destruct H|reflexivity].
    + destruct (Nat.ltb _ _); cbn in H; intuition discriminate.
    + destruct md as [d|]; [|destruct H].
      destruct (1.0 <? _)%float; cbn in H; intuition discriminate.
    + destruct ad; cbn in H; intuition discriminate.
  - intros ->. left. now left.
Qed.

Lemma tier1_finding_in (t : TariffLine) (e : ConsistencyError) :
  In e (tier1_finding t) <->
  exists hd, truthy_detail t = Some hd /\
    (0.01 <? discrepancy t hd)%float = true /\
    e = {| ce_cid := partyChargeTypeId t; ce_total := amountDkk t;
           ce_sum := detail_sum hd; ce_diff := discrepancy t hd |}.
Proof.
  unfold tier1_finding. destruct (truthy_detail t) as [hd|].
  - destruct (0.01 <? _)%float eqn:E.
    + split.
      * intros [<-|[]]. now exists hd.
      * intros (hd' & [= <-] & _ & ->). now left.
    + split; [intros []|]. intros (hd' & [= <-] & H & _). congruence.
  - split; [intros []|]. intros (hd' & H & _). discriminate.
Qed.



(* ================================================================= *)
(** ** Level 2 *)

Lemma firstn_app_full {A : Type} (n : nat) (l x : list A) :
  length l = n -> firstn n (l ++ x) = l.
Proof.
  intros <-. rewrite firstn_app, Nat.sub_diag, firstn_all. cbn.
  apply app_nil_r.
Qed.

Lemma tier2_step_spec (po : Dict.t float) (st : Tier2) (h : HourlyDetail) :
  obs_matched (tier2_step po st h) =
    obs_matched st + (if is_matched po h then 1 else 0) /\
  obs_mismatched (tier2_step po st h) =
    obs_mismatched st + (if is_mismatched po h then 1 else 0) /\
  obs_missing (tier2_step po st h) =
    obs_missing st + (if is_missing po h then 1 else 0) /\
  obs_errors (tier2_step po st h) =
    if Nat.ltb (length (obs_errors st)) 3
    then obs_errors st ++ mismatch_record po h else obs_errors st.
Proof.
  unfold tier2_step, is_matched, is_mismatched, is_missing, mismatch_record.
  cbv zeta. destruct (Dict.get (norm (hd_timestamp h)) po) as [o|].
  - destruct (PrimFloat.abs (hd_kwh h - o) <? 0.005)%float;
      cbn [negb obs_matched obs_mismatched obs_missing obs_errors];
      rewrite ?Nat.add_0_r, ?app_nil_r; repeat split; auto.
    now destruct (Nat.ltb _ _).
  - cbn [obs_matched obs_mismatched obs_missing obs_errors];
      rewrite ?Nat.add_0_r, ?app_nil_r; repeat split; auto.
    now destruct (Nat.ltb _ _).
Qed.

Lemma filter_cons_length {A : Type} (f : A -> bool) (a : A) (l : list A) :
  length (filter f (a :: l)) = (if f a then 1 else 0) + length (filter f l).
Proof. cbn. now destruct (f a). Qed.

Lemma tier2_fold (po : Dict.t float) (hd : list HourlyDetail) :
  forall st, length (obs_errors st) <= 3 ->
    let st' := fold_left (tier2_step po) hd st in
    obs_matched st' = obs_matched st + length (filter (is_matched po) hd) /\
    obs_mismatched st' = obs_mismatched st + length (filter (is_mismatched po) hd) /\
    obs_missing st' = obs_missing st + length (filter (is_missing po) hd) /\
    obs_errors st' = firstn 3 (obs_errors st ++ flat_map (mismatch_record po) hd).
Proof.
  induction hd as [|h hd IH]; intros st Hlen; cbv zeta.
  - cbn [fold_left filter flat_map length].
    rewrite !Nat.add_0_r, app_nil_r, firstn_all2 by exact Hlen. auto.
  - cbn [fold_left flat_map]. rewrite !filter_cons_length.
    destruct (tier2_step_spec po st h) as (H1 & H2 & H3 & H4).
    assert (Hlen' : length (obs_errors (tier2_step po st h)) <= 3).
    { rewrite H4. destruct (Nat.ltb _ _) eqn:E; [|exact Hlen].
      apply Nat.ltb_lt in E. rewrite length_app.
      unfold mismatch_record. destruct (Dict.get _ _); cbn; [|lia].
      destruct (_ <? _)%float; cbn; lia. }
    destruct (IH _ Hlen') as (-> & -> & -> & ->).
    rewrite H1, H2, H3, H4. repeat split; try lia.
    destruct (Nat.ltb _ _) eqn:E.
    + now rewrite <- app_assoc.
    + apply Nat.ltb_ge in E.
      rewrite !firstn_app_full; auto; lia.
Qed.

Lemma tier2_line_first (lines : list TariffLine) (hd : list HourlyDetail) :
  tier2_line lines = Some hd ->
  exists before t after,
    lines = before ++ t :: after /\
    truthy_detail t = Some hd /\ isSubscription t = false /\
    Forall (fun t' => truthy_detail t' = None \/ isSubscription t' = true) before.
Proof.
  induction lines as [|t lines IH]; cbn [tier2_line]; [discriminate|].
  destruct (truthy_detail t) as [hd'|] eqn:Ed.
  - destruct (isSubscription t) eqn:Es; cbn [negb].
    + intros H. destruct (IH H) as (b & t' & a & -> & H1 & H2 & H3).
      exists (t :: b), t', a. repeat split; auto.
    + intros [= <-]. exists [], t, lines. repeat split; auto.
  - intros H. destruct (IH H) as (b & t' & a & -> & H1 & H2 & H3).
    exists (t :: b), t', a. repeat split; auto.
Qed.

Lemma in_issues_obs (t1 : Tier1) (t2 : Tier2) (md : option float)
    (ad : list AddonDiff) (n : nat) :
  In (IssueObs n) (issues_of t1 t2 md ad) <->
  2 < obs_mismatched t2 /\ n = obs_mismatched t2.
Proof.
  unfold issues_of, margin_issue. rewrite !in_app_iff. split.
  - intros [H|[H|[H|H]]].
    + destruct (negb _); cbn in H; intuition discriminate.
    + destruct (Nat.ltb 2 (obs_mismatched t2)) eqn:E; [|destruct H].
      apply Nat.ltb_lt in E. destruct H as [[= <-]|[]]. now split.
    + destruct md as [d|]; [|destruct H].
      destruct (1.0 <? _)%float; cbn in H; intuition discriminate.
    + destruct ad; cbn in H; intuition discriminate.
  - intros [H ->]. right; left. apply Nat.ltb_lt in H. rewrite H. now left.
Qed.

Lemma validate_jan :
  validate_settlement (L := datetime_fragment) lookups 0 settlement_jan
  = Some result_jan.
Proof. vm_compute. reflexivity. Qed.

Lemma validate_feb :
  validate_settlement (L := datetime_fragment) lookups 1 settlement_feb
  = Some result_feb.
Proof. vm_compute. reflexivity. Qed.

(* ================================================================= *)
(** ** Level 3a: spot cost *)

Lemma spot_fold (spots : Dict.t float) (items : list (string * float)) :
  forall acc,
    let a := fold_left (spot_step spots) items acc in
    spot_total a =
      fold_left PrimFloat.add (flat_map (spot_contribution spots) items) (spot_total acc) /\
    spot_missing_hours a =
      spot_missing_hours acc + length (filter (lacks_spot spots) items).
Proof.
  induction items as [|[ts k] items IH]; intros acc; cbv zeta.
  - cbn. split; [reflexivity|lia].
  - cbn [fold_left flat_map]. rewrite filter_cons_length.
    destruct (IH (spot_step spots acc (ts, k))) as [-> ->].
    unfold spot_step, spot_contribution, lacks_spot. cbn [fst snd].
    destruct (Dict.get ts spots) as [sp|]; cbn [spot_total spot_missing_hours app].
    + split; [reflexivity|lia].
    + split; [reflexivity|lia].
Qed.

Lemma spot_lookup_skips_null (sc : SpotCache) :
  forall d, fold_left add_spot_price sc d = fold_left add_spot_price (filter has_price sc) d.
Proof.
  induction sc as [|p sc IH]; intros d; [reflexivity|].
  cbn [fold_left filter]. unfold has_price.
  destruct (spotPriceDkk p) as [v|] eqn:E.
  - cbn [fold_left]. apply IH.
  - replace (add_spot_price d p) with d by (unfold add_spot_price; now rewrite E).
    apply IH.
Qed.

Lemma spot_lookup_get_some (sc : SpotCache) (ts : string) (sp : float) :
  forall d, Dict.get ts (fold_left add_spot_price sc d) = Some sp ->
    Dict.get ts d = Some sp \/
    exists p v, In p sc /\ norm (hourUtc p) = ts /\ spotPriceDkk p = Some v /\
                sp = (v / 1000.0)%float.
Proof.
  induction sc as [|p sc IH]; intros d; cbn [fold_left]; [now left|].
  intros H. destruct (IH _ H) as [Hd|(q & v & Hq & Hrest)].
  - unfold add_spot_price in Hd. destruct (spotPriceDkk p) as [v|] eqn:E; [|now left].
    rewrite dict_get_set in Hd.
    destruct (String.eqb ts (norm (hourUtc p))) eqn:Et; [|now left].
    right. exists p, v. apply String.eqb_eq in Et. injection Hd as <-.
    repeat split; auto. now left.
  - right. exists q, v. split; [now right|exact Hrest].
Qed.

Lemma spot_lookup_get_null (sc : SpotCache) (ts : string) :
  (forall p, In p sc -> norm (hourUtc p) = ts -> spotPriceDkk p = None) ->
  forall d, Dict.get ts (fold_left add_spot_price sc d) = Dict.get ts d.
Proof.
  induction sc as [|p sc IH]; intros Hnull d; cbn [fold_left]; [reflexivity|].
  rewrite IH by (intros q Hq; apply Hnull; now right).
  unfold add_spot_price. destruct (spotPriceDkk p) as [v|] eqn:E; [|reflexivity].
  rewrite dict_get_set.
  destruct (String.eqb ts (norm (hourUtc p))) eqn:Et; [|reflexivity].
  apply String.eqb_eq in Et.
  rewrite (Hnull p (or_introl eq_refl) (eq_sym Et)) in E. discriminate.
Qed.

Lemma recalc_spot_cases (lk : Lookups) (i : nat) (s : Settlement) (sd : list SubDiff) :
  let r := result_of lk i s sd in
  let po := period_obs_of lk (norm (periodStart s)) (norm (periodEnd s)) in
  (r_has_obs r && String.eqb (r_model r) "SpotAddon" = true /\
   r_recalc_spot r = Some (py_sum (flat_map (spot_contribution (spot_lookup lk)) po)) /\
   r_spot_missing r = Some (length (filter (lacks_spot (spot_lookup lk)) po))) \/
  (r_has_obs r && String.eqb (r_model r) "SpotAddon" = false /\
   r_recalc_spot r = None /\ r_spot_missing r = None).
Proof.
  cbv zeta. cbn [result_of r_has_obs r_model r_recalc_spot r_spot_missing].
  destruct (_ && _) eqn:E; [left|right; auto].
  split; [reflexivity|]. unfold spot_loop, Dict.items. cbn [option_map].
  destruct (spot_fold (spot_lookup lk)
              (period_obs_of lk (norm (periodStart s)) (norm (periodEnd s)))
              spot_init) as [-> ->].
  split; reflexivity.
Qed.

(** C10: a cache entry with a [null] price leaves the spot price index as it
    was, so an observation hour whose cache entries all carry [null] has no
    price in the index: the spot loop counts it among the missing spot hours
    and adds nothing for it to the recomputed spot cost. *)
Theorem null_spot_price_counts_missing `{L : DatetimeLib}
    (data : Data) (spot_cache : SpotCache) (i : nat) (s : Settlement) (r : Result)
    (ts : string) (k : float) :
  let lk := build_lookups data spot_cache in
  let po := period_obs_of lk (norm (periodStart s)) (norm (periodEnd s)) in
  let spots := spot_lookup lk in
  (forall p, In p spot_cache -> norm (hourUtc p) = ts -> spotPriceDkk p = None) ->
  validate_settlement lk i s = Some r ->
  r_recalc_spot r <> None ->
  In (ts, k) po ->
  build_spot_lookup spot_cache = build_spot_lookup (filter has_price spot_cache) /\
  Dict.get ts spots = None /\
  (forall acc,
     spot_step spots acc (ts, k) =
     {| spot_total := spot_total acc; spot_hours := spot_hours acc;
        spot_missing_hours := spot_missing_hours acc + 1 |}) /\
  spot_contribution spots (ts, k) = [] /\
  In (ts, k) (filter (lacks_spot spots) po) /\
  r_spot_missing r = Some (length (filter (lacks_spot spots) po)) /\
  r_recalc_spot r = Some (py_sum (flat_map (spot_contribution spots) po)).
Proof.
  intros lk po spots Hnull Hr Hspot Hin.
  assert (Hget : Dict.get ts spots = None).
  { unfold spots, lk. cbn [build_lookups spot_lookup]. unfold build_spot_lookup.
    now rewrite (spot_lookup_get_null spot_cache ts Hnull). }
  apply validate_settlement_some in Hr. destruct Hr as (sd & _ & ->).
  pose proof (recalc_spot_cases lk i s sd) as Hc. cbv zeta in Hc.
  fold po spots in Hc.
  destruct Hc as [(_ & Hs & Hm)|(_ & Hs & _)]; [|congruence].
  assert (Hl : lacks_spot spots (ts, k) = true).
  { unfold lacks_spot. cbn [fst]. now rewrite Hget. }
  split; [apply spot_lookup_skips_null|]. split; [exact Hget|].
  split; [intros acc; unfold spot_step; now rewrite Hget|].
  split; [unfold spot_contribution; cbn [fst]; now rewrite Hget|].
  split; [apply filter_In; now split|]. now split.
Qed.

Lemma null_spot_price_counts_missing_witness :
  Dict.get "2024-01-01T01:00:00" (spot_lookup lookups) = None /\
  r_spot_missing result_jan = Some 2 /\
  r_recalc_spot result_jan = Some 0.5%float.
Proof.
  assert (Hnull : forall p, In p spot_prices ->
                    norm (hourUtc p) = "2024-01-01T01:00:00"%string ->
                    spotPriceDkk p = None).
  { intros p [<-|[<-|[]]]; [vm_compute; discriminate|reflexivity]. }
  assert (Hspot : r_recalc_spot result_jan <> None) by (vm_compute; discriminate).
  assert (Hin : In ("2024-01-01T01:00:00"%string, 1%float)
                   (period_obs_of lookups (norm (periodStart settlement_jan))
                                  (norm (periodEnd settlement_jan)))).
  { vm_compute. right; left. reflexivity. }
  pose proof (null_spot_price_counts_missing cache spot_prices 0 settlement_jan
                result_jan "2024-01-01T01:00:00" 1%float
                Hnull validate_jan Hspot Hin) as H.
  cbv zeta in H. destruct H as (_ & Hget & _ & _ & _ & Hm & Hs).
  split; [exact Hget|]. rewrite Hm, Hs. vm_compute. split; reflexivity.
Defined.

(* ================================================================= *)
(** ** Skipped, passed, failed *)

Lemma addon_fold (s : Settlement) (po : Dict.t float) (has_obs : bool)
    (ps_raw : string) (addons : list Product) :
  forall acc,
    fold_left (addon_step s po has_obs ps_raw) addons acc =
    acc ++ flat_map (addon_finding s (energy_basis po has_obs (totalEnergyKwh s)) ps_raw)
                    addons.
Proof.
  induction addons as [|a addons IH]; intros acc; cbn [fold_left flat_map].
  - now rewrite app_nil_r.
  - rewrite IH, app_assoc. f_equal.
    unfold addon_step, addon_finding. cbv zeta.
    destruct (find _ _); [|now rewrite app_nil_r].
    destruct (0.50 <? _)%float; [reflexivity|now rewrite app_nil_r].
Qed.

(** C1, as amended: for a settlement with no observation in
    [[periodStart, periodEnd)], Level 2 matches nothing, the spot cost is not
    recomputed and no observation issue is raised, and the status is skipped,
    never passed or failed.  The margin is still recomputed, from the
    settlement's own total kWh, and so is the amount of every addon: the
    addon findings are those of the addons of the period computed on the
    settlement's total kWh. *)
Theorem no_observations_skipped `{L : DatetimeLib}
    (lk : Lookups) (i : nat) (s : Settlement) (r : Result) :
  validate_settlement lk i s = Some r ->
  r_has_obs r = false ->
  let po := period_obs_of lk (norm (periodStart s)) (norm (periodEnd s)) in
  po = [] /\
  (forall ts k, In (ts, k) (Dict.items (obs_lookup lk)) ->
     PyStr.le (norm (periodStart s)) ts && PyStr.lt ts (norm (periodEnd s)) = false) /\
  r_obs_n r = 0 /\
  r_tier2 r = tier2_init /\
  r_recalc_spot r = None /\
  r_spot_missing r = None /\
  (forall n, ~ In (IssueObs n) (r_issues r)) /\
  icon r = Skipped /\ icon r <> Passed /\ icon r <> Failed /\
  energy_basis po (r_has_obs r) (totalEnergyKwh s) = totalEnergyKwh s /\
  r_recalc_margin r =
    option_map (fun p => (totalEnergyKwh s * margin_rate_at p (periodStart s))%float)
               (find_primary_product lk (periodStart s)) /\
  r_addon_diffs r =
    flat_map (addon_finding s (totalEnergyKwh s) (periodStart s))
             (find_addons lk (periodStart s)) /\
  (forall a t,
     In a (find_addons lk (periodStart s)) ->
     find (fun t => String.eqb (partyChargeTypeId t) ("PRODUCT:" ++ name a)%string)
          (tariffLines s) = Some t ->
     let calc := (totalEnergyKwh s * margin_rate_at a (periodStart s))%float in
     (0.50 <? PrimFloat.abs (calc - amountDkk t))%float = true ->
     In {| ad_name := name a; ad_calc := calc; ad_ref := amountDkk t;
           ad_d := (calc - amountDkk t)%float |} (r_addon_diffs r)).
Proof.
  intros Hr Hobs po.
  apply validate_settlement_some in Hr. destruct Hr as (sd & _ & ->).
  unfold icon. rewrite Hobs.
  cbn [result_of r_has_obs r_obs_n r_tier2 r_recalc_spot r_spot_missing r_issues
       r_recalc_margin r_addon_diffs negb] in *.
  fold po in Hobs |- *. rewrite Hobs. cbn [andb option_map].
  assert (Hpo : po = []).
  { apply Nat.ltb_ge in Hobs. destruct po; [reflexivity|cbn in Hobs; lia]. }
  assert (Hfold : forall addons acc,
            fold_left (addon_step s po false (periodStart s)) addons acc =
            acc ++ flat_map (addon_finding s (totalEnergyKwh s) (periodStart s)) addons).
  { induction addons as [|a addons IH]; intros acc; cbn [fold_left flat_map].
    - now rewrite app_nil_r.
    - rewrite IH, app_assoc. f_equal.
      unfold addon_step, addon_finding, energy_basis. cbv zeta.
      destruct (find _ _); [|now rewrite app_nil_r].
      destruct (0.50 <? _)%float; [reflexivity|now rewrite app_nil_r]. }
  assert (Hadd : fold_left (addon_step s po false (periodStart s))
                           (find_addons lk (periodStart s)) [] =
                 flat_map (addon_finding s (totalEnergyKwh s) (periodStart s))
                          (find_addons lk (periodStart s))).
  { now rewrite Hfold. }
  split; [exact Hpo|]. split.
  { intros ts k Hin. destruct (_ && _) eqn:E; [|reflexivity].
    assert (Hin' : In (ts, k) po).
    { unfold po, period_obs_of. apply filter_In. split; [exact Hin|exact E]. }
    rewrite Hpo in Hin'. destruct Hin'. }
  split; [now rewrite Hpo|]. split; [reflexivity|].
  split; [reflexivity|]. split; [reflexivity|]. split.
  { intros n Hn. apply in_issues_obs in Hn. destruct Hn as [Hn _].
    cbn in Hn. lia. }
  split; [reflexivity|]. split; [discriminate|]. split; [discriminate|].
  split; [reflexivity|].
  split; [now destruct (find_primary_product lk (periodStart s))|].
  split; [exact Hadd|].
  intros a t Ha Hfind Hgt. rewrite Hadd. apply in_flat_map.
  exists a. split; [exact Ha|]. unfold addon_finding. rewrite Hfind.
  cbv zeta. rewrite Hgt. now left.
Qed.

(** February has no observation: skipped, no Level 2 and no spot cost, and
    the green-power addon is recomputed as 100 kWh at 0.05 against a recorded
    amount of 1. *)
Lemma no_observations_skipped_witness :
  icon result_feb = Skipped /\ r_recalc_spot result_feb = None /\
  r_tier2 result_feb = tier2_init /\
  option_map (fun p => (totalEnergyKwh settlement_feb *
                        margin_rate_at p (periodStart settlement_feb))%float)
             (find_primary_product lookups (periodStart settlement_feb))
    = Some 2%float /\
  flat_map (addon_finding settlement_feb (totalEnergyKwh settlement_feb)
                          (periodStart settlement_feb))
           (find_addons lookups (periodStart settlement_feb)) =
    [ {| ad_name := "Grøn strøm"; ad_calc := 5; ad_ref := 1; ad_d := 4 |} ].
Proof.
  pose proof (no_observations_skipped lookups 1 settlement_feb result_feb
                validate_feb eq_refl) as H.
  cbv zeta in H.
  destruct H as (_ & _ & _ & H2 & H3 & _ & _ & H4 & _ & _ & _ & H5 & H6 & _).
  split; [exact H4|]. split; [exact H3|]. split; [exact H2|].
  split; [rewrite <- H5; vm_compute; reflexivity|].
  rewrite <- H6. vm_compute. reflexivity.
Defined.

(** C1, as stated, fails: the February settlement has no observation in its
    period, yet its margin is recomputed (and raises a margin issue), its
    addon amount is recomputed and its subscription is verified. *)
Lemma no_observations_still_recomputed :
  validate_settlement (L := datetime_fragment) lookups 1 settlement_feb = Some result_feb /\
  period_obs_of lookups (norm (periodStart settlement_feb))
                (norm (periodEnd settlement_feb)) = [] /\
  r_has_obs result_feb = false /\
  r_recalc_margin result_feb = Some 2%float /\
  r_recalc_margin result_feb <> None /\
  r_addon_diffs result_feb =
    [ {| ad_name := "Grøn strøm"; ad_calc := 5; ad_ref := 1; ad_d := 4 |} ] /\
  r_sub_diffs result_feb =
    [ {| sd_cid := "40000"; sd_amt := 10; sd_monthly := 30; sd_days := 29 |} ] /\
  r_issues result_feb = [IssueMargin (-48); IssueAddon 1].
Proof.
  split; [exact validate_feb|].
  repeat split; try (vm_compute; reflexivity). vm_compute. discriminate.
Qed.

Lemma issues_of_nil (t1 : Tier1) (t2 : Tier2) (md : option float)
    (ad : list AddonDiff) :
  issues_of t1 t2 md ad = [] <->
  consistency_ok t1 = true /\ obs_mismatched t2 <= 2 /\
  (forall d, md = Some d -> (1.0 <? PrimFloat.abs d)%float = false) /\
  ad = [].
Proof.
  unfold issues_of, margin_issue. split.
  - intros H.
    apply app_eq_nil in H. destruct H as [H1 H].
    apply app_eq_nil in H. destruct H as [H2 H].
    apply app_eq_nil in H. destruct H as [H3 H4].
    split; [destruct (consistency_ok t1); [reflexivity|discriminate]|].
    split; [destruct (Nat.ltb 2 _) eqn:E; [discriminate|now apply Nat.ltb_ge]|].
    split; [|destruct ad; [reflexivity|discriminate]].
    intros d ->. destruct (1.0 <? _)%float; [discriminate|reflexivity].
  - intros (-> & H2 & H3 & ->). apply Nat.ltb_ge in H2. rewrite H2. cbn.
    destruct md as [d|]; [|reflexivity]. now rewrite (H3 d eq_refl).
Qed.

(** C2, as amended: a settlement with observations in its period is
    classified as passed if and only if its issue set is empty, where the
    issue set is the union of a Level 1 consistency failure, a mismatch count
    above 2, a margin delta of absolute value above 1.0 and any addon delta
    of absolute value above 0.50.  Subscription mismatches are recorded in
    [sub_diffs]; the issue set and the classification do not depend on
    them. *)
Theorem passed_iff_no_issue `{L : DatetimeLib}
    (lk : Lookups) (i : nat) (s : Settlement) (r : Result) :
  validate_settlement lk i s = Some r ->
  r_has_obs r = true ->
  let po := period_obs_of lk (norm (periodStart s)) (norm (periodEnd s)) in
  let basis := energy_basis po true (totalEnergyKwh s) in
  (icon r = Passed <-> r_issues r = []) /\
  (icon r = Failed <-> r_issues r <> []) /\
  (r_issues r = [] <->
   consistency_ok (r_tier1 r) = true /\
   obs_mismatched (r_tier2 r) <= 2 /\
   (forall d, r_margin_diff r = Some d -> (1.0 <? PrimFloat.abs d)%float = false) /\
   r_addon_diffs r = []) /\
  r_addon_diffs r =
    flat_map (addon_finding s basis (periodStart s)) (find_addons lk (periodStart s)) /\
  (forall sub_diffs,
     r_issues (result_of lk i s sub_diffs) = r_issues r /\
     icon (result_of lk i s sub_diffs) = icon r).
Proof.
  intros Hr Hobs po basis.
  apply validate_settlement_some in Hr. destruct Hr as (sd & _ & ->).
  assert (Hok : r_ok (result_of lk i s sd) = true <->
                r_issues (result_of lk i s sd) = []).
  { cbn [result_of r_ok r_issues]. rewrite Nat.eqb_eq. apply length_zero_iff_nil. }
  unfold icon. rewrite Hobs. cbn [negb].
  split; [|split; [|split; [|split]]].
  - rewrite <- Hok. destruct (r_ok _); split; congruence.
  - destruct (r_ok (result_of lk i s sd)) eqn:E.
    + split; [discriminate|]. intros Hne. exfalso. apply Hne. now apply Hok.
    + split; [|reflexivity]. intros _ Hnil. apply Hok in Hnil. congruence.
  - cbn [result_of r_issues r_tier1 r_tier2 r_margin_diff r_addon_diffs].
    apply issues_of_nil.
  - cbn [result_of r_addon_diffs r_has_obs] in *. fold po in Hobs |- *.
    rewrite Hobs, addon_fold. reflexivity.
  - intros sub_diffs. split; [reflexivity|].
    change (r_has_obs (result_of lk i s sub_diffs))
      with (r_has_obs (result_of lk i s sd)).
    rewrite Hobs. reflexivity.
Qed.

Lemma passed_iff_no_issue_witness :
  icon result_jan = Passed.
Proof.
  pose proof (passed_iff_no_issue lookups 0 settlement_jan result_jan
                validate_jan eq_refl) as H.
  cbv zeta in H. destruct H as (H & _).
  apply H. vm_compute. reflexivity.
Defined.

(** C2, as stated, fails: the January settlement has observations and a
    subscription mismatch (10 stored against a monthly price of 30 for a
    one-day period), yet its issue set is empty and it is classified as
    passed. *)
Lemma subscription_mismatch_still_passes :
  validate_settlement (L := datetime_fragment) lookups 0 settlement_jan = Some result_jan /\
  r_has_obs result_jan = true /\
  r_sub_diffs result_jan =
    [ {| sd_cid := "40000"; sd_amt := 10; sd_monthly := 30; sd_days := 1 |} ] /\
  sub_mismatch 10 30 1 = true /\
  r_issues result_jan = [] /\
  icon result_jan = Passed.
Proof.
  split; [exact validate_jan|].
  repeat split; vm_compute; reflexivity.
Qed.

(* ================================================================= *)
(** ** More on the normalizer *)

Lemma prefix_one (c d : ascii) (s : string) :
  prefix (String c EmptyString) (String d s) = Ascii.eqb c d.
Proof.
  cbn. destruct (ascii_dec c d) as [->|Hn].
  - rewrite Ascii.eqb_refl. now destruct s.
  - symmetry. now apply Ascii.eqb_neq.
Qed.

Lemma replace_from_char_free (c : ascii) (s : string) :
  forall skip,
    PyStr.free_of c (PyStr.replace_from (String c EmptyString) EmptyString skip s) = true.
Proof.
  induction s as [|d s IH]; intros skip; [reflexivity|].
  cbn [PyStr.replace_from]. destruct skip as [|k]; [|apply IH].
  rewrite prefix_one. destruct (Ascii.eqb c d) eqn:E.
  - cbn [String.length Nat.sub append]. apply IH.
  - cbn [PyStr.free_of]. rewrite E. cbn. apply IH.
Qed.

Lemma replace_from_deletion_length (old s : string) :
  forall skip,
    String.length (PyStr.replace_from old EmptyString skip s) <= String.length s.
Proof.
  induction s as [|d s IH]; intros skip; [cbn; lia|].
  cbn [PyStr.replace_from]. destruct skip as [|k].
  - destruct (prefix old (String d s)).
    + cbn [append String.length]. specialize (IH (String.length old - 1)). lia.
    + cbn [String.length]. specialize (IH 0). lia.
  - cbn [String.length]. specialize (IH k). lia.
Qed.

(** X1: a lookup key never contains ['Z'] and is never longer than the
    timestamp it comes from; a timestamp with neither ['Z'] nor ['+'] is its
    own key. *)
Theorem norm_key_shape (ts : string) :
  PyStr.free_of "Z" (norm ts) = true /\
  String.length (norm ts) <= String.length ts /\
  (PyStr.free_of "+" ts = true -> PyStr.free_of "Z" ts = true -> norm ts = ts).
Proof.
  unfold norm, PyStr.replace. split; [apply replace_from_char_free|]. split.
  - pose proof (replace_from_deletion_length "Z"
                  (PyStr.replace_from "+00:00" EmptyString 0 ts) 0).
    pose proof (replace_from_deletion_length "+00:00" ts 0). lia.
  - apply norm_free.
Qed.

Lemma norm_key_shape_witness :
  norm "2024-01-01T00:00:00" = "2024-01-01T00:00:00"%string.
Proof.
  apply (norm_key_shape "2024-01-01T00:00:00"); reflexivity.
Defined.

(* ================================================================= *)
(** ** Lookups built by a loop of assignments *)

Lemma find_app_split {A : Type} (f : A -> bool) (l1 l2 : list A) :
  find f (l1 ++ l2) = match find f l1 with Some x => Some x | None => find f l2 end.
Proof.
  induction l1 as [|a l1 IH]; [reflexivity|]. cbn. now destruct (f a).
Qed.

Section DictOfList.

Context {A V : Type} (kv : A -> option (string * V)).
Context (step : Dict.t V -> A -> Dict.t V).
Hypothesis step_spec :
  forall d x, step d x = match kv x with
                         | Some (k, v) => Dict.set k v d
                         | None => d
                         end.

(** The value under [k] after the loop is the one assigned last. *)
Lemma dict_loop_get (l : list A) (k : string) :
  forall d,
    Dict.get k (fold_left step l d) =
    match find (assigns kv k) (rev l) with
    | Some x => assigned kv x
    | None => Dict.get k d
    end.
Proof.
  induction l as [|x l IH]; intros d; [reflexivity|].
  cbn [fold_left rev]. rewrite IH, find_app_split.
  destruct (find (assigns kv k) (rev l)) as [y|]; [reflexivity|].
  cbn [find]. unfold assigns, assigned. rewrite step_spec.
  destruct (kv x) as [[k' v]|] eqn:E; [|reflexivity].
  rewrite dict_get_set. destruct (String.eqb k k'); [|reflexivity].
  now rewrite E.
Qed.

End DictOfList.

Lemma dict_set_keys (V : Type) (k : string) (v : V) (d : Dict.t V) :
  Dict.keys (Dict.set k v d) =
  if Dict.mem k d then Dict.keys d else Dict.keys d ++ [k].
Proof.
  unfold Dict.keys, Dict.mem.
  induction d as [|[k' v'] d IH]; cbn; [reflexivity|].
  destruct (String.eqb k k') eqn:E; cbn.
  - apply String.eqb_eq in E. now subst.
  - rewrite IH. now destruct (Dict.get k d).
Qed.

Lemma dict_get_none_keys (V : Type) (k : string) (d : Dict.t V) :
  Dict.get k d = None <-> ~ In k (Dict.keys d).
Proof.
  unfold Dict.keys. induction d as [|[k' v'] d IH]; cbn; [tauto|].
  destruct (String.eqb k k') eqn:E.
  - apply String.eqb_eq in E. subst. split; [discriminate|]. intros H.
    exfalso. apply H. now left.
  - apply String.eqb_neq in E. rewrite IH. split.
    + intros H [H1|H1]; [congruence|tauto].
    + tauto.
Qed.

Lemma dict_set_nodup (V : Type) (k : string) (v : V) (d : Dict.t V) :
  NoDup (Dict.keys d) -> NoDup (Dict.keys (Dict.set k v d)).
Proof.
  intros H. rewrite dict_set_keys. unfold Dict.mem.
  destruct (Dict.get k d) eqn:E; [exact H|].
  apply dict_get_none_keys in E.
  apply NoDup_app; [exact H|repeat constructor; intros []|].
  - intros x Hx [<-|[]]. exact (E Hx).
Qed.

Section DictLoopKeys.

Context {A V : Type} (kv : A -> option (string * V)).
Context (step : Dict.t V -> A -> Dict.t V).
Hypothesis step_spec :
  forall d x, step d x = match kv x with
                         | Some (k, v) => Dict.set k v d
                         | None => d
                         end.

Lemma dict_loop_nodup (l : list A) :
  forall d, NoDup (Dict.keys d) -> NoDup (Dict.keys (fold_left step l d)).
Proof.
  induction l as [|x l IH]; intros d Hd; [exact Hd|].
  cbn [fold_left]. apply IH. rewrite step_spec.
  destruct (kv x) as [[k v]|]; [now apply dict_set_nodup|exact Hd].
Qed.

End DictLoopKeys.

Lemma find_ext {A : Type} (f g : A -> bool) (l : list A) :
  (forall x, f x = g x) -> find f l = find g l.
Proof.
  intros H. induction l as [|a l IH]; [reflexivity|]. cbn.
  now rewrite H, IH.
Qed.

Lemma dict_filter_get {V : Type} (f : string * V -> bool) (k : string) (d : Dict.t V) :
  NoDup (Dict.keys d) ->
  Dict.get k (filter f d) =
  match Dict.get k d with
  | Some v => if f (k, v) then Some v else None
  | None => None
  end.
Proof.
  unfold Dict.keys. induction d as [|[k' v'] d IH]; intros Hnd; [reflexivity|].
  cbn [map fst] in Hnd. inversion Hnd as [|? ? Hnotin Hnd']; subst.
  cbn [filter Dict.get]. destruct (String.eqb k k') eqn:E.
  - apply String.eqb_eq in E. subst k'.
    destruct (f (k, v')) eqn:Ef; cbn [Dict.get].
    + now rewrite String.eqb_refl.
    + apply dict_get_none_keys. unfold Dict.keys. intros Hin. apply Hnotin.
      apply in_map_iff in Hin. destruct Hin as (x & Hx & Hin).
      apply filter_In in Hin. apply in_map_iff. exists x. tauto.
  - destruct (f (k', v')); cbn [Dict.get]; [rewrite E|]; now apply IH.
Qed.

Lemma dict_filter_nodup {V : Type} (f : string * V -> bool) (d : Dict.t V) :
  NoDup (Dict.keys d) -> NoDup (Dict.keys (filter f d)).
Proof.
  unfold Dict.keys. induction d as [|[k v] d IH]; intros Hnd; [constructor|].
  cbn [map fst] in Hnd. inversion Hnd as [|? ? Hnotin Hnd']; subst.
  cbn [filter]. destruct (f (k, v)); [|now apply IH].
  cbn [map fst]. constructor; [|now apply IH].
  intros Hin. apply Hnotin. apply in_map_iff in Hin.
  destruct Hin as (x & Hx & Hin). apply filter_In in Hin.
  apply in_map_iff. exists x. tauto.
Qed.

Lemma obs_lookup_nodup (obs : list Observation) :
  NoDup (Dict.keys (build_obs_lookup obs)).
Proof.
  unfold build_obs_lookup.
  apply (dict_loop_nodup (fun o => Some (norm (timestamp o), kwh o)));
    [reflexivity|constructor].
Qed.

(** X2: the observation index holds one entry per normalized timestamp, and
    when several observations share a normalized timestamp the last one in
    the time series supplies the kWh. *)
Theorem obs_lookup_last_wins (obs : list Observation) (k : string) :
  Dict.get k (build_obs_lookup obs) =
    option_map kwh (find (fun o => String.eqb k (norm (timestamp o))) (rev obs)) /\
  NoDup (Dict.keys (build_obs_lookup obs)) /\
  (Dict.get k (build_obs_lookup obs) = None <->
   forall o, In o obs -> norm (timestamp o) <> k).
Proof.
  assert (Hget : Dict.get k (build_obs_lookup obs) =
                 option_map kwh (find (fun o => String.eqb k (norm (timestamp o)))
                                      (rev obs))).
  { unfold build_obs_lookup.
    rewrite (dict_loop_get (fun o => Some (norm (timestamp o), kwh o)))
      by reflexivity.
    unfold assigns, assigned. cbn [Dict.get Dict.empty].
    now destruct (find _ (rev obs)). }
  split; [exact Hget|]. split; [apply obs_lookup_nodup|].
  rewrite Hget. split.
  - intros H o Ho Hk.
    destruct (find _ (rev obs)) eqn:E; [discriminate|].
    pose proof (find_none _ _ E o (proj1 (in_rev obs o) Ho)) as Hf.
    cbv beta in Hf. rewrite Hk, String.eqb_refl in Hf. discriminate.
  - intros H. destruct (find _ (rev obs)) as [o|] eqn:E; [|reflexivity].
    apply find_some in E. destruct E as [Hin Hk].
    apply String.eqb_eq in Hk. exfalso.
    apply (H o); [now apply in_rev|now symmetry].
Qed.

(** X3: the spot index holds, for a normalized hour, the price of the last
    cache entry of that hour that carries a price, divided by 1000; one entry
    per hour. *)
Theorem spot_lookup_last_priced (spot_cache : SpotCache) (k : string) :
  Dict.get k (build_spot_lookup spot_cache) =
    match find (fun p => has_price p && String.eqb k (norm (hourUtc p)))
               (rev spot_cache) with
    | Some p => option_map (fun v => (v / 1000.0)%float) (spotPriceDkk p)
    | None => None
    end /\
  NoDup (Dict.keys (build_spot_lookup spot_cache)).
Proof.
  pose (kv := fun p : SpotPrice =>
                match spotPriceDkk p with
                | Some v => Some (norm (hourUtc p), (v / 1000.0)%float)
                | None => None
                end).
  assert (Hstep : forall d p, add_spot_price d p =
                              match kv p with
                              | Some (k', v) => Dict.set k' v d
                              | None => d
                              end).
  { intros d p. unfold add_spot_price, kv. now destruct (spotPriceDkk p). }
  split.
  - unfold build_spot_lookup. rewrite (dict_loop_get kv _ Hstep).
    rewrite (find_ext (assigns kv k)
               (fun p => has_price p && String.eqb k (norm (hourUtc p)))).
    + destruct (find _ (rev spot_cache)) as [p|]; [|reflexivity].
      unfold assigned, kv. now destruct (spotPriceDkk p).
    + intros p. unfold assigns, kv, has_price. now destruct (spotPriceDkk p).
  - unfold build_spot_lookup. apply (dict_loop_nodup kv _ Hstep). constructor.
Qed.

(** X4: a charge has a subscription schedule exactly when some price of
    type ["Abonnement"] carries its charge id; the last such price supplies
    the whole schedule (an earlier one is replaced, not merged), and a
    charge without one resolves to zero. *)
Theorem sub_prices_last_subscription
    (data : Data) (spot_cache : SpotCache) (cid period_start : string) :
  let lk := build_lookups data spot_cache in
  Dict.get cid (sub_prices lk) =
    option_map (fun p => sorted_points (points p))
      (find (fun p => String.eqb (price_type p) "Abonnement"
                      && String.eqb cid (chargeId p))
            (rev (prices data))) /\
  ((forall p, In p (prices data) -> chargeId p = cid ->
              price_type p <> "Abonnement"%string) ->
   sub_price_at lk cid period_start = 0%float).
Proof.
  intros lk.
  pose (kv := fun p : Price =>
                if String.eqb (price_type p) "Abonnement"
                then Some (chargeId p, sorted_points (points p)) else None).
  assert (Hget : Dict.get cid (sub_prices lk) =
                 option_map (fun p => sorted_points (points p))
                   (find (fun p => String.eqb (price_type p) "Abonnement"
                                   && String.eqb cid (chargeId p))
                         (rev (prices data)))).
  { cbn [lk build_lookups sub_prices]. unfold build_sub_prices.
    rewrite (dict_loop_get kv).
    - rewrite (find_ext (assigns kv cid)
                 (fun p => String.eqb (price_type p) "Abonnement"
                           && String.eqb cid (chargeId p))).
      + destruct (find _ (rev (prices data))) as [p|] eqn:E; [|reflexivity].
        apply find_some in E. destruct E as [_ E].
        apply andb_true_iff in E. destruct E as [E _].
        unfold assigned, kv. now rewrite E.
      + intros p. unfold assigns, kv.
        now destruct (String.eqb (price_type p) "Abonnement").
    - intros d p. unfold kv.
      now destruct (String.eqb (price_type p) "Abonnement"). }
  split; [exact Hget|].
  intros Hnone. unfold sub_price_at. rewrite Hget.
  destruct (find _ (rev (prices data))) as [p|] eqn:E; [|reflexivity].
  apply find_some in E. destruct E as [Hin E].
  apply andb_true_iff in E. destruct E as [E1 E2].
  apply String.eqb_eq in E1, E2. exfalso.
  apply (Hnone p); [now apply in_rev|now symmetry|exact E1].
Qed.

(** X5: the observations of a settlement period are the restriction of the
    observation index to the keys with [periodStart <= key < periodEnd]
    (normalized, in string order), one entry per key; the period has
    observations exactly when the index has such a key. *)
Theorem period_obs_restricts_index `{L : DatetimeLib}
    (data : Data) (spot_cache : SpotCache) (s : Settlement) (k : string) :
  let lk := build_lookups data spot_cache in
  let ps := norm (periodStart s) in
  let pe := norm (periodEnd s) in
  let po := period_obs_of lk ps pe in
  Dict.get k po =
    (if PyStr.le ps k && PyStr.lt k pe then Dict.get k (obs_lookup lk) else None) /\
  NoDup (Dict.keys po) /\
  (Nat.ltb 0 (length po) = true <->
   exists k' v, Dict.get k' (obs_lookup lk) = Some v /\
                PyStr.le ps k' && PyStr.lt k' pe = true) /\
  (forall i r, validate_settlement lk i s = Some r ->
     r_has_obs r = Nat.ltb 0 (length po) /\ r_obs_n r = length po).
Proof.
  intros lk ps pe po.
  assert (Hnd : NoDup (Dict.keys (obs_lookup lk))) by apply obs_lookup_nodup.
  split; [|split; [|split]].
  - unfold po, period_obs_of, Dict.items. rewrite (dict_filter_get _ _ _ Hnd).
    unfold in_period. cbn [fst].
    destruct (Dict.get k (obs_lookup lk)); now destruct (_ && _).
  - unfold po, period_obs_of, Dict.items. now apply dict_filter_nodup.
  - split.
    + intros H. apply Nat.ltb_lt in H.
      destruct po as [|[k' v] po'] eqn:E; [cbn in H; lia|].
      assert (Hin : In (k', v) po) by (rewrite E; now left).
      unfold po, period_obs_of, Dict.items in Hin. apply filter_In in Hin.
      destruct Hin as [Hin Hp]. exists k', v. split; [|exact Hp].
      clear - Hin Hnd. revert Hin Hnd. generalize (obs_lookup lk).
      unfold Dict.keys.
      induction t as [|[k2 v2] d IH]; intros Hin Hnd; [destruct Hin|].
      cbn [map fst] in Hnd. inversion Hnd as [|? ? Hnotin Hnd']; subst.
      cbn [Dict.get]. destruct Hin as [[= -> ->]|Hin].
      * now rewrite String.eqb_refl.
      * destruct (String.eqb k' k2) eqn:E; [|now apply IH].
        apply String.eqb_eq in E. subst. exfalso. apply Hnotin.
        apply in_map_iff. now exists (k2, v).
    + intros (k' & v & Hg & Hp). apply Nat.ltb_lt.
      assert (Hin : In (k', v) po).
      { unfold po, period_obs_of, Dict.items. apply filter_In.
        split; [now apply dict_get_in|exact Hp]. }
      destruct po; [destruct Hin|cbn; lia].
  - intros i r Hr. apply validate_settlement_some in Hr.
    destruct Hr as (sd & _ & ->). split; reflexivity.
Qed.

(* ================================================================= *)
(** ** Period classifier *)

Lemma products_get (ps : list Product) (n : string) :
  Dict.get n (build_products ps) = find (fun p => String.eqb n (name p)) (rev ps).
Proof.
  unfold build_products.
  rewrite (dict_loop_get (fun p => Some (name p, p))) by reflexivity.
  unfold assigns, assigned. cbn [Dict.get Dict.empty].
  now destruct (find _ (rev ps)).
Qed.

Lemma products_get_some (ps : list Product) (n : string) (p : Product) :
  Dict.get n (build_products ps) = Some p -> In p ps /\ name p = n.
Proof.
  rewrite products_get. intros H. apply find_some in H. destruct H as [Hin Hn].
  apply String.eqb_eq in Hn. split; [now apply in_rev|now symmetry].
Qed.

Lemma find_primary_scan_find (prods : Dict.t Product) (ps : string)
    (pps : list ProductPeriod) :
  find_primary_scan prods ps pps =
  match find (qualifies_primary ps) pps with
  | Some pp => Dict.get (productName pp) prods
  | None => None
  end.
Proof.
  induction pps as [|pp pps IH]; [reflexivity|].
  cbn [find_primary_scan find]. unfold qualifies_primary at 1.
  now destruct (_ && _).
Qed.

Lemma find_first_split {A : Type} (f : A -> bool) (l : list A) (x : A) :
  find f l = Some x ->
  exists a b, l = a ++ x :: b /\ f x = true /\ forall y, In y a -> f y = false.
Proof.
  induction l as [|z l IH]; [discriminate|]. cbn [find].
  destruct (f z) eqn:E.
  - intros [= ->]. exists [], l. repeat split; auto. intros y [].
  - intros H. destruct (IH H) as (a & b & -> & Hx & Ha).
    exists (z :: a), b. repeat split; auto.
    intros y [<-|Hy]; auto.
Qed.

Lemma sorted_split {A : Type} (R : A -> A -> Prop) (l1 l2 : list A) (x : A) :
  StronglySorted R (l1 ++ x :: l2) ->
  Forall (fun y => R y x) l1 /\ Forall (R x) l2.
Proof.
  induction l1 as [|z l1 IH]; cbn; intros H.
  - inversion H; subst. split; [constructor|assumption].
  - inversion H as [|? ? Hs Hz]; subst. destruct (IH Hs) as [H1 H2].
    split; [|exact H2]. constructor; [|exact H1].
    rewrite Forall_forall in Hz. apply Hz. apply in_or_app. right. now left.
Qed.

(** In the reversed sorted list, what stands before [x] has a key at or
    after [x]'s, what stands behind it a key at or before it. *)
Lemma rev_sorted_split {A : Type} (key : A -> string) (l a b : list A) (x : A) :
  rev (sorted_by_key key l) = a ++ x :: b ->
  (forall y, In y a -> PyStr.le (key x) (key y) = true) /\
  (forall y, In y b -> PyStr.le (key y) (key x) = true).
Proof.
  intros H.
  assert (Hl : sorted_by_key key l = rev b ++ x :: rev a).
  { rewrite <- (rev_involutive (sorted_by_key key l)), H, rev_app_distr.
    cbn [rev]. now rewrite <- app_assoc. }
  pose proof (sorted_by_key_sorted key l) as Hs. rewrite Hl in Hs.
  apply sorted_split in Hs. destruct Hs as [H1 H2].
  rewrite Forall_forall in H1, H2. split; intros y Hy.
  - apply H2. now apply in_rev in Hy.
  - apply H1. now apply in_rev in Hy.
Qed.

Lemma in_sorted_periods (data : Data) (spot_cache : SpotCache) (pp : ProductPeriod) :
  In pp (rev (prod_periods (build_lookups data spot_cache))) <->
  In pp (productPeriods data).
Proof.
  cbn [build_lookups prod_periods]. unfold build_prod_periods.
  rewrite <- in_rev. split; intros H.
  - eapply Permutation_in; [apply sorted_by_key_perm|exact H].
  - eapply Permutation_in; [symmetry; apply sorted_by_key_perm|exact H].
Qed.

(** X6: the primary product is decided by one product period: among the
    periods that are active at the period start and not named as an addon,
    one with the greatest start.  The product returned is the one listed
    under that period's name, so it is never an addon; when no period
    qualifies, or the deciding period names a product that is not listed,
    there is no primary product, whatever the other periods offer. *)
Theorem primary_product_latest_period
    (data : Data) (spot_cache : SpotCache) (period_start : string) :
  let lk := build_lookups data spot_cache in
  let ps := norm period_start in
  ((forall pp, In pp (productPeriods data) -> qualifies_primary ps pp = false) ->
   find_primary_product lk period_start = None) /\
  (forall pp,
     In pp (productPeriods data) -> qualifies_primary ps pp = true ->
     (forall pp', In pp' (productPeriods data) -> qualifies_primary ps pp' = true ->
                  pp' = pp \/ PyStr.lt (pp_start pp') (pp_start pp) = true) ->
     find_primary_product lk period_start =
     find (fun p => String.eqb (productName pp) (name p)) (rev (products_list data))) /\
  (forall p,
     find_primary_product lk period_start = Some p ->
     In p (products_list data) /\ str_in (name p) addon_names = false /\
     exists pp,
       In pp (productPeriods data) /\ qualifies_primary ps pp = true /\
       productName pp = name p /\
       forall pp', In pp' (productPeriods data) -> qualifies_primary ps pp' = true ->
                   PyStr.le (pp_start pp') (pp_start pp) = true).
Proof.
  intros lk ps. unfold find_primary_product. fold ps.
  rewrite find_primary_scan_find.
  split; [|split].
  - intros Hnone.
    destruct (find _ _) as [pp|] eqn:E; [|reflexivity].
    apply find_some in E. destruct E as [Hin Hq].
    apply in_sorted_periods in Hin. rewrite (Hnone pp Hin) in Hq. discriminate.
  - intros pp Hin Hq Hmax.
    assert (Hf : find (qualifies_primary ps) (rev (prod_periods lk)) = Some pp).
    { destruct (find _ _) as [pp0|] eqn:E.
      - destruct (find_first_split _ _ _ E) as (a & b & Hl & Hq0 & Ha).
        assert (Hin0 : In pp0 (productPeriods data)).
        { apply (in_sorted_periods data spot_cache). fold lk. rewrite Hl.
          apply in_or_app. right. now left. }
        destruct (Hmax pp0 Hin0 Hq0) as [->|Hlt]; [reflexivity|].
        exfalso.
        assert (Hpp : In pp (a ++ pp0 :: b)).
        { rewrite <- Hl. now apply (in_sorted_periods data spot_cache). }
        cbn [lk build_lookups prod_periods] in Hl. unfold build_prod_periods in Hl.
        destruct (rev_sorted_split _ _ _ _ _ Hl) as [Hbefore Hafter].
        apply in_app_or in Hpp. destruct Hpp as [Hpp|[->|Hpp]].
        + rewrite (Ha pp Hpp) in Hq. discriminate.
        + rewrite lt_irrefl in Hlt. discriminate.
        + specialize (Hafter pp Hpp). rewrite le_negb_lt, Hlt in Hafter.
          discriminate.
      - exfalso. pose proof (find_none _ _ E pp) as Hn.
        rewrite Hn in Hq; [discriminate|].
        now apply (in_sorted_periods data spot_cache). }
    rewrite Hf. cbn [lk build_lookups products]. apply products_get.
  - intros p Hp.
    destruct (find _ _) as [pp|] eqn:E; [|discriminate].
    destruct (find_first_split _ _ _ E) as (a & b & Hl & Hq & Ha).
    cbn [lk build_lookups products] in Hp.
    apply products_get_some in Hp. destruct Hp as [Hin Hname].
    split; [exact Hin|]. split.
    { unfold qualifies_primary in Hq. apply andb_true_iff in Hq.
      destruct Hq as [_ Hq]. apply negb_true_iff in Hq. now rewrite Hname. }
    exists pp.
    assert (Hpp : In pp (productPeriods data)).
    { apply (in_sorted_periods data spot_cache). fold lk. rewrite Hl.
      apply in_or_app. right. now left. }
    split; [exact Hpp|]. split; [exact Hq|]. split; [now symmetry|].
    intros pp' Hin' Hq'.
    assert (Hp' : In pp' (a ++ pp :: b)).
    { rewrite <- Hl. now apply (in_sorted_periods data spot_cache). }
    cbn [lk build_lookups prod_periods] in Hl. unfold build_prod_periods in Hl.
    destruct (rev_sorted_split _ _ _ _ _ Hl) as [Hbefore Hafter].
    apply in_app_or in Hp'. destruct Hp' as [Hp'|[<-|Hp']].
    + rewrite (Ha pp' Hp') in Hq'. discriminate.
    + apply le_refl.
    + now apply Hafter.
Qed.

Lemma find_addons_scan_flat_map (prods : Dict.t Product) (ps : string)
    (pps : list ProductPeriod) :
  forall addons,
    find_addons_scan prods ps pps addons = addons ++ flat_map (addon_of prods ps) pps.
Proof.
  induction pps as [|pp pps IH]; intros addons; cbn [find_addons_scan flat_map].
  - now rewrite app_nil_r.
  - unfold addon_of at 1, qualifies_addon. destruct (_ && _).
    + destruct (Dict.get (productName pp) prods); rewrite IH.
      * now rewrite <- app_assoc.
      * reflexivity.
    + now rewrite IH.
Qed.

(** X7: the addons of a period are the listed products of the product
    periods that are active at the period start and named as an addon, in
    the order of the sorted periods; an addon period whose product is not
    listed contributes nothing.  Every addon carries an addon name, so the
    primary product is never among them. *)
Theorem addons_are_active_addon_periods
    (data : Data) (spot_cache : SpotCache) (period_start : string) :
  let lk := build_lookups data spot_cache in
  let ps := norm period_start in
  find_addons lk period_start =
    flat_map (addon_of (products lk) ps) (prod_periods lk) /\
  (forall a, In a (find_addons lk period_start) <->
     exists pp, In pp (productPeriods data) /\ qualifies_addon ps pp = true /\
                Dict.get (productName pp) (products lk) = Some a) /\
  (forall a, In a (find_addons lk period_start) ->
     In a (products_list data) /\ str_in (name a) addon_names = true) /\
  (forall p, find_primary_product lk period_start = Some p ->
     ~ In p (find_addons lk period_start)).
Proof.
  intros lk ps.
  assert (Hflat : find_addons lk period_start =
                  flat_map (addon_of (products lk) ps) (prod_periods lk)).
  { unfold find_addons. fold ps. now rewrite find_addons_scan_flat_map. }
  assert (Hiff : forall a, In a (find_addons lk period_start) <->
     exists pp, In pp (productPeriods data) /\ qualifies_addon ps pp = true /\
                Dict.get (productName pp) (products lk) = Some a).
  { intros a. rewrite Hflat, in_flat_map. split.
    - intros (pp & Hin & Ha). exists pp. split.
      + apply (in_sorted_periods data spot_cache). fold lk. now apply in_rev in Hin.
      + unfold addon_of in Ha. destruct (qualifies_addon ps pp); [|destruct Ha].
        destruct (Dict.get _ _) as [q|]; [|destruct Ha].
        destruct Ha as [->|[]]. now split.
    - intros (pp & Hin & Hq & Hg). exists pp. split.
      + apply in_rev. now apply (in_sorted_periods data spot_cache).
      + unfold addon_of. rewrite Hq, Hg. now left. }
  assert (Hname : forall a, In a (find_addons lk period_start) ->
     In a (products_list data) /\ str_in (name a) addon_names = true).
  { intros a Ha. apply Hiff in Ha. destruct Ha as (pp & _ & Hq & Hg).
    cbn [lk build_lookups products] in Hg. apply products_get_some in Hg.
    destruct Hg as [Hin Hn]. split; [exact Hin|].
    unfold qualifies_addon in Hq. apply andb_true_iff in Hq.
    rewrite Hn. tauto. }
  split; [exact Hflat|]. split; [exact Hiff|]. split; [exact Hname|].
  intros p Hp Hin. apply Hname in Hin. destruct Hin as [_ Hin].
  unfold find_primary_product in Hp. rewrite find_primary_scan_find in Hp.
  destruct (find _ _) as [pp|] eqn:E; [|discriminate].
  apply find_some in E. destruct E as [_ Hq].
  cbn [lk build_lookups products] in Hp. apply products_get_some in Hp.
  destruct Hp as [_ Hn]. unfold qualifies_primary in Hq.
  apply andb_true_iff in Hq. destruct Hq as [_ Hq].
  apply negb_true_iff in Hq. rewrite <- Hn in Hq. congruence.
Qed.

(* ================================================================= *)
(** ** More on the three levels *)

Lemma tier1_totals_fold (lines : list TariffLine) :
  forall st,
    dh_total_ref (fold_left tier1_step lines st) =
      fold_left PrimFloat.add
        (map amountDkk (filter (fun t => negb (is_product_line t)) lines))
        (dh_total_ref st) /\
    product_total_ref (fold_left tier1_step lines st) =
      fold_left PrimFloat.add (map amountDkk (filter is_product_line lines))
        (product_total_ref st).
Proof.
  induction lines as [|t lines IH]; intros st; [split; reflexivity|].
  cbn [fold_left filter]. destruct (IH (tier1_step st t)) as [-> ->].
  assert (Hst : dh_total_ref (tier1_step st t) =
                  (if is_product_line t then dh_total_ref st
                   else (dh_total_ref st + amountDkk t)%float) /\
                product_total_ref (tier1_step st t) =
                  (if is_product_line t then (product_total_ref st + amountDkk t)%float
                   else product_total_ref st)).
  { unfold tier1_step, is_product_line. cbv zeta.
    destruct (truthy_detail t); [destruct (_ <? _)%float|]; split; reflexivity. }
  destruct Hst as [-> ->].
  destruct (is_product_line t); split; reflexivity.
Qed.

(** X8: Level 1 adds the amount of every tariff line to exactly one of two
    totals, in line order: a line whose charge id starts with ["PRODUCT:"]
    to the product total, every other line to the other total. *)
Theorem tier1_totals_partition (s : Settlement) :
  dh_total_ref (tier1 s) =
    py_sum (map amountDkk (filter (fun t => negb (is_product_line t)) (tariffLines s))) /\
  product_total_ref (tier1 s) =
    py_sum (map amountDkk (filter is_product_line (tariffLines s))) /\
  length (filter (fun t => negb (is_product_line t)) (tariffLines s)) +
  length (filter is_product_line (tariffLines s)) = length (tariffLines s).
Proof.
  unfold tier1. destruct (tier1_totals_fold (tariffLines s) tier1_init) as [-> ->].
  split; [reflexivity|]. split; [reflexivity|].
  induction (tariffLines s) as [|t l IH]; [reflexivity|].
  cbn [filter]. destruct (is_product_line t); cbn [negb length]; lia.
Qed.

Lemma three_way_count (po : Dict.t float) (hd : list HourlyDetail) :
  length (filter (is_matched po) hd) + length (filter (is_mismatched po) hd) +
  length (filter (is_missing po) hd) = length hd.
Proof.
  induction hd as [|h hd IH]; [reflexivity|].
  rewrite !filter_cons_length. cbn [length].
  unfold is_matched at 1, is_mismatched at 1, is_missing at 1.
  destruct (Dict.get _ po); [destruct (_ <? _)%float|]; cbn [negb]; lia.
Qed.

(** X9: Level 2 puts every hourly detail entry of the chosen tariff line in
    exactly one of matched, mismatched and missing, so the three counts add
    up to the number of entries; they are all zero when the period has no
    observation or no tariff line qualifies. *)
Theorem tier2_counts_cover_details `{L : DatetimeLib}
    (lk : Lookups) (i : nat) (s : Settlement) (r : Result) :
  validate_settlement lk i s = Some r ->
  obs_matched (r_tier2 r) + obs_mismatched (r_tier2 r) + obs_missing (r_tier2 r) =
    (if r_has_obs r
     then match tier2_line (tariffLines s) with
          | Some hd => length hd
          | None => 0
          end
     else 0) /\
  obs_mismatched (r_tier2 r) >= length (obs_errors (r_tier2 r)).
Proof.
  intros Hr. apply validate_settlement_some in Hr. destruct Hr as (sd & _ & ->).
  cbn [result_of r_tier2 r_has_obs]. unfold tier2.
  destruct (Nat.ltb 0 _); [|cbn; lia].
  destruct (tier2_line (tariffLines s)) as [hd|]; [|cbn; lia].
  match goal with |- context [fold_left (tier2_step ?po) hd tier2_init] =>
    destruct (tier2_fold po hd tier2_init) as (-> & -> & -> & ->);
      [cbn; lia|]; pose proof (three_way_count po hd) as H3;
      assert (Hlen : length (flat_map (mismatch_record po) hd) =
                     length (filter (is_mismatched po) hd))
  end.
  { clear. induction hd as [|h hd IH]; [reflexivity|].
    cbn [flat_map]. rewrite length_app, filter_cons_length, IH.
    unfold mismatch_record, is_mismatched.
    destruct (Dict.get _ _); [destruct (_ <? _)%float|]; reflexivity. }
  cbn [tier2_init obs_matched obs_mismatched obs_missing obs_errors app Nat.add].
  split; [exact H3|]. rewrite length_firstn. lia.
Qed.

Lemma tier2_counts_cover_details_witness :
  obs_matched (r_tier2 result_jan) + obs_mismatched (r_tier2 result_jan) +
  obs_missing (r_tier2 result_jan) = 3.
Proof.
  exact (proj1 (tier2_counts_cover_details lookups 0 settlement_jan result_jan
                  validate_jan)).
Defined.

Lemma spot_hours_fold (spots : Dict.t float) (items : list (string * float)) :
  forall acc,
    spot_hours (fold_left (spot_step spots) items acc) +
    spot_missing_hours (fold_left (spot_step spots) items acc) =
    spot_hours acc + spot_missing_hours acc + length items.
Proof.
  induction items as [|[ts k] items IH]; intros acc; [cbn; lia|].
  cbn [fold_left length]. rewrite IH. unfold spot_step.
  destruct (Dict.get ts spots); cbn [spot_hours spot_missing_hours]; lia.
Qed.

(** X10: the spot loop puts every observation hour of the period in exactly
    one of priced and missing, so the reported number of missing spot hours
    never exceeds the number of observations; when it is zero every
    observation hour of the period has a spot price. *)
Theorem spot_hours_cover_observations `{L : DatetimeLib}
    (lk : Lookups) (i : nat) (s : Settlement) (r : Result) (m : nat) :
  validate_settlement lk i s = Some r ->
  r_spot_missing r = Some m ->
  let po := period_obs_of lk (norm (periodStart s)) (norm (periodEnd s)) in
  spot_hours (spot_loop lk po) + m = r_obs_n r /\
  m <= r_obs_n r /\
  (m = 0 ->
   forall ts k, In (ts, k) po -> exists sp, Dict.get ts (spot_lookup lk) = Some sp).
Proof.
  intros Hr Hm po. apply validate_settlement_some in Hr.
  destruct Hr as (sd & _ & ->).
  pose proof (recalc_spot_cases lk i s sd) as Hc. cbv zeta in Hc. fold po in Hc.
  destruct Hc as [(_ & Hs & Hmiss)|(_ & _ & Hmiss)]; [|congruence].
  rewrite Hmiss in Hm. injection Hm as <-.
  assert (Hcount : spot_hours (spot_loop lk po) +
                   length (filter (lacks_spot (spot_lookup lk)) po) = length po).
  { unfold spot_loop, Dict.items.
    pose proof (spot_hours_fold (spot_lookup lk) po spot_init) as H.
    destruct (spot_fold (spot_lookup lk) po spot_init) as [_ H2].
    cbn [spot_init spot_hours spot_missing_hours Nat.add] in H, H2. lia. }
  cbn [result_of r_obs_n]. fold po.
  split; [exact Hcount|]. split; [lia|].
  intros H0 ts k Hin.
  destruct (Dict.get ts (spot_lookup lk)) as [sp|] eqn:E; [now exists sp|].
  exfalso.
  assert (Hl : In (ts, k) (filter (lacks_spot (spot_lookup lk)) po)).
  { apply filter_In. split; [exact Hin|]. unfold lacks_spot. cbn [fst].
    now rewrite E. }
  destruct (filter _ po); [destruct Hl|cbn in H0; lia].
Qed.

Lemma spot_hours_cover_observations_witness :
  spot_hours (spot_loop lookups
                (period_obs_of lookups (norm (periodStart settlement_jan))
                               (norm (periodEnd settlement_jan)))) + 2 =
  r_obs_n result_jan.
Proof.
  exact (proj1 (spot_hours_cover_observations lookups 0 settlement_jan result_jan 2
                  validate_jan eq_refl)).
Defined.

(* ================================================================= *)
(** ** Subscription verification and the run *)

Lemma sub_loop_days `{L : DatetimeLib} (lk : Lookups) (ps_raw pe_raw : string) (days : float)
    (lines : list TariffLine) :
  period_days ps_raw pe_raw = Some days ->
  forall acc,
    sub_loop lk ps_raw pe_raw lines acc =
    Some (acc ++ flat_map (sub_finding lk ps_raw days) lines).
Proof.
  intros Hd. induction lines as [|t lines IH]; intros acc; cbn [sub_loop flat_map].
  - now rewrite app_nil_r.
  - unfold sub_finding at 1. destruct (is_sub_line t).
    + rewrite Hd. cbv zeta. destruct (sub_mismatch _ _ _); rewrite IH.
      * now rewrite <- app_assoc.
      * reflexivity.
    + now rewrite IH.
Qed.

Lemma sub_loop_raises `{L : DatetimeLib}
    (lk : Lookups) (ps_raw pe_raw : string) (lines : list TariffLine) :
  period_days ps_raw pe_raw = None ->
  existsb is_sub_line lines = true ->
  forall acc, sub_loop lk ps_raw pe_raw lines acc = None.
Proof.
  intros Hd. induction lines as [|t lines IH]; intros Hex acc; [discriminate|].
  cbn [sub_loop]. cbn [existsb] in Hex. destruct (is_sub_line t).
  - now rewrite Hd.
  - now apply IH.
Qed.

Lemma existsb_forallb_negb {A : Type} (f : A -> bool) (l : list A) :
  existsb f l = false -> forallb (fun x => negb (f x)) l = true.
Proof.
  induction l as [|a l IH]; [reflexivity|]. cbn.
  destruct (f a); [discriminate|exact IH].
Qed.

(** X11: whatever the [datetime] library accepts, the loop body raises
    exactly when the settlement has a subscription line to verify (a
    subscription whose charge id does not start with ["PRODUCT:"]) and the
    day count of its period raises, which it does exactly when the parser
    raises on [periodStart] or on [periodEnd] (read with ['Z'] as
    ["+00:00"]) or the two values cannot be subtracted.  The period
    timestamps are parsed nowhere else: a settlement without such a line is
    validated whatever they look like. *)
Theorem validate_settlement_raises_iff `{L : DatetimeLib}
    (lk : Lookups) (i : nat) (s : Settlement) :
  (validate_settlement lk i s = None <->
   (exists t, In t (tariffLines s) /\ is_sub_line t = true) /\
   period_days (periodStart s) (periodEnd s) = None) /\
  (period_days (periodStart s) (periodEnd s) = None <->
   fromisoformat (PyStr.replace "Z" "+00:00" (periodStart s)) = None \/
   fromisoformat (PyStr.replace "Z" "+00:00" (periodEnd s)) = None \/
   exists ps_dt pe_dt,
     parse_ts (periodStart s) = Some ps_dt /\ parse_ts (periodEnd s) = Some pe_dt /\
     datetime_sub pe_dt ps_dt = None) /\
  (forall ps_dt pe_dt delta,
     parse_ts (periodStart s) = Some ps_dt -> parse_ts (periodEnd s) = Some pe_dt ->
     datetime_sub pe_dt ps_dt = Some delta ->
     period_days (periodStart s) (periodEnd s) = Some (total_seconds delta / 86400)%float /\
     exists r, validate_settlement lk i s = Some r) /\
  ((forall t, In t (tariffLines s) -> is_sub_line t = false) ->
   validate_settlement lk i s = Some (result_of lk i s [])).
Proof.
  assert (Hiff : validate_settlement lk i s = None <->
                 (exists t, In t (tariffLines s) /\ is_sub_line t = true) /\
                 period_days (periodStart s) (periodEnd s) = None).
  { unfold validate_settlement. split.
    - intros H.
      destruct (sub_loop _ _ _ _ _) eqn:E; [discriminate|].
      destruct (existsb is_sub_line (tariffLines s)) eqn:Ex.
      + split; [now apply existsb_exists|].
        destruct (period_days _ _) eqn:Ed; [|reflexivity].
        exfalso. revert E. apply sub_loop_total. left. congruence.
      + exfalso. revert E. apply sub_loop_total. right.
        now apply existsb_forallb_negb.
    - intros [Hex Hd]. rewrite sub_loop_raises; auto.
      now apply existsb_exists. }
  split; [exact Hiff|]. split; [|split].
  - unfold period_days, parse_ts.
    destruct (fromisoformat (PyStr.replace "Z" "+00:00" (periodStart s))) as [a|].
    + destruct (fromisoformat (PyStr.replace "Z" "+00:00" (periodEnd s))) as [b|].
      * destruct (datetime_sub b a) eqn:Es.
        -- split; [discriminate|].
           intros [H|[H|(a' & b' & [= <-] & [= <-] & H)]]; congruence.
        -- split; [|reflexivity]. intros _. right; right. now exists a, b.
      * split; [|reflexivity]. intros _. right; left. reflexivity.
    + split; [|reflexivity]. intros _. left. reflexivity.
  - intros a b delta Ha Hb Hd.
    assert (Hdays : period_days (periodStart s) (periodEnd s) =
                    Some (total_seconds delta / 86400)%float).
    { unfold period_days. now rewrite Ha, Hb, Hd. }
    split; [exact Hdays|].
    destruct (validate_settlement lk i s) as [r|] eqn:E; [now exists r|].
    destruct (proj1 Hiff eq_refl) as [_ E']. congruence.
  - intros Hnone. unfold validate_settlement.
    assert (G : forall lines acc,
              (forall t, In t lines -> is_sub_line t = false) ->
              sub_loop lk (periodStart s) (periodEnd s) lines acc = Some acc).
    { induction lines as [|t lines IH]; intros acc Hl; [reflexivity|].
      cbn [sub_loop]. rewrite (Hl t (or_introl eq_refl)).
      apply IH. intros t' Ht'. apply Hl. now right. }
    now rewrite G.
Qed.

(** January of the small cache has a subscription line and a period written
    in the ['Z'] form: the day count is one day and the settlement is
    validated. *)
Lemma validate_settlement_raises_iff_witness :
  period_days (L := datetime_fragment) (periodStart settlement_jan)
              (periodEnd settlement_jan) = Some 1%float /\
  exists r, validate_settlement (L := datetime_fragment) lookups 0 settlement_jan = Some r.
Proof.
  destruct (validate_settlement_raises_iff (L := datetime_fragment)
              lookups 0 settlement_jan) as (_ & _ & H & _).
  destruct (H (DateTime.mk 63839664000 (Some 0%Z)) (DateTime.mk 63839750400 (Some 0%Z))
              86400%Z eq_refl eq_refl eq_refl) as [Hd Hr].
  split; [rewrite Hd; vm_compute; reflexivity|exact Hr].
Defined.

(** X12: subscription verification reports a tariff line exactly when it is
    a subscription line outside the product charges whose resolved monthly
    price is positive, whose amount exceeds 0.01 in absolute value, and whose
    ratio to the monthly price is more than 0.15 away both from 1 and from
    [days / 30].  A line whose charge has no subscription schedule is never
    reported. *)
Theorem subscription_findings `{L : DatetimeLib}
    (lk : Lookups) (i : nat) (s : Settlement) (r : Result) (days : float) :
  validate_settlement lk i s = Some r ->
  period_days (periodStart s) (periodEnd s) = Some days ->
  r_sub_diffs r = flat_map (sub_finding lk (periodStart s) days) (tariffLines s) /\
  (forall d, In d (r_sub_diffs r) <->
     exists t, In t (tariffLines s) /\ is_sub_line t = true /\
       let monthly := sub_price_at lk (partyChargeTypeId t) (periodStart s) in
       let ratio := (amountDkk t / monthly)%float in
       d = {| sd_cid := partyChargeTypeId t; sd_amt := amountDkk t;
              sd_monthly := monthly; sd_days := days |} /\
       (0 <? monthly)%float = true /\
       (0.01 <? PrimFloat.abs (amountDkk t))%float = true /\
       (0.15 <? PrimFloat.abs (ratio - 1.0))%float = true /\
       (0.15 <? PrimFloat.abs (ratio - days / 30.0))%float = true) /\
  (forall d, In d (r_sub_diffs r) -> Dict.get (sd_cid d) (sub_prices lk) <> None).
Proof.
  intros Hr Hd. apply validate_settlement_some in Hr.
  destruct Hr as (sd & Hsd & ->). cbn [result_of r_sub_diffs].
  rewrite (sub_loop_days lk _ _ days _ Hd) in Hsd. injection Hsd as <-.
  cbn [app].
  assert (Hiff : forall d,
    In d (flat_map (sub_finding lk (periodStart s) days) (tariffLines s)) <->
     exists t, In t (tariffLines s) /\ is_sub_line t = true /\
       let monthly := sub_price_at lk (partyChargeTypeId t) (periodStart s) in
       let ratio := (amountDkk t / monthly)%float in
       d = {| sd_cid := partyChargeTypeId t; sd_amt := amountDkk t;
              sd_monthly := monthly; sd_days := days |} /\
       (0 <? monthly)%float = true /\
       (0.01 <? PrimFloat.abs (amountDkk t))%float = true /\
       (0.15 <? PrimFloat.abs (ratio - 1.0))%float = true /\
       (0.15 <? PrimFloat.abs (ratio - days / 30.0))%float = true).
  { intros d. rewrite in_flat_map. cbv zeta. split.
    - intros (t & Hin & Hf). exists t. split; [exact Hin|].
      unfold sub_finding in Hf. destruct (is_sub_line t); [|destruct Hf].
      split; [reflexivity|]. cbv zeta in Hf.
      destruct (sub_mismatch _ _ _) eqn:Em; [|destruct Hf].
      destruct Hf as [<-|[]]. split; [reflexivity|].
      unfold sub_mismatch in Em. cbv zeta in Em.
      apply andb_true_iff in Em. destruct Em as [Em E4].
      apply andb_true_iff in E4. destruct E4 as [E3 E4].
      apply andb_true_iff in Em. destruct Em as [E1 E2].
      repeat split; assumption.
    - intros (t & Hin & Hs & -> & H1 & H2 & H3 & H4). exists t.
      split; [exact Hin|]. unfold sub_finding. rewrite Hs. cbv zeta.
      unfold sub_mismatch. cbv zeta. rewrite H1, H2, H3, H4. now left. }
  split; [reflexivity|]. split; [exact Hiff|].
  intros d Hin. apply Hiff in Hin. cbv zeta in Hin.
  destruct Hin as (t & _ & _ & -> & Hpos & _). cbn [sd_cid].
  intros Hnone. unfold sub_price_at in Hpos. rewrite Hnone in Hpos.
  cbn [sub_price_scan] in Hpos. vm_compute in Hpos. discriminate.
Qed.

Lemma subscription_findings_witness :
  r_sub_diffs result_jan =
  flat_map (sub_finding lookups (periodStart settlement_jan) 1%float)
           (tariffLines settlement_jan).
Proof.
  apply (subscription_findings lookups 0 settlement_jan result_jan 1%float
           validate_jan).
  vm_compute. reflexivity.
Defined.

Lemma settlement_loop_index `{L : DatetimeLib} (lk : Lookups) (j : nat) (ss : list Settlement) :
  forall i acc,
    settlement_loop lk (Some j) i ss acc =
    match (if Nat.leb i j then nth_error ss (j - i) else None) with
    | Some s => option_map (fun r => acc ++ [r]) (validate_settlement lk j s)
    | None => Some acc
    end.
Proof.
  induction ss as [|s ss IH]; intros i acc; cbn [settlement_loop].
  - destruct (Nat.leb i j); [|reflexivity]. now destruct (j - i).
  - destruct (Nat.eqb i j) eqn:E; cbn [negb].
    + apply Nat.eqb_eq in E. subst i. rewrite Nat.leb_refl, Nat.sub_diag.
      cbn [nth_error]. destruct (validate_settlement lk j s) as [r|]; [|reflexivity].
      rewrite IH. replace (Nat.leb (S j) j) with false; [reflexivity|].
      symmetry. apply Nat.leb_gt. lia.
    + apply Nat.eqb_neq in E. rewrite IH.
      destruct (Nat.leb i j) eqn:El.
      * apply Nat.leb_le in El. replace (Nat.leb (S i) j) with true
          by (symmetry; apply Nat.leb_le; lia).
        replace (j - i) with (S (j - S i)) by lia. reflexivity.
      * apply Nat.leb_gt in El. replace (Nat.leb (S i) j) with false
          by (symmetry; apply Nat.leb_gt; lia).
        reflexivity.
Qed.

(** X13: with [--index j] only the settlement at position [j] is validated:
    the run yields that one result, or nothing when [j] is past the last
    settlement, and it raises only if that settlement does; the other
    settlements are not looked at. *)
Theorem main_results_single_index `{L : DatetimeLib}
    (data : Data) (spot_cache : SpotCache) (j : nat) :
  main_results data spot_cache (Some j) =
  match nth_error (settlements data) j with
  | Some s =>
      option_map (fun r => [r])
                 (validate_settlement (build_lookups data spot_cache) j s)
  | None => Some []
  end.
Proof.
  unfold main_results. rewrite settlement_loop_index.
  cbn [Nat.leb]. rewrite Nat.sub_0_r. reflexivity.
Qed.

Lemma settlement_loop_positions `{L : DatetimeLib} (lk : Lookups) (ss : list Settlement) :
  forall i acc rs,
    settlement_loop lk None i ss acc = Some rs ->
    length rs = length acc + length ss /\
    (forall k, k < length acc -> nth_error rs k = nth_error acc k) /\
    (forall k s, nth_error ss k = Some s ->
       exists r, nth_error rs (length acc + k) = Some r /\
                 validate_settlement lk (i + k) s = Some r).
Proof.
  induction ss as [|s ss IH]; intros i acc rs; cbn [settlement_loop].
  - intros [= <-]. cbn [length]. split; [lia|]. split; [reflexivity|].
    intros k s Hk. destruct k; discriminate.
  - destruct (validate_settlement lk i s) as [r|] eqn:E; [|discriminate].
    intros H. destruct (IH _ _ _ H) as (Hlen & Hacc & Hpos).
    rewrite length_app in Hlen, Hacc, Hpos. cbn [length] in *.
    split; [lia|]. split.
    + intros k Hk. rewrite Hacc by lia. now rewrite nth_error_app1.
    + intros [|k] s' Hs'.
      * injection Hs' as <-. exists r. rewrite !Nat.add_0_r.
        rewrite Hacc by lia. split; [|exact E].
        now rewrite nth_error_app2, Nat.sub_diag.
      * destruct (Hpos k s' Hs') as (r' & Hr1 & Hr2). exists r'.
        replace (length acc + S k) with (length acc + 1 + k) by lia.
        replace (i + S k) with (S i + k) by lia. now split.
Qed.

Lemma settlement_loop_raises `{L : DatetimeLib} (lk : Lookups) (ss : list Settlement) :
  forall i acc,
    settlement_loop lk None i ss acc = None <->
    exists k s, nth_error ss k = Some s /\ validate_settlement lk (i + k) s = None.
Proof.
  induction ss as [|s ss IH]; intros i acc; cbn [settlement_loop].
  - split; [discriminate|]. intros ([|k] & s & H & _); discriminate.
  - destruct (validate_settlement lk i s) as [r|] eqn:E.
    + rewrite IH. split.
      * intros (k & s' & H1 & H2). exists (S k), s'. split; [exact H1|].
        now replace (i + S k) with (S i + k) by lia.
      * intros ([|k] & s' & H1 & H2).
        -- injection H1 as <-. rewrite Nat.add_0_r in H2. congruence.
        -- exists k, s'. split; [exact H1|].
           now replace (S i + k) with (i + S k) by lia.
    + split; [|reflexivity]. intros _. exists 0, s.
      now rewrite Nat.add_0_r.
Qed.

(** X14: without [--index] the run yields one result per settlement, in
    order, each the validation of the settlement at its position and
    carrying that position; the run raises exactly when the validation of
    some settlement raises. *)
Theorem main_results_all_settlements `{L : DatetimeLib} (data : Data) (spot_cache : SpotCache) :
  let lk := build_lookups data spot_cache in
  (main_results data spot_cache None = None <->
   exists k s, nth_error (settlements data) k = Some s /\
               validate_settlement lk k s = None) /\
  (forall rs, main_results data spot_cache None = Some rs ->
     length rs = length (settlements data) /\
     forall k s, nth_error (settlements data) k = Some s ->
       exists r, nth_error rs k = Some r /\
                 validate_settlement lk k s = Some r /\ r_i r = k).
Proof.
  intros lk. unfold main_results. fold lk. split.
  - apply settlement_loop_raises.
  - intros rs H. apply settlement_loop_positions in H.
    destruct H as (Hlen & _ & Hpos). cbn [length Nat.add] in *.
    split; [exact Hlen|]. intros k s Hs.
    destruct (Hpos k s Hs) as (r & H1 & H2). exists r.
    split; [exact H1|]. split; [exact H2|].
    apply validate_settlement_some in H2. now destruct H2 as (sd & _ & ->).
Qed.

(* ================================================================= *)
(** ** Margin check and the issue list *)

Lemma in_issues_margin (t1 : Tier1) (t2 : Tier2) (md : option float)
    (ad : list AddonDiff) (d : float) :
  In (IssueMargin d) (issues_of t1 t2 md ad) <->
  md = Some d /\ (1.0 <? PrimFloat.abs d)%float = true.
Proof.
  unfold issues_of, margin_issue. rewrite !in_app_iff. split.
  - intros [H|[H|[H|H]]].
    + destruct (negb _); cbn in H; intuition discriminate.
    + destruct (Nat.ltb _ _); cbn in H; intuition discriminate.
    + destruct md as [d'|]; [|destruct H].
      destruct (1.0 <? PrimFloat.abs d')%float eqn:E; [|destruct H].
      destruct H as [[= ->]|[]]. now split.
    + destruct ad; cbn in H; intuition discriminate.
  - intros [-> H]. right; right; left. rewrite H. now left.
Qed.

Lemma in_issues_addon (t1 : Tier1) (t2 : Tier2) (md : option float)
    (ad : list AddonDiff) (n : nat) :
  In (IssueAddon n) (issues_of t1 t2 md ad) <-> ad <> [] /\ n = length ad.
Proof.
  unfold issues_of, margin_issue. rewrite !in_app_iff. split.
  - intros [H|[H|[H|H]]].
    + destruct (negb _); cbn in H; intuition discriminate.
    + destruct (Nat.ltb _ _); cbn in H; intuition discriminate.
    + destruct md as [d'|]; [|destruct H].
      destruct (1.0 <? _)%float; cbn in H; intuition discriminate.
    + destruct ad as [|a ad]; [destruct H|].
      destruct H as [[= <-]|[]]. split; [discriminate|reflexivity].
  - intros [H ->]. right; right; right. destruct ad; [congruence|now left].
Qed.

(** X15: the margin is recomputed exactly when a primary product is found,
    as the product's rate at the period start times the observed energy of
    the period (the settlement's own total kWh when the period has no
    observation); a margin issue is raised exactly when the recomputed margin
    differs from the recorded one by more than 1.0.  Without a primary
    product there is no margin and no spot recomputation and no margin
    issue. *)
Theorem margin_recomputation `{L : DatetimeLib}
    (lk : Lookups) (i : nat) (s : Settlement) (r : Result) :
  validate_settlement lk i s = Some r ->
  let po := period_obs_of lk (norm (periodStart s)) (norm (periodEnd s)) in
  let energy := if r_has_obs r then py_sum (Dict.values po) else totalEnergyKwh s in
  r_recalc_margin r =
    option_map (fun p => (energy * margin_rate_at p (periodStart s))%float)
               (find_primary_product lk (periodStart s)) /\
  r_margin_diff r =
    option_map (fun m => (m - marginAmountDkk s)%float) (r_recalc_margin r) /\
  (forall d, In (IssueMargin d) (r_issues r) <->
             r_margin_diff r = Some d /\ (1.0 <? PrimFloat.abs d)%float = true) /\
  (find_primary_product lk (periodStart s) = None ->
   r_recalc_margin r = None /\ r_recalc_spot r = None /\
   r_prod r = "?"%string /\ r_model r = "Unknown"%string /\
   forall d, ~ In (IssueMargin d) (r_issues r)).
Proof.
  intros Hr po energy. apply validate_settlement_some in Hr.
  destruct Hr as (sd & _ & ->).
  cbn [result_of r_recalc_margin r_margin_diff r_issues r_has_obs r_recalc_spot
       r_prod r_model] in *.
  fold po in energy |- *. split; [|split; [|split]].
  - unfold energy, energy_basis.
    now destruct (find_primary_product lk (periodStart s)).
  - reflexivity.
  - intros d. apply in_issues_margin.
  - intros Hnone. rewrite Hnone. cbn [option_map].
    split; [reflexivity|]. split.
    + change (String.eqb "Unknown" "SpotAddon") with false.
      now rewrite andb_false_r.
    + split; [reflexivity|]. split; [reflexivity|].
      intros d Hd. apply in_issues_margin in Hd. destruct Hd as [Hd _].
      cbn in Hd. discriminate.
Qed.

Lemma margin_recomputation_witness :
  r_recalc_margin result_feb =
  option_map (fun p => (100 * margin_rate_at p "2024-02-01T00:00:00Z")%float)
             (find_primary_product lookups "2024-02-01T00:00:00Z").
Proof.
  exact (proj1 (margin_recomputation lookups 1 settlement_feb result_feb validate_feb)).
Defined.

(** X16: the issue list of a result holds at most one issue of each kind,
    and each issue carries what it was raised for: the mismatch count, the
    margin delta, the number of addon findings (at least one).  A result is
    marked ok exactly when the list is empty, with or without
    observations. *)
Theorem issue_list_shape `{L : DatetimeLib}
    (lk : Lookups) (i : nat) (s : Settlement) (r : Result) :
  validate_settlement lk i s = Some r ->
  NoDup (map issue_type (r_issues r)) /\
  length (r_issues r) <= 4 /\
  (forall n, In (IssueObs n) (r_issues r) -> n = obs_mismatched (r_tier2 r)) /\
  (forall d, In (IssueMargin d) (r_issues r) -> r_margin_diff r = Some d) /\
  (forall n, In (IssueAddon n) (r_issues r) ->
             n = length (r_addon_diffs r) /\ 1 <= n) /\
  (r_ok r = true <-> r_issues r = []).
Proof.
  intros Hr. apply validate_settlement_some in Hr. destruct Hr as (sd & _ & ->).
  cbn [result_of r_issues r_tier2 r_margin_diff r_addon_diffs r_ok].
  split; [|split; [|split; [|split; [|split]]]].
  - unfold issues_of, margin_issue.
    destruct (negb _), (Nat.ltb _ _), (option_map _ _) as [d|];
      try destruct (1.0 <? _)%float;
      destruct (fold_left _ _ _); cbn;
      repeat constructor; cbn; intuition discriminate.
  - unfold issues_of, margin_issue.
    destruct (negb _), (Nat.ltb _ _), (option_map _ _) as [d|];
      try destruct (1.0 <? _)%float;
      destruct (fold_left _ _ _); cbn; lia.
  - intros n Hn. apply in_issues_obs in Hn. tauto.
  - intros d Hd. apply in_issues_margin in Hd. tauto.
  - intros n Hn. apply in_issues_addon in Hn. destruct Hn as [Hne ->].
    split; [reflexivity|]. destruct (fold_left _ _ _); [congruence|cbn; lia].
  - rewrite Nat.eqb_eq. apply length_zero_iff_nil.
Qed.

Lemma issue_list_shape_witness :
  NoDup (map issue_type (r_issues result_feb)) /\ length (r_issues result_feb) <= 4.
Proof.
  pose proof (issue_list_shape lookups 1 settlement_feb result_feb validate_feb) as H.
  split; [exact (proj1 H)|exact (proj1 (proj2 H))].
Defined.

(* ================================================================= *)
(** ** The summary *)

Lemma filter_partition_length {A : Type} (f : A -> bool) (l : list A) :
  length (filter f l) + length (filter (fun x => negb (f x)) l) = length l.
Proof.
  induction l as [|a l IH]; [reflexivity|]. cbn [filter].
  destruct (f a); cbn [negb length]; lia.
Qed.

Lemma filter_filter_and {A : Type} (f g : A -> bool) (l : list A) :
  filter g (filter f l) = filter (fun x => f x && g x) l.
Proof.
  induction l as [|a l IH]; [reflexivity|]. cbn [filter].
  destruct (f a); cbn [filter andb]; [destruct (g a)|]; now rewrite IH.
Qed.

Lemma filter_ext_length {A : Type} (f g : A -> bool) (l : list A) :
  (forall x, f x = g x) -> length (filter f l) = length (filter g l).
Proof.
  intros H. induction l as [|a l IH]; [reflexivity|]. cbn [filter].
  rewrite H. destruct (g a); cbn [length]; now rewrite IH.
Qed.

(** X17: the summary's counts are the counts of the status lines: the
    settlements without observations are those shown as skipped, the
    validated ones those shown as passed, and the rest of those with
    observations are shown as failed.  The consistency line speaks for every
    result, skipped ones included. *)
Theorem summary_counts_match_icons (results : list Result) :
  let su := summary_of results in
  sum_total su = length results /\
  sum_with_obs su + sum_without_obs su = sum_total su /\
  sum_without_obs su = length (filter (shows Skipped) results) /\
  sum_with_obs su =
    length (filter (shows Passed) results) + length (filter (shows Failed) results) /\
  (sum_details su = None <-> sum_with_obs su = 0) /\
  (forall d, sum_details su = Some d ->
     sum_validated d = length (filter (shows Passed) results) /\
     (sum_none_ok d = true <-> sum_validated d = 0) /\
     (sum_all_consistent d = true <->
      forall r, In r results -> consistency_ok (r_tier1 r) = true)).
Proof.
  intros su.
  assert (Hsk : length (filter (fun r => negb (r_has_obs r)) results) =
                length (filter (shows Skipped) results)).
  { apply filter_ext_length. intros r. unfold shows, icon.
    destruct (r_has_obs r); cbn; [now destruct (r_ok r)|reflexivity]. }
  assert (Hpa : length (filter r_ok (filter r_has_obs results)) =
                length (filter (shows Passed) results)).
  { rewrite filter_filter_and. apply filter_ext_length. intros r.
    unfold shows, icon. destruct (r_has_obs r); cbn; [|reflexivity].
    now destruct (r_ok r). }
  assert (Hfa : length (filter (fun r => negb (r_ok r)) (filter r_has_obs results)) =
                length (filter (shows Failed) results)).
  { rewrite filter_filter_and. apply filter_ext_length. intros r.
    unfold shows, icon. destruct (r_has_obs r); cbn; [|reflexivity].
    now destruct (r_ok r). }
  pose proof (filter_partition_length r_has_obs results) as Hp1.
  pose proof (filter_partition_length r_ok (filter r_has_obs results)) as Hp2.
  cbn [su summary_of sum_total sum_with_obs sum_without_obs sum_details].
  remember (filter r_ok (filter r_has_obs results)) as okl eqn:Eokl.
  remember (filter r_has_obs results) as W eqn:EW.
  split; [reflexivity|]. split; [exact Hp1|]. split; [exact Hsk|].
  split; [rewrite <- Hpa, <- Hfa; symmetry; exact Hp2|]. split.
  - destruct W; cbn [length]; split; intros H; try discriminate H; reflexivity.
  - intros d Hd. destruct W as [|r0 l0]; [discriminate|].
    injection Hd as <-. cbn [sum_validated sum_none_ok sum_all_consistent].
    split; [exact Hpa|]. split.
    + destruct okl; cbn [length]; split; intros H; try discriminate H; reflexivity.
    + rewrite forallb_forall. reflexivity.
Qed.

Lemma fold_add_list_sum (l : list nat) (a : nat) :
  fold_left Nat.add l a = a + list_sum l.
Proof.
  unfold list_sum. revert a.
  induction l as [|x l IH]; intros a; cbn; [lia|]. rewrite IH. lia.
Qed.

Lemma nat_sum_filter_zero {A : Type} (f : A -> bool) (g : A -> nat) (l : list A) :
  (forall x, In x l -> f x = false -> g x = 0) ->
  nat_sum (map g (filter f l)) = nat_sum (map g l).
Proof.
  unfold nat_sum. rewrite !fold_add_list_sum. cbn [Nat.add]. unfold list_sum.
  induction l as [|a l IH]; intros H; [reflexivity|]. cbn [filter map fold_right].
  destruct (f a) eqn:E; cbn [map fold_right].
  - rewrite IH; [reflexivity|]. intros x Hx. apply H. now right.
  - rewrite (H a (or_introl eq_refl) E), IH; [reflexivity|].
    intros x Hx. apply H. now right.
Qed.

Lemma settlement_loop_forall `{L : DatetimeLib}
    (P : Result -> Prop) (lk : Lookups) (index : option nat)
    (ss : list Settlement) :
  (forall j s r, validate_settlement lk j s = Some r -> P r) ->
  forall i acc rs,
    settlement_loop lk index i ss acc = Some rs -> Forall P acc -> Forall P rs.
Proof.
  intros HP. induction ss as [|s ss IH]; intros i acc rs; cbn [settlement_loop].
  - now intros [= <-].
  - destruct (match index with Some j => negb (Nat.eqb i j) | None => false end).
    + apply IH.
    + destruct (validate_settlement lk i s) as [r|] eqn:E; [|discriminate].
      intros H Hacc. apply (IH _ _ _ H). apply Forall_app. split; [exact Hacc|].
      constructor; [|constructor]. now apply (HP i s).
Qed.

Lemma summary_details_obs (results : list Result) (d : ObsSummary) :
  sum_details (summary_of results) = Some d ->
  sum_obs_match d =
    nat_sum (map (fun r => obs_matched (r_tier2 r)) (filter r_has_obs results)) /\
  sum_obs_mismatch d =
    nat_sum (map (fun r => obs_mismatched (r_tier2 r)) (filter r_has_obs results)) /\
  sum_obs_missing d =
    nat_sum (map (fun r => obs_missing (r_tier2 r)) (filter r_has_obs results)).
Proof.
  unfold summary_of. cbv zeta. cbn [sum_details].
  remember (nat_sum (map (fun r => obs_matched (r_tier2 r))
                         (filter r_has_obs results))) as m1.
  remember (nat_sum (map (fun r => obs_mismatched (r_tier2 r))
                         (filter r_has_obs results))) as m2.
  remember (nat_sum (map (fun r => obs_missing (r_tier2 r))
                         (filter r_has_obs results))) as m3.
  clear. destruct (filter r_has_obs results); [discriminate|].
  intros [= <-]. repeat split.
Qed.

(** X18: in the summary of a run the observation totals, taken over the
    settlements with observations, are the totals over all results: a
    skipped settlement adds nothing to the matched, mismatched and missing
    totals, and it never has a recomputed spot cost or missing spot hours. *)
Theorem summary_totals_ignore_skipped `{L : DatetimeLib}
    (data : Data) (spot_cache : SpotCache) (index : option nat)
    (results : list Result) (d : ObsSummary) :
  main_results data spot_cache index = Some results ->
  sum_details (summary_of results) = Some d ->
  sum_obs_match d = nat_sum (map (fun r => obs_matched (r_tier2 r)) results) /\
  sum_obs_mismatch d = nat_sum (map (fun r => obs_mismatched (r_tier2 r)) results) /\
  sum_obs_missing d = nat_sum (map (fun r => obs_missing (r_tier2 r)) results) /\
  (forall r, In r results -> r_has_obs r = false ->
     r_recalc_spot r = None /\ r_spot_missing r = None /\ r_tier2 r = tier2_init).
Proof.
  intros Hrun Hd.
  assert (Hall : Forall (fun r => r_has_obs r = false ->
                   r_recalc_spot r = None /\ r_spot_missing r = None /\
                   r_tier2 r = tier2_init) results).
  { unfold main_results in Hrun.
    eapply settlement_loop_forall; [|exact Hrun|constructor].
    intros j s r Hr Hobs. apply validate_settlement_some in Hr.
    destruct Hr as (sd & _ & ->).
    cbn [result_of r_has_obs r_recalc_spot r_spot_missing r_tier2] in *.
    rewrite Hobs. cbn [andb option_map]. unfold tier2. auto. }
  rewrite Forall_forall in Hall.
  destruct (summary_details_obs results d Hd) as (-> & -> & ->).
  repeat split.
  1-3: apply nat_sum_filter_zero; intros r Hin Hobs;
       destruct (Hall r Hin Hobs) as (_ & _ & ->); reflexivity.
  all: now apply Hall.
Qed.

Lemma main_results_small_cache :
  main_results (L := datetime_fragment) cache spot_prices None = Some [result_jan; result_feb].
Proof. vm_compute. reflexivity. Qed.

Lemma summary_totals_ignore_skipped_witness :
  nat_sum (map (fun r => obs_matched (r_tier2 r)) [result_jan; result_feb]) = 1 /\
  r_recalc_spot result_feb = None.
Proof.
  destruct (sum_details (summary_of [result_jan; result_feb])) as [d|] eqn:E.
  - pose proof (summary_totals_ignore_skipped cache spot_prices None
                  [result_jan; result_feb] d main_results_small_cache E)
      as (H1 & _ & _ & H4).
    split.
    + rewrite <- H1. vm_compute in E. injection E as <-. reflexivity.
    + apply (H4 result_feb); [right; left; reflexivity|reflexivity].
  - vm_compute in E. discriminate E.
Defined.

(* ================================================================= *)
(** ** The issue breakdown *)

Lemma fold_left_flat_map {A B C : Type} (g : C -> B -> C) (f : A -> list B)
    (l : list A) :
  forall c,
    fold_left (fun c' a => fold_left g (f a) c') l c = fold_left g (flat_map f l) c.
Proof.
  induction l as [|a l IH]; intros c; [reflexivity|].
  cbn [fold_left flat_map]. now rewrite fold_left_app, IH.
Qed.

Lemma count_issue_get (d : Dict.t nat) (k k' : string) :
  Dict.get k (count_issue d k') =
  if String.eqb k k'
  then Some (match Dict.get k d with Some n => n | None => 0 end + 1)
  else Dict.get k d.
Proof.
  unfold count_issue. rewrite dict_get_set.
  destruct (String.eqb k k') eqn:E; [|reflexivity].
  apply String.eqb_eq in E. now subst.
Qed.

Lemma count_issues_get (k : string) (l : list Issue) :
  forall d,
    Dict.get k (fold_left (fun d' iss => count_issue d' (issue_type iss)) l d) =
    let c := length (filter (fun iss => String.eqb k (issue_type iss)) l) in
    match Dict.get k d with
    | Some n => Some (n + c)
    | None => if Nat.eqb c 0 then None else Some c
    end.
Proof.
  induction l as [|iss l IH]; intros d; cbv zeta.
  - cbn. destruct (Dict.get k d); [f_equal; lia|reflexivity].
  - cbn [fold_left]. rewrite IH. cbv zeta. rewrite count_issue_get.
    rewrite filter_cons_length.
    destruct (String.eqb k (issue_type iss)).
    + destruct (Dict.get k d) as [n|].
      * f_equal. lia.
      * cbn [Nat.add Nat.eqb]. reflexivity.
    + cbn [Nat.add]. reflexivity.
Qed.

Lemma count_issues_nodup (l : list Issue) :
  forall d, NoDup (Dict.keys d) ->
    NoDup (Dict.keys (fold_left (fun d' iss => count_issue d' (issue_type iss)) l d)).
Proof.
  induction l as [|iss l IH]; intros d Hd; [exact Hd|].
  cbn [fold_left]. apply IH. unfold count_issue. now apply dict_set_nodup.
Qed.

(** X19: the issue breakdown counts, under each issue name, the issues of
    that name in all results, whether the settlement has observations or
    not; a name without an issue has no line, every name has at most one
    line, and the lines come in descending order of their counts. *)
Theorem issue_breakdown_counts (results : list Result) (k : string) :
  Dict.get k (issue_types_of results) =
    (if Nat.eqb (issues_named k results) 0 then None
     else Some (issues_named k results)) /\
  Permutation (issue_breakdown results) (Dict.items (issue_types_of results)) /\
  NoDup (map fst (issue_breakdown results)) /\
  StronglySorted (fun a b => snd b <= snd a) (issue_breakdown results) /\
  ((forall r, In r results -> NoDup (map issue_type (r_issues r))) ->
   issues_named k results =
   length (filter (fun r => existsb (fun iss => String.eqb k (issue_type iss))
                                    (r_issues r)) results)).
Proof.
  assert (Hfold : issue_types_of results =
                  fold_left (fun d' iss => count_issue d' (issue_type iss))
                            (flat_map r_issues results) Dict.empty).
  { unfold issue_types_of.
    apply (fold_left_flat_map (fun d' iss => count_issue d' (issue_type iss))
                              r_issues). }
  assert (Hperm : Permutation (issue_breakdown results)
                              (Dict.items (issue_types_of results))).
  { unfold issue_breakdown. apply py_sorted_perm. }
  split; [|split; [|split; [|split]]].
  - rewrite Hfold, count_issues_get. reflexivity.
  - exact Hperm.
  - eapply Permutation_NoDup; [apply Permutation_map; symmetry; exact Hperm|].
    rewrite Hfold. apply (count_issues_nodup _ Dict.empty). constructor.
  - unfold issue_breakdown. apply py_sorted_sorted.
    + intros a b c. lia.
    + intros a b H. apply Z.ltb_lt in H. lia.
    + intros a b H. apply Z.ltb_ge in H. lia.
  - intros Hnd. unfold issues_named. clear Hfold Hperm.
    induction results as [|r results IH]; [reflexivity|].
    cbn [flat_map]. rewrite filter_app, length_app, filter_cons_length.
    rewrite IH by (intros r' Hr'; apply Hnd; now right).
    f_equal. specialize (Hnd r (or_introl eq_refl)).
    clear - Hnd. induction (r_issues r) as [|iss l IHl]; [reflexivity|].
    cbn [map] in Hnd. inversion Hnd as [|? ? Hnotin Hnd']; subst.
    cbn [filter existsb]. destruct (String.eqb k (issue_type iss)) eqn:E.
    + apply String.eqb_eq in E. subst k. cbn [length orb].
      rewrite filter_none; [reflexivity|]. intros x Hx.
      apply String.eqb_neq. intros Heq. apply Hnotin. rewrite Heq.
      now apply in_map.
    + cbn [orb]. now apply IHl.
Qed.

Lemma issue_breakdown_counts_witness :
  issues_named "margin" [result_jan; result_feb] = 1.
Proof.
  rewrite (proj2 (proj2 (proj2 (proj2
             (issue_breakdown_counts [result_jan; result_feb] "margin"))))).
  - vm_compute. reflexivity.
  - intros r [<-|[<-|[]]]; vm_compute; repeat constructor; cbn; intuition discriminate.
Defined.

(* ================================================================= *)
(** ** The spot price cache *)

Lemma str_in_iff (s : string) (l : list string) : str_in s l = true <-> In s l.
Proof.
  unfold str_in. rewrite existsb_exists. split.
  - intros (x & Hx & E). apply String.eqb_eq in E. now subst.
  - intros H. exists s. split; [exact H|apply String.eqb_refl].
Qed.

(** What the merge loop keeps: the cache grows at its end only, the set of
    known hours is the set of cached hours, the new hours are pairwise
    distinct and not among the old ones, and each new entry is the first
    record seen for its hour. *)
Lemma merge_records_invariant (old : list CachedPrice) (records : list ApiRecord) :
  forall st added seen,
    fs_prices st = old ++ added ->
    (forall h, In h (fs_existing_hours st) <-> In h (map c_hourUtc (old ++ added))) ->
    fs_new_count st = length added ->
    NoDup (map c_hourUtc added) ->
    (forall c, In c added ->
       ~ In (c_hourUtc c) (map c_hourUtc old) /\
       exists r, find (fun r => String.eqb (c_hourUtc c) (HourUTC r)) seen = Some r /\
                 c = cache_entry r) ->
    (forall r, In r seen -> In (HourUTC r) (map c_hourUtc (old ++ added))) ->
    exists added',
      fs_prices (merge_records st records) = old ++ added' /\
      (forall h, In h (fs_existing_hours (merge_records st records)) <->
                 In h (map c_hourUtc (old ++ added'))) /\
      fs_new_count (merge_records st records) = length added' /\
      NoDup (map c_hourUtc added') /\
      (forall c, In c added' ->
         ~ In (c_hourUtc c) (map c_hourUtc old) /\
         exists r, find (fun r => String.eqb (c_hourUtc c) (HourUTC r))
                        (seen ++ records) = Some r /\
                   c = cache_entry r) /\
      (forall r, In r (seen ++ records) -> In (HourUTC r) (map c_hourUtc (old ++ added'))).
Proof.
  induction records as [|r records IH];
    intros st added seen Hp He Hn Hnd Hadd Hseen.
  - exists added. rewrite app_nil_r. cbn [merge_records fold_left].
    split; [exact Hp|]. split; [exact He|]. split; [exact Hn|].
    split; [exact Hnd|]. split; [exact Hadd|exact Hseen].
  - cbn [merge_records fold_left]. fold (merge_records (merge_record st r) records).
    replace (seen ++ r :: records) with ((seen ++ [r]) ++ records)
      by now rewrite <- app_assoc.
    unfold merge_record. destruct (str_in (HourUTC r) (fs_existing_hours st)) eqn:E.
    + apply str_in_iff in E. apply He in E.
      apply (IH st added (seen ++ [r])); auto.
      * intros c Hc. destruct (Hadd c Hc) as (H1 & r0 & Hf & ->).
        split; [exact H1|]. exists r0. split; [|reflexivity].
        rewrite find_app_split. now rewrite Hf.
      * intros r' Hr'. apply in_app_or in Hr'. destruct Hr' as [Hr'|[<-|[]]]; auto.
    + assert (Hnew : ~ In (HourUTC r) (map c_hourUtc (old ++ added))).
      { intros H. apply He in H. apply str_in_iff in H. congruence. }
      apply (IH _ (added ++ [cache_entry r]) (seen ++ [r]));
        cbn [fs_prices fs_existing_hours fs_new_count].
      * now rewrite Hp, <- app_assoc.
      * intros h. rewrite app_assoc, map_app, in_app_iff. cbn [map In cache_entry c_hourUtc].
        rewrite <- He. tauto.
      * rewrite length_app, Hn. reflexivity.
      * rewrite map_app. apply NoDup_app; [exact Hnd|repeat constructor; intros []|].
        intros h Hh [<-|[]]. apply Hnew. rewrite map_app. apply in_or_app. now right.
      * intros c Hc. apply in_app_or in Hc. destruct Hc as [Hc|[<-|[]]].
        -- destruct (Hadd c Hc) as (H1 & r0 & Hf & ->).
           split; [exact H1|]. exists r0. split; [|reflexivity].
           rewrite find_app_split. now rewrite Hf.
        -- split.
           ++ intros H. apply Hnew. rewrite map_app. apply in_or_app. now left.
           ++ exists r. split; [|reflexivity]. rewrite find_app_split.
              cbn [cache_entry c_hourUtc].
              destruct (find _ seen) as [r0|] eqn:Ef.
              ** exfalso. apply find_some in Ef. destruct Ef as [Hin Heq].
                 apply String.eqb_eq in Heq. apply Hnew. rewrite Heq.
                 now apply Hseen.
              ** cbn. now rewrite String.eqb_refl.
      * intros r' Hr'. rewrite app_assoc, map_app. apply in_or_app.
        apply in_app_or in Hr'. destruct Hr' as [Hr'|[<-|[]]].
        -- left. now apply Hseen.
        -- right. now left.
Qed.

(** X20: fetching never changes or drops an entry of the existing cache and
    never adds an hour twice: the merged cache is the old one followed by
    one new entry for each fetched hour that was not cached, taken from the
    first record fetched for that hour, and [new_count] is their number.  An
    hour that is already cached keeps its cached entry.  Sorting by hour
    reorders the same entries in ascending order of the hour. *)
Theorem fetch_merge_extends_cache
    (old : list CachedPrice) (batches : list (list ApiRecord)) :
  let st := merge_batches old batches in
  let records := concat batches in
  exists added,
    fs_prices st = old ++ added /\
    fs_new_count st = length added /\
    NoDup (map c_hourUtc added) /\
    (forall c, In c added ->
       ~ In (c_hourUtc c) (map c_hourUtc old) /\
       exists r, find (fun r => String.eqb (c_hourUtc c) (HourUTC r)) records = Some r /\
                 c = cache_entry r) /\
    (forall r, In r records -> In (HourUTC r) (map c_hourUtc (fs_prices st))) /\
    (NoDup (map c_hourUtc old) -> NoDup (map c_hourUtc (fs_prices st))) /\
    Permutation (sort_prices (fs_prices st)) (old ++ added) /\
    StronglySorted (key_le c_hourUtc) (sort_prices (fs_prices st)).
Proof.
  intros st records. subst st records. unfold merge_batches.
  assert (G : forall bs st0 added seen,
    fs_prices st0 = old ++ added ->
    (forall h, In h (fs_existing_hours st0) <-> In h (map c_hourUtc (old ++ added))) ->
    fs_new_count st0 = length added ->
    NoDup (map c_hourUtc added) ->
    (forall c, In c added ->
       ~ In (c_hourUtc c) (map c_hourUtc old) /\
       exists r, find (fun r => String.eqb (c_hourUtc c) (HourUTC r)) seen = Some r /\
                 c = cache_entry r) ->
    (forall r, In r seen -> In (HourUTC r) (map c_hourUtc (old ++ added))) ->
    exists added',
      fs_prices (fold_left merge_records bs st0) = old ++ added' /\
      fs_new_count (fold_left merge_records bs st0) = length added' /\
      NoDup (map c_hourUtc added') /\
      (forall c, In c added' ->
         ~ In (c_hourUtc c) (map c_hourUtc old) /\
         exists r, find (fun r => String.eqb (c_hourUtc c) (HourUTC r))
                        (seen ++ concat bs) = Some r /\
                   c = cache_entry r) /\
      (forall r, In r (seen ++ concat bs) ->
                 In (HourUTC r) (map c_hourUtc (old ++ added')))).
  { induction bs as [|b bs IH]; intros st0 added seen Hp He Hn Hnd Hadd Hseen.
    - exists added. cbn [fold_left concat]. rewrite app_nil_r. auto.
    - cbn [fold_left concat].
      destruct (merge_records_invariant old b st0 added seen Hp He Hn Hnd Hadd Hseen)
        as (added1 & Hp1 & He1 & Hn1 & Hnd1 & Hadd1 & Hseen1).
      rewrite app_assoc.
      apply (IH _ added1 (seen ++ b)); auto. }
  destruct (G batches (load_state old) [] []) as (added & Hp & Hn & Hnd & Hadd & Hseen).
  - cbn. now rewrite app_nil_r.
  - intros h. cbn [load_state fs_existing_hours]. now rewrite app_nil_r.
  - reflexivity.
  - constructor.
  - intros c [].
  - intros r [].
  - exists added. cbn [app] in Hadd, Hseen.
    split; [exact Hp|]. split; [exact Hn|]. split; [exact Hnd|].
    split; [exact Hadd|]. split; [now rewrite Hp|]. split; [|split].
    + intros Hold. rewrite Hp, map_app. apply NoDup_app; auto.
      intros h Hh Hh'. apply in_map_iff in Hh'. destruct Hh' as (c & <- & Hc).
      now apply (Hadd c Hc).
    + rewrite <- Hp. apply sorted_by_key_perm.
    + apply sorted_by_key_sorted.
Qed.

Lemma present_nil_iff {A B : Type} (key : A -> option B) (l : list A) :
  present key l = [] <-> forall a, In a l -> key a = None.
Proof.
  unfold present. induction l as [|a l IH]; cbn [flat_map].
  - split; [intros _ a []|reflexivity].
  - destruct (key a) eqn:E; cbn [app].
    + split; [discriminate|]. intros H. specialize (H a (or_introl eq_refl)). congruence.
    + rewrite IH. split.
      * intros H x [<-|Hx]; auto.
      * intros H x Hx. apply H. now right.
Qed.

Lemma present_in {A B : Type} (key : A -> option B) (l : list A) (b : B) :
  In b (present key l) <-> exists a, In a l /\ key a = Some b.
Proof.
  unfold present. rewrite in_flat_map. split.
  - intros (a & Ha & Hb). exists a. split; [exact Ha|].
    destruct (key a); [destruct Hb as [<-|[]]; reflexivity|destruct Hb].
  - intros (a & Ha & E). exists a. split; [exact Ha|]. rewrite E. now left.
Qed.

Lemma py_min_in (x : float) (l : list float) : In (py_min x l) (x :: l).
Proof.
  unfold py_min. revert x. induction l as [|y l IH]; intros x; cbn [fold_left].
  - now left.
  - destruct (IH (if (y <? x)%float then y else x)) as [H|H].
    + destruct (y <? x)%float; rewrite <- H; [right; now left|now left].
    + right. now right.
Qed.

Lemma py_max_in (x : float) (l : list float) : In (py_max x l) (x :: l).
Proof.
  unfold py_max. revert x. induction l as [|y l IH]; intros x; cbn [fold_left].
  - now left.
  - destruct (IH (if (x <? y)%float then y else x)) as [H|H].
    + destruct (x <? y)%float; rewrite <- H; [right; now left|now left].
    + right. now right.
Qed.

Lemma sorted_last_greatest {A : Type} (key : A -> string) (l : list A) (d : A) :
  StronglySorted (key_le key) l ->
  forall a, In a l -> key_le key a (last l d).
Proof.
  intros HS. revert d. induction HS as [|x l HS IH Hall]; intros d a Ha.
  - destruct Ha.
  - destruct l as [|y l'].
    + destruct Ha as [<-|[]]. cbn. unfold key_le. apply le_refl.
    + change (last (x :: y :: l') d) with (last (y :: l') d).
      destruct Ha as [<-|Ha].
      * rewrite Forall_forall in Hall. apply Hall.
        destruct (exists_last (l := y :: l')) as (l0 & z & E); [discriminate|].
        rewrite E, last_last, <- E. rewrite E. apply in_or_app. right. now left.
      * now apply IH.
Qed.

Lemma last_in {A : Type} (l : list A) (x d : A) : In (last (x :: l) d) (x :: l).
Proof.
  destruct (exists_last (l := x :: l)) as (l0 & z & E); [discriminate|].
  rewrite E, last_last. apply in_or_app. right. now left.
Qed.

(** X21: the statistics written with the sorted cache.  An empty cache gets
    none; a cache in which no entry has a price makes [min] raise; otherwise
    [first] and [last] are hours of the cache that bound every hour of the
    cache from below and from above, and [min] and [max] are prices of the
    cache. *)
Theorem stats_of_sorted_cache (prices : list CachedPrice) :
  (stats_of (sort_prices prices) = Some None <-> prices = []) /\
  (stats_of (sort_prices prices) = None <->
     prices <> [] /\ forall p, In p prices -> c_spotPriceDkk p = None) /\
  (forall s, stats_of (sort_prices prices) = Some (Some s) ->
     (forall p, In p prices ->
        PyStr.le (st_first s) (c_hourUtc p) = true /\
        PyStr.le (c_hourUtc p) (st_last s) = true) /\
     In (st_first s) (map c_hourUtc prices) /\
     In (st_last s) (map c_hourUtc prices) /\
     In (Some (st_min s)) (map c_spotPriceDkk prices) /\
     In (Some (st_max s)) (map c_spotPriceDkk prices)).
Proof.
  pose proof (sorted_by_key_perm c_hourUtc prices) as HP.
  pose proof (sorted_by_key_sorted c_hourUtc prices) as HS.
  fold (sort_prices prices) in HP, HS.
  assert (Hnull : present c_spotPriceDkk (sort_prices prices) = [] <->
                  forall p, In p prices -> c_spotPriceDkk p = None).
  { rewrite present_nil_iff. split; intros H p Hp; apply H.
    - now apply (Permutation_in _ (Permutation_sym HP)).
    - now apply (Permutation_in _ HP). }
  unfold stats_of.
  destruct (sort_prices prices) as [|p0 rest] eqn:Es.
  - apply Permutation_nil in HP. subst prices.
    split; [split; reflexivity|]. split.
    + split; [discriminate|]. intros [H _]. now destruct H.
    + discriminate.
  - assert (Hne : prices <> []).
    { intros ->. apply Permutation_sym, Permutation_nil in HP. discriminate. }
    destruct (present c_spotPriceDkk (p0 :: rest)) as [|v vs] eqn:Ep.
    + split; [split; [discriminate|intros H; now destruct Hne]|].
      split; [|discriminate].
      split; [intros _; split; [exact Hne|now apply Hnull]|reflexivity].
    + split; [split; [discriminate|intros H; now destruct Hne]|].
      split.
      { split; [discriminate|]. intros [_ H]. apply Hnull in H. discriminate. }
      intros s Hs. injection Hs as <-. cbn [st_first st_last st_min st_max].
      assert (Hin : forall b, In b (v :: vs) -> In (Some b) (map c_spotPriceDkk prices)).
      { intros b Hb. rewrite <- Ep in Hb. apply present_in in Hb.
        destruct Hb as (a & Ha & E). rewrite <- E. apply in_map.
        now apply (Permutation_in _ HP). }
      split; [|split; [|split; [|split]]].
      * intros p Hp. apply (Permutation_in _ (Permutation_sym HP)) in Hp.
        split.
        -- destruct Hp as [<-|Hp]; [apply le_refl|].
           inversion HS as [|? ? _ Hall]; subst.
           rewrite Forall_forall in Hall. now apply Hall.
        -- now apply (sorted_last_greatest c_hourUtc (p0 :: rest) p0 HS).
      * apply in_map. apply (Permutation_in _ HP). now left.
      * apply in_map. apply (Permutation_in _ HP). apply last_in.
      * apply Hin, py_min_in.
      * apply Hin, py_max_in.
Qed.


(* ================================================================= *)
(** ** Pushing the cache *)

Lemma convert_fold (round8 : float -> float) (prices : list SpotPrice) :
  forall st,
    fold_left (convert_step round8) prices st =
    (fst st ++ flat_map (point_of round8) prices,
     snd st + length (filter null_price prices)).
Proof.
  induction prices as [|p prices IH]; intros [pts k]; cbn [fold_left flat_map filter fst snd].
  - now rewrite app_nil_r, Nat.add_0_r.
  - rewrite IH. unfold convert_step, point_of, null_price. cbn [fst snd].
    destruct (spotPriceDkk p); cbn [fst snd length app].
    + now rewrite <- app_assoc.
    + f_equal. lia.
Qed.

Lemma convert_points (round8 : float -> float) (prices : list SpotPrice) :
  fst (convert_prices round8 prices) = flat_map (point_of round8) prices.
Proof. unfold convert_prices. now rewrite convert_fold. Qed.

Lemma points_length (round8 : float -> float) (prices : list SpotPrice) :
  length (flat_map (point_of round8) prices) =
  length (filter (fun p => negb (null_price p)) prices).
Proof.
  induction prices as [|p prices IH]; [reflexivity|].
  cbn [flat_map filter]. rewrite length_app, IH.
  unfold point_of, null_price. now destruct (spotPriceDkk p).
Qed.

(** X22: the conversion loop of the push script keeps the priced entries of
    the cache in their order, one point each with the entry's hour as
    timestamp, and counts the others: every cache entry is either pushed or
    counted as skipped, and no point is made for an entry without a price,
    whatever the rounding does. *)
Theorem convert_prices_partition (round8 : float -> float) (prices : list SpotPrice) :
  let points := fst (convert_prices round8 prices) in
  let skipped := snd (convert_prices round8 prices) in
  length points + skipped = length prices /\
  skipped = length (filter null_price prices) /\
  map push_timestamp points =
    map hourUtc (filter (fun p => negb (null_price p)) prices) /\
  forall pt, In pt points <->
    exists p v, In p prices /\ spotPriceDkk p = Some v /\
                pt = {| push_timestamp := hourUtc p;
                        priceDkkPerKwh := round8 (v / 1000)%float |}.
Proof.
  cbv zeta. unfold convert_prices. rewrite convert_fold. cbn [fst snd app Nat.add].
  split; [|split; [reflexivity|split]].
  - rewrite points_length.
    pose proof (filter_partition_length null_price prices). lia.
  - induction prices as [|p prices IH]; [reflexivity|].
    cbn [flat_map filter]. rewrite map_app, IH.
    unfold point_of, null_price. now destruct (spotPriceDkk p).
  - intros pt. rewrite in_flat_map. split.
    + intros (p & Hp & Hpt). unfold point_of in Hpt.
      destruct (spotPriceDkk p) as [v|] eqn:E; [|destruct Hpt].
      destruct Hpt as [<-|[]]. now exists p, v.
    + intros (p & v & Hp & E & ->). exists p. split; [exact Hp|].
      unfold point_of. rewrite E. now left.
Qed.

(** The chunks of a list taken every [step] items from [i] on. *)
Lemma range_chunks {A : Type} (l : list A) (step : nat) :
  0 < step ->
  forall fuel i, length l - i <= fuel ->
    let bs := map (fun k => slice l k (k + step)) (range_from fuel i (length l) step) in
    concat bs = skipn i l /\
    Forall (fun b => 1 <= length b <= step) bs /\
    (forall k, S k < length bs -> length (nth k bs []) = step) /\
    length bs = (length l - i + step - 1) / step.
Proof.
  intros Hstep. induction fuel as [|f IH]; intros i Hf; cbv zeta.
  - cbn [range_from map concat length].
    rewrite skipn_all2 by lia.
    split; [reflexivity|]. split; [constructor|]. split; [intros k Hk; cbn in Hk; lia|].
    replace (length l - i + step - 1) with (step - 1) by lia.
    symmetry. apply Nat.div_small. lia.
  - cbn [range_from]. destruct (Nat.ltb i (length l)) eqn:E.
    + apply Nat.ltb_lt in E. cbn [map concat].
      destruct (IH (i + step)) as (H1 & H2 & H3 & H4); [lia|].
      cbv zeta in H1, H2, H3, H4.
      assert (Hs : slice l i (i + step) = firstn step (skipn i l)).
      { unfold slice. f_equal. lia. }
      assert (Hlen : length (slice l i (i + step)) = Nat.min step (length l - i)).
      { rewrite Hs, length_firstn, length_skipn. reflexivity. }
      split; [|split; [|split]].
      * rewrite H1, Hs. rewrite <- (firstn_skipn step (skipn i l)) at 2.
        f_equal. rewrite skipn_skipn. f_equal. lia.
      * constructor; [rewrite Hlen; lia|exact H2].
      * intros k Hk. cbn [length] in Hk. destruct k as [|k].
        -- cbn [nth]. rewrite Hlen.
           destruct (range_from f (i + step) (length l) step) as [|j js] eqn:Er;
             [cbn in Hk; lia|].
           destruct f as [|f']; [discriminate|]. cbn [range_from] in Er.
           destruct (Nat.ltb (i + step) (length l)) eqn:E2; [|discriminate].
           apply Nat.ltb_lt in E2. lia.
        -- cbn [nth]. apply H3. lia.
      * cbn [length]. rewrite H4.
        destruct (Nat.le_gt_cases (length l) (i + step)) as [Hle|Hgt].
        -- replace (length l - (i + step) + step - 1) with (step - 1) by lia.
           rewrite Nat.div_small by lia.
           apply (Nat.div_unique _ _ 1 (length l - i - 1)); lia.
        -- replace (length l - i + step - 1)
             with (length l - (i + step) + step - 1 + 1 * step) by lia.
           rewrite Nat.div_add by lia. lia.
    + apply Nat.ltb_ge in E. cbn [map concat length].
      rewrite skipn_all2 by lia.
      split; [reflexivity|]. split; [constructor|]. split; [intros k Hk; cbn in Hk; lia|].
      replace (length l - i + step - 1) with (step - 1) by lia.
      symmetry. apply Nat.div_small. lia.
Qed.

Lemma fold_add_from (l : list Z) (a : Z) :
  fold_left Z.add l a = (a + fold_left Z.add l 0)%Z.
Proof.
  revert a. induction l as [|x l IH]; intros a; cbn [fold_left]; [lia|].
  rewrite IH, (IH (0 + x)%Z). lia.
Qed.

Lemma total_over_step (f : Post -> Z) (replies : nat -> Post) (k n : nat) :
  total_over f replies k (S n) = (f (replies k) + total_over f replies (S k) n)%Z.
Proof.
  unfold total_over. cbn [seq map fold_left]. rewrite fold_add_from. lia.
Qed.

(** The loop sends the batches in order up to and including the first one
    whose request is not accepted. *)
Lemma push_loop_spec (replies : nat -> Post) (bs : list (list PushPoint)) :
  forall k sent0 ti tu,
    let run := push_loop replies bs k sent0 ti tu in
    (exists n, n <= length bs /\ (bs <> [] -> 1 <= n) /\
               sent run = sent0 ++ firstn n bs) /\
    ((forall j, j < length bs -> accepted (replies (k + j)) = true) ->
     sent run = sent0 ++ bs /\
     push_end run = Done (ti + total_over inserted_of replies k (length bs))
                         (tu + total_over updated_of replies k (length bs))) /\
    (forall j, j < length bs ->
       accepted (replies (k + j)) = false ->
       (forall j', j' < j -> accepted (replies (k + j')) = true) ->
       sent run = sent0 ++ firstn (S j) bs /\
       push_end run = if refused (replies (k + j)) then Exit1 else Raised).
Proof.
  induction bs as [|b bs IH]; intros k sent0 ti tu; cbv zeta.
  - cbn [push_loop sent push_end length]. split; [|split].
    + exists 0. split; [lia|]. split; [intros H; now destruct H|].
      now rewrite app_nil_r.
    + intros _. unfold total_over. cbn. rewrite app_nil_r.
      split; [reflexivity|]. f_equal; lia.
    + intros j Hj. lia.
  - cbn [push_loop length].
    assert (Hstop : forall e,
      (forall j, j < S (length bs) -> accepted (replies (k + j)) = true) -> 
      accepted (replies k) = false -> e).
    { intros e Hall Hk. specialize (Hall 0 (Nat.lt_0_succ _)).
      rewrite Nat.add_0_r in Hall. congruence. }
    assert (Hfirst : forall run,
      sent run = sent0 ++ [b] ->
      accepted (replies k) = false ->
      (exists n, n <= S (length bs) /\ (b :: bs <> [] -> 1 <= n) /\
                 sent run = sent0 ++ firstn n (b :: bs)) /\
      (forall j, j < S (length bs) ->
         accepted (replies (k + j)) = false ->
         (forall j', j' < j -> accepted (replies (k + j')) = true) ->
         sent run = sent0 ++ firstn (S j) (b :: bs))).
    { intros run Hs Hk. split.
      - exists 1. split; [lia|]. split; [lia|]. exact Hs.
      - intros j Hj Hnot Hbefore. destruct j as [|j]; [exact Hs|].
        specialize (Hbefore 0 (Nat.lt_0_succ _)).
        rewrite Nat.add_0_r in Hbefore. congruence. }
    destruct (replies k) as [|code json] eqn:Ek.
    + destruct (Hfirst {| sent := sent0 ++ [b]; push_end := Raised |} eq_refl eq_refl)
        as [H1 H2].
      split; [exact H1|]. split.
      * intros Hall. apply Hstop; [exact Hall|reflexivity].
      * intros j Hj Hnot Hbefore. split; [now apply H2|].
        destruct j as [|j].
        -- rewrite Nat.add_0_r, Ek. reflexivity.
        -- specialize (Hbefore 0 (Nat.lt_0_succ _)).
           rewrite Nat.add_0_r, Ek in Hbefore. discriminate.
    + destruct (Z.eqb code 200) eqn:Ec; cbn [negb].
      * destruct json as [[ins upd]|].
        -- (* accepted: the loop goes on *)
           destruct (IH (S k) (sent0 ++ [b]) (ti + get_or_zero ins)%Z
                        (tu + get_or_zero upd)%Z) as (H1 & H2 & H3).
           cbv zeta in H1, H2, H3.
           split; [|split].
           ++ destruct H1 as (n & Hn & _ & Hs). exists (S n).
              split; [lia|]. split; [lia|].
              rewrite Hs, <- app_assoc. reflexivity.
           ++ intros Hall.
              destruct H2 as [Hs He].
              { intros j Hj. rewrite Nat.add_succ_comm. apply Hall. lia. }
              split; [rewrite Hs, <- app_assoc; reflexivity|].
              rewrite He, !total_over_step, Ek. cbn [inserted_of updated_of].
              f_equal; lia.
           ++ intros j Hj Hnot Hbefore. destruct j as [|j].
              { rewrite Nat.add_0_r, Ek in Hnot. cbn [accepted] in Hnot. congruence. }
              destruct (H3 j) as [Hs He].
              { lia. }
              { rewrite Nat.add_succ_comm. exact Hnot. }
              { intros j' Hj'. rewrite Nat.add_succ_comm. apply Hbefore. lia. }
              split; [rewrite Hs, <- app_assoc; reflexivity|].
              rewrite He, Nat.add_succ_comm. reflexivity.
        -- destruct (Hfirst {| sent := sent0 ++ [b]; push_end := Raised |}
                            eq_refl eq_refl) as [H1 H2].
           split; [exact H1|]. split.
           ++ intros Hall. apply Hstop; [exact Hall|reflexivity].
           ++ intros j Hj Hnot Hbefore. split; [now apply H2|].
              destruct j as [|j].
              ** rewrite Nat.add_0_r, Ek. cbn [refused]. now rewrite Ec.
              ** specialize (Hbefore 0 (Nat.lt_0_succ _)).
                 rewrite Nat.add_0_r, Ek in Hbefore. discriminate.
      * assert (Hacc : accepted (PostReply code json) = false).
        { cbn [accepted]. rewrite Ec. now destruct json. }
        destruct (Hfirst {| sent := sent0 ++ [b]; push_end := Exit1 |} eq_refl Hacc)
          as [H1 H2].
        split; [exact H1|]. split.
        -- intros Hall. apply Hstop; [exact Hall|exact Hacc].
        -- intros j Hj Hnot Hbefore. split; [now apply H2|].
           destruct j as [|j].
           ++ rewrite Nat.add_0_r, Ek. cbn [refused]. now rewrite Ec.
           ++ specialize (Hbefore 0 (Nat.lt_0_succ _)).
              rewrite Nat.add_0_r, Ek, Hacc in Hbefore. discriminate.
Qed.

(** X23: the push script raises at [points[0]], before sending anything,
    exactly when no cache entry has a price.  Otherwise the batches of the
    loop, put end to end, are the converted points in order, every batch
    holds between one and [BATCH_SIZE] points, every batch but the last
    holds exactly [BATCH_SIZE], and their number is the number of points
    divided by [BATCH_SIZE], rounded up.  The run hands them to the server
    in order and stops with the first request that is not accepted: it sends
    every batch and ends with the totals of the replies when every request
    is answered 200 with a JSON body; it leaves through [sys.exit(1)] right
    after the first reply that is not 200, and the later batches are never
    sent. *)
Theorem push_run_sends_prefix
    (round8 : float -> float) (replies : nat -> Post) (prices : list SpotPrice) :
  let points := fst (convert_prices round8 prices) in
  let bs := batches_of points in
  concat bs = points /\
  Forall (fun b => 1 <= length b <= BATCH_SIZE) bs /\
  (forall k, S k < length bs -> length (nth k bs []) = BATCH_SIZE) /\
  length bs = (length points + BATCH_SIZE - 1) / BATCH_SIZE /\
  (push_run round8 replies prices = None <->
     forall p, In p prices -> spotPriceDkk p = None) /\
  (forall run, push_run round8 replies prices = Some run ->
     (exists n, 1 <= n <= length bs /\ sent run = firstn n bs) /\
     ((forall k, k < length bs -> accepted (replies k) = true) ->
      sent run = bs /\
      push_end run = Done (total_over inserted_of replies 0 (length bs))
                          (total_over updated_of replies 0 (length bs))) /\
     (forall k, k < length bs ->
        accepted (replies k) = false ->
        (forall j, j < k -> accepted (replies j) = true) ->
        sent run = firstn (S k) bs /\
        push_end run = (if refused (replies k) then Exit1 else Raised))).
Proof.
  cbv zeta. unfold push_run. rewrite convert_points.
  remember (flat_map (point_of round8) prices) as points eqn:Epts.
  assert (Hnil : points = [] <-> forall p, In p prices -> spotPriceDkk p = None).
  { subst points. clear. induction prices as [|p prices IH]; cbn [flat_map].
    - split; [intros _ p []|reflexivity].
    - unfold point_of at 1. destruct (spotPriceDkk p) eqn:E; cbn [app].
      + split; [discriminate|]. intros H. specialize (H p (or_introl eq_refl)). congruence.
      + rewrite IH. split.
        * intros H x [<-|Hx]; auto.
        * intros H x Hx. apply H. now right. }
  assert (H0 : 0 < BATCH_SIZE) by (unfold BATCH_SIZE; lia).
  destruct (range_chunks points BATCH_SIZE H0 (length points) 0)
    as (H1 & H2 & H3 & H4); [lia|].
  cbv zeta in H1, H2, H3, H4. rewrite Nat.sub_0_r in H4.
  fold (py_range (length points) BATCH_SIZE) in H1, H2, H3, H4.
  fold (batches_of points) in H1, H2, H3, H4.
  split; [exact H1|]. split; [exact H2|]. split; [exact H3|]. split; [exact H4|].
  destruct points as [|pt pts] eqn:Ep.
  - split; [split; [intros _; now apply Hnil|reflexivity]|discriminate].
  - rewrite <- Ep in *. split.
    + split; [discriminate|]. intros H. apply Hnil in H. rewrite H in Ep. discriminate.
    + intros run Hrun. injection Hrun as <-.
      destruct (push_loop_spec replies (batches_of points) 0 [] 0%Z 0%Z)
        as (Hn & Hall & Hstop).
      cbv zeta in Hn, Hall, Hstop. cbn [app Nat.add Z.add] in Hn, Hall, Hstop.
      assert (Hne : batches_of points <> []).
      { intros Hb. rewrite Hb in H1. cbn in H1. rewrite Ep in H1. discriminate. }
      split; [|split].
      * destruct Hn as (n & Hn1 & Hn2 & Hs). exists n.
        split; [split; [now apply Hn2|exact Hn1]|exact Hs].
      * exact Hall.
      * exact Hstop.
Qed.

(** Three priced hours and one without a price, against a server that
    refuses the first request: the one batch is sent and the run leaves
    through [sys.exit(1)]. *)
Lemma push_run_sends_prefix_witness :
  exists run,
    push_run (fun x => x) (fun _ => PostReply 500 None)
             [ {| hourUtc := hour "00"; spotPriceDkk := Some 500%float |};
               {| hourUtc := hour "01"; spotPriceDkk := None |};
               {| hourUtc := hour "02"; spotPriceDkk := Some 250%float |} ] = Some run /\
    length (sent run) = 1 /\ push_end run = Exit1.
Proof.
  pose (prices := [ {| hourUtc := hour "00"; spotPriceDkk := Some 500%float |};
                    {| hourUtc := hour "01"; spotPriceDkk := None |};
                    {| hourUtc := hour "02"; spotPriceDkk := Some 250%float |} ]).
  pose (replies := fun _ : nat => PostReply 500 None).
  pose (run := push_loop replies
                 (batches_of (fst (convert_prices (fun x => x) prices))) 0 [] 0 0).
  assert (Hrun : push_run (fun x => x) replies prices = Some run)
    by (vm_compute; reflexivity).
  exists run. split; [exact Hrun|].
  destruct (push_run_sends_prefix (fun x => x) replies prices)
    as (_ & _ & _ & _ & _ & H).
  destruct (H run Hrun) as (_ & _ & Hstop).
  destruct (Hstop 0) as [Hs He].
  - vm_compute. lia.
  - reflexivity.
  - intros j Hj. lia.
  - split; [rewrite Hs; vm_compute; reflexivity|exact He].
Defined.

(* ================================================================= *)
(** ** Subscription resolver on the schedules of the cache *)

(** C6, as amended: the resolver works on the schedule of the last
    subscription price of the charge and compares the normalized timestamp
    strings in string order.  It returns the amount of an entry whose
    normalized timestamp is the greatest one at or before the normalized
    reference, whatever the order in which the cache lists the entries; it
    returns zero when the schedule has no such entry or the charge has no
    subscription price; the result never comes from an entry whose
    normalized timestamp is after the reference in that order. *)
Theorem sub_price_greatest_instant_not_after
    (data : Data) (spot_cache : SpotCache) (charge_id period_start : string)
    (p : Price) :
  find (fun p => String.eqb (price_type p) "Abonnement"
                 && String.eqb charge_id (chargeId p))
       (rev (prices data)) = Some p ->
  let lk := build_lookups data spot_cache in
  let ps := norm period_start in
  let key := fun pt => norm (pt_timestamp pt) in
  In p (prices data) /\ price_type p = "Abonnement"%string /\ chargeId p = charge_id /\
  ((sub_price_at lk charge_id period_start = 0%float /\
    forall pt, In pt (points p) -> PyStr.le (key pt) ps = false) \/
   (exists pt,
       In pt (points p) /\ PyStr.le (key pt) ps = true /\
       sub_price_at lk charge_id period_start = pt_price pt /\
       forall pt', In pt' (points p) -> PyStr.le (key pt') ps = true ->
                   PyStr.le (key pt') (key pt) = true)) /\
  ((forall pt, In pt (points p) -> PyStr.le (key pt) ps = false) ->
   sub_price_at lk charge_id period_start = 0%float) /\
  (forall charge_id',
     (forall q, In q (prices data) -> chargeId q = charge_id' ->
                price_type q <> "Abonnement"%string) ->
     sub_price_at lk charge_id' period_start = 0%float).
Proof.
  intros Hfind lk ps key.
  pose proof (find_some _ _ Hfind) as [Hin Hp].
  apply in_rev in Hin. apply andb_true_iff in Hp. destruct Hp as [Ht Hc].
  apply String.eqb_eq in Ht, Hc.
  pose (kv := fun q : Price =>
                if String.eqb (price_type q) "Abonnement"
                then Some (chargeId q, sorted_points (points q)) else None).
  assert (Hlast : forall cid,
            Dict.get cid (sub_prices lk) =
            option_map (fun q => sorted_points (points q))
              (find (fun q => String.eqb (price_type q) "Abonnement"
                              && String.eqb cid (chargeId q))
                    (rev (prices data)))).
  { intros cid. cbn [lk build_lookups sub_prices]. unfold build_sub_prices.
    rewrite (dict_loop_get kv).
    - rewrite (find_ext (assigns kv cid)
                 (fun q => String.eqb (price_type q) "Abonnement"
                           && String.eqb cid (chargeId q))).
      + destruct (find (fun q => String.eqb (price_type q) "Abonnement"
                                 && String.eqb cid (chargeId q))
                       (rev (prices data))) as [q|] eqn:E; [|reflexivity].
        apply find_some in E. destruct E as [_ E].
        apply andb_true_iff in E. destruct E as [E _].
        unfold assigned, kv. now rewrite E.
      + intros q. unfold assigns, kv.
        now destruct (String.eqb (price_type q) "Abonnement").
    - intros d q. unfold kv.
      now destruct (String.eqb (price_type q) "Abonnement"). }
  assert (Hget : Dict.get charge_id (sub_prices lk) = Some (sorted_points (points p))).
  { now rewrite Hlast, Hfind. }
  assert (Hmem : forall t a, In (t, a) (sorted_points (points p)) <->
                   exists pt, In pt (points p) /\ t = key pt /\ a = pt_price pt).
  { intros t a. split.
    - intros H. apply (Permutation_in _ (sorted_points_perm (points p))) in H.
      apply in_map_iff in H. destruct H as (pt & [= <- <-] & Hpt). now exists pt.
    - intros (pt & Hpt & -> & ->).
      apply (Permutation_in _ (Permutation_sym (sorted_points_perm (points p)))).
      apply in_map_iff. now exists pt. }
  assert (Hcases :
    (sub_price_at lk charge_id period_start = 0%float /\
     forall pt, In pt (points p) -> PyStr.le (key pt) ps = false) \/
    (exists pt,
        In pt (points p) /\ PyStr.le (key pt) ps = true /\
        sub_price_at lk charge_id period_start = pt_price pt /\
        forall pt', In pt' (points p) -> PyStr.le (key pt') ps = true ->
                    PyStr.le (key pt') (key pt) = true)).
  { unfold sub_price_at. fold ps. rewrite Hget.
    destruct (sub_price_scan_spec ps _ (sorted_points_sorted (points p)) 0%float)
      as [[Hval Hnone]|(t & a & Hta & Hle & Hres & Hmax)].
    - left. split; [exact Hval|]. intros pt Hpt.
      apply (Hnone (key pt) (pt_price pt)). apply Hmem. now exists pt.
    - right. apply Hmem in Hta. destruct Hta as (pt & Hpt & -> & ->).
      exists pt. split; [exact Hpt|]. split; [exact Hle|]. split; [exact Hres|].
      intros pt' Hpt' Hle'. apply (Hmax (key pt') (pt_price pt')); [|exact Hle'].
      apply Hmem. now exists pt'. }
  split; [exact Hin|]. split; [exact Ht|]. split; [now symmetry|].
  split; [exact Hcases|]. split.
  - intros Hnone. destruct Hcases as [[H _]|(pt & Hpt & Hle & _)]; [exact H|].
    rewrite (Hnone pt Hpt) in Hle. discriminate.
  - intros cid' Hnone. unfold sub_price_at. rewrite Hlast.
    destruct (find (fun q => String.eqb (price_type q) "Abonnement"
                             && String.eqb cid' (chargeId q))
                   (rev (prices data))) as [q|] eqn:E; [|reflexivity].
    apply find_some in E. destruct E as [Hq E].
    apply andb_true_iff in E. destruct E as [E1 E2].
    apply String.eqb_eq in E1, E2. exfalso.
    apply (Hnone q); [now apply in_rev|now symmetry|exact E1].
Qed.

(** The schedule of charge 40000 is listed out of order and comes after an
    older subscription price of the charge: at 2024-03-01 the amount is the
    one of 2024-01-01, before 2023 it is zero. *)
Lemma sub_price_greatest_instant_not_after_witness :
  Dict.get "40000" (sub_prices (build_lookups cache_schedule [])) =
    Some [ ("2023-01-01T00:00:00", 30); ("2024-01-01T00:00:00", 35);
           ("2024-06-01T00:00:00", 40) ]%float /\
  sub_price_at (build_lookups cache_schedule []) "40000" "2024-03-01T00:00:00Z"
    = 35%float /\
  sub_price_at (build_lookups cache_schedule []) "40000" "2022-12-31T23:00:00Z"
    = 0%float.
Proof.
  split; [vm_compute; reflexivity|].
  pose (p := {| price_type := "Abonnement"; chargeId := "40000";
                points := [ {| pt_timestamp := "2024-06-01T00:00:00Z"; pt_price := 40 |};
                            {| pt_timestamp := "2023-01-01T00:00:00Z"; pt_price := 30 |};
                            {| pt_timestamp := "2024-01-01T00:00:00Z"; pt_price := 35 |} ] |}).
  split.
  - destruct (sub_price_greatest_instant_not_after cache_schedule [] "40000"
                "2024-03-01T00:00:00Z" p eq_refl) as (_ & _ & _ & H & _).
    cbv zeta in H. destruct H as [[_ Hnone]|(pt & Hpt & Hle & Hres & Hmax)].
    + specialize (Hnone _ (or_intror (or_introl eq_refl))).
      vm_compute in Hnone. discriminate.
    + rewrite Hres.
      assert (H35 : PyStr.le (norm "2024-01-01T00:00:00Z") (norm (pt_timestamp pt)) = true).
      { apply (Hmax {| pt_timestamp := "2024-01-01T00:00:00Z"; pt_price := 35 |}).
        - right; right; left; reflexivity.
        - vm_compute. reflexivity. }
      destruct Hpt as [<-|[<-|[<-|[]]]].
      * vm_compute in Hle. discriminate.
      * vm_compute in H35. discriminate.
      * reflexivity.
  - destruct (sub_price_greatest_instant_not_after cache_schedule [] "40000"
                "2022-12-31T23:00:00Z" p eq_refl) as (_ & _ & _ & _ & H & _).
    apply H. intros pt [<-|[<-|[<-|[]]]]; vm_compute; reflexivity.
Defined.

(** C6, as stated, fails: the entry [2024-01-01T00:00:00-01:00] denotes
    01:00 UTC, after the reference 00:30 UTC, yet its amount is returned;
    and the entry [2024-01-01T00:00:00+01:00] denotes 23:00 UTC of the day
    before, at or before the reference 23:30 UTC, yet the resolver returns
    zero. *)
Lemma sub_price_follows_spelling :
  utc_instant "2024-01-01T00:00:00-01:00" = Some 63839667600%Z /\
  utc_instant "2024-01-01T00:30:00Z" = Some 63839665800%Z /\
  sub_price_at (build_lookups cache_offsets []) "40000" "2024-01-01T00:30:00Z"
    = 40%float /\
  utc_instant "2024-01-01T00:00:00+01:00" = Some 63839660400%Z /\
  utc_instant "2023-12-31T23:30:00Z" = Some 63839662200%Z /\
  sub_price_at (build_lookups cache_offsets []) "40001" "2023-12-31T23:30:00Z"
    = 0%float.
Proof. repeat split; vm_compute; reflexivity. Qed.

(* ================================================================= *)
(** ** Level 2 on the observations of the period *)

Lemma validate_hours :
  validate_settlement (L := datetime_fragment) lookups 0 settlement_hours
  = Some result_hours.
Proof. vm_compute. reflexivity. Qed.

(** C8: Level 2 looks at the hourly detail of the first tariff line that has
    hourly detail and is not a subscription.  An entry counts as matched
    when the observation index has an observation at its hour, the hour lies
    in [[periodStart, periodEnd)] and [|detail.kwh - obs.kwh| < 0.005]; as
    mismatched when there is such an observation and the difference is not
    below 0.005 (for a difference that is a number: when it is [>= 0.005]);
    and as missing when the index has no observation at the hour or the hour
    lies outside the period.  The observation at an hour is the last one the
    time series lists for it.  At most the first three mismatches are
    recorded, and the observation issue is raised exactly when the mismatch
    count exceeds 2. *)
Theorem tier2_observation_matching `{L : DatetimeLib}
    (lk : Lookups) (i : nat) (s : Settlement) (r : Result) (hd : list HourlyDetail) :
  validate_settlement lk i s = Some r ->
  r_has_obs r = true ->
  tier2_line (tariffLines s) = Some hd ->
  let ps := norm (periodStart s) in
  let pe := norm (periodEnd s) in
  let po := period_obs_of lk ps pe in
  let in_period_obs := fun hts o =>
    Dict.get hts (obs_lookup lk) = Some o /\
    PyStr.le ps hts = true /\ PyStr.lt hts pe = true in
  (exists before t after,
      tariffLines s = before ++ t :: after /\
      truthy_detail t = Some hd /\ isSubscription t = false /\
      Forall (fun t' => truthy_detail t' = None \/ isSubscription t' = true) before) /\
  obs_matched (r_tier2 r) = length (filter (is_matched po) hd) /\
  obs_mismatched (r_tier2 r) = length (filter (is_mismatched po) hd) /\
  obs_missing (r_tier2 r) = length (filter (is_missing po) hd) /\
  obs_errors (r_tier2 r) = firstn 3 (flat_map (mismatch_record po) hd) /\
  length (obs_errors (r_tier2 r)) <= 3 /\
  (forall k, Dict.get k po =
             if PyStr.le ps k && PyStr.lt k pe then Dict.get k (obs_lookup lk) else None) /\
  (forall h,
     let hts := norm (hd_timestamp h) in
     (is_matched po h = true <->
      exists o, in_period_obs hts o /\
                (PrimFloat.abs (hd_kwh h - o) <? 0.005)%float = true) /\
     (is_mismatched po h = true <->
      exists o, in_period_obs hts o /\
                (PrimFloat.abs (hd_kwh h - o) <? 0.005)%float = false) /\
     (is_missing po h = true <-> forall o, ~ in_period_obs hts o)) /\
  (forall h o, in_period_obs (norm (hd_timestamp h)) o ->
     let d := PrimFloat.abs (hd_kwh h - o) in
     (d =? d)%float = true ->
     (is_mismatched po h = true <-> (0.005 <=? d)%float = true)) /\
  (forall data spot_cache k,
     lk = build_lookups data spot_cache ->
     Dict.get k (obs_lookup lk) =
     option_map kwh (find (fun o => String.eqb k (norm (timestamp o)))
                          (rev (observations data)))) /\
  ((exists n, In (IssueObs n) (r_issues r)) <-> 2 < obs_mismatched (r_tier2 r)).
Proof.
  intros Hr Hobs Hline ps pe po in_period_obs.
  apply validate_settlement_some in Hr. destruct Hr as (sd & _ & ->).
  cbn [r_tier2 r_has_obs r_issues result_of] in *. fold ps pe po in Hobs |- *.
  rewrite Hobs. unfold tier2. rewrite Hline.
  destruct (tier2_fold po hd tier2_init) as (H1 & H2 & H3 & H4);
    [cbn; lia|]. cbn [tier2_init obs_matched obs_mismatched obs_missing
                      obs_errors Nat.add app] in H1, H2, H3, H4.
  assert (Hpo : forall k, Dict.get k po =
                    if PyStr.le ps k && PyStr.lt k pe
                    then Dict.get k (obs_lookup lk) else None).
  { intros k. unfold po, period_obs_of, Dict.items.
    induction (obs_lookup lk) as [|[k' v] d IH].
    - cbn. now destruct (_ && _).
    - cbn [filter]. unfold in_period at 1. cbn [fst].
      destruct (String.eqb k k') eqn:E.
      + apply String.eqb_eq in E. subst k'.
        destruct (PyStr.le ps k && PyStr.lt k pe) eqn:Ep.
        * cbn [Dict.get]. now rewrite String.eqb_refl.
        * rewrite IH. reflexivity.
      + destruct (PyStr.le ps k' && PyStr.lt k' pe).
        * cbn [Dict.get]. rewrite E. exact IH.
        * rewrite IH. cbn [Dict.get]. rewrite E. reflexivity. }
  assert (Hget : forall k o, Dict.get k po = Some o <-> in_period_obs k o).
  { intros k o. unfold in_period_obs. rewrite Hpo.
    destruct (PyStr.le ps k) eqn:E1; destruct (PyStr.lt k pe) eqn:E2; cbn [andb];
      split; try tauto; try discriminate; intros (_ & Ha & Hb); discriminate. }
  split; [now apply tier2_line_first|].
  split; [exact H1|]. split; [exact H2|]. split; [exact H3|]. split; [exact H4|].
  split; [rewrite H4, length_firstn; lia|].
  split; [exact Hpo|].
  split; [|split; [|split]].
  - intros h. set (hts := norm (hd_timestamp h)).
    unfold is_matched, is_mismatched, is_missing. fold hts.
    destruct (Dict.get hts po) as [o|] eqn:E.
    + apply Hget in E. split; [|split].
      * split.
        -- intros H. now exists o.
        -- intros (o' & Ho' & H). destruct E as (E & _), Ho' as (Ho' & _).
           rewrite E in Ho'. injection Ho' as <-. exact H.
      * rewrite negb_true_iff. split.
        -- intros H. now exists o.
        -- intros (o' & Ho' & H). destruct E as (E & _), Ho' as (Ho' & _).
           rewrite E in Ho'. injection Ho' as <-. exact H.
      * split; [discriminate|]. intros H. exfalso. exact (H o E).
    + split; [|split].
      * split; [discriminate|]. intros (o & Ho & _). apply Hget in Ho. congruence.
      * split; [discriminate|]. intros (o & Ho & _). apply Hget in Ho. congruence.
      * split; [|reflexivity]. intros _ o Ho. apply Hget in Ho. congruence.
  - intros h o Ho Hnum. apply Hget in Ho. unfold is_mismatched. rewrite Ho.
    rewrite negb_true_iff.
    apply float_not_lt_iff_ge; [exact Hnum|reflexivity].
  - intros data spot_cache k ->. cbn [build_lookups obs_lookup].
    unfold build_obs_lookup.
    rewrite (dict_loop_get (fun o => Some (norm (timestamp o), kwh o)))
      by reflexivity.
    unfold assigns, assigned. cbn [Dict.get Dict.empty].
    now destruct (find _ (rev (observations data))).
  - split.
    + intros (n & Hn). apply in_issues_obs in Hn. exact (proj1 Hn).
    + intros Hgt. eexists. apply in_issues_obs. split; [exact Hgt|reflexivity].
Qed.

(** The period ends at hour 03: the entry of hour 00 matches, the entry of
    hour 01 is off by 0.01 kWh, and the entry of hour 03 is missing although
    the cache has an observation of the same kWh at hour 03. *)
Lemma tier2_observation_matching_witness :
  Dict.get (norm (hour "03")) (obs_lookup lookups) = Some 2%float /\
  is_missing (period_obs_of lookups (norm (hour "00")) (norm (hour "03")))
             (detail "03" 2) = true /\
  obs_matched (r_tier2 result_hours) = 1 /\
  obs_mismatched (r_tier2 result_hours) = 1 /\
  obs_missing (r_tier2 result_hours) = 1.
Proof.
  pose proof (tier2_observation_matching lookups 0 settlement_hours result_hours
                [detail "00" 1; detail "01" 1.01; detail "03" 2]
                validate_hours eq_refl eq_refl) as H.
  cbv zeta in H. destruct H as (_ & H1 & H2 & H3 & _ & _ & _ & Hh & _).
  split; [vm_compute; reflexivity|]. split.
  - apply (Hh (detail "03" 2)). intros o (_ & _ & Hlt).
    vm_compute in Hlt. discriminate.
  - rewrite H1, H2, H3. vm_compute. repeat split.
Defined.

(* ================================================================= *)
(** ** Level 3a on the spot cache *)

Lemma validate_jan_late :
  validate_settlement (L := datetime_fragment) lookups_late 0 settlement_jan
  = Some result_jan_late.
Proof. vm_compute. reflexivity. Qed.

(** C9: the spot cost is recomputed exactly when the period has observations
    and the primary product's pricing model is ["SpotAddon"].  It is the sum,
    over the observation hours of the period that have a spot price, of
    [obs.kwh] times the price per kWh.  An hour has a spot price exactly
    when the cache has an entry with a price for it, and the price per kWh is
    the price of the last such entry divided by 1000; an hour without one
    adds nothing to the sum and is counted in the reported number of missing
    spot hours. *)
Theorem spot_cost_recomputation `{L : DatetimeLib}
    (data : Data) (spot_cache : SpotCache) (i : nat) (s : Settlement) (r : Result) :
  let lk := build_lookups data spot_cache in
  validate_settlement lk i s = Some r ->
  let po := period_obs_of lk (norm (periodStart s)) (norm (periodEnd s)) in
  let spots := spot_lookup lk in
  r_has_obs r = Nat.ltb 0 (length po) /\
  r_model r = match find_primary_product lk (periodStart s) with
              | Some p => pricingModel p
              | None => "Unknown"%string
              end /\
  (r_recalc_spot r <> None <-> r_has_obs r = true /\ r_model r = "SpotAddon"%string) /\
  (r_recalc_spot r <> None ->
   r_recalc_spot r = Some (py_sum (flat_map (spot_contribution spots) po)) /\
   r_spot_missing r = Some (length (filter (lacks_spot spots) po))) /\
  (r_recalc_spot r = None -> r_spot_missing r = None) /\
  (forall ts k, In (ts, k) po ->
     In (ts, k) (Dict.items (obs_lookup lk)) /\
     PyStr.le (norm (periodStart s)) ts = true /\
     PyStr.lt ts (norm (periodEnd s)) = true) /\
  (forall ts k sp, Dict.get ts spots = Some sp ->
     spot_contribution spots (ts, k) = [(k * sp)%float] /\
     lacks_spot spots (ts, k) = false /\
     exists p v, In p spot_cache /\ norm (hourUtc p) = ts /\
                 spotPriceDkk p = Some v /\ sp = (v / 1000.0)%float) /\
  (forall ts k, Dict.get ts spots = None ->
     spot_contribution spots (ts, k) = [] /\ lacks_spot spots (ts, k) = true) /\
  (forall ts,
     Dict.get ts spots =
     match find (fun p => has_price p && String.eqb ts (norm (hourUtc p)))
                (rev spot_cache) with
     | Some p => option_map (fun v => (v / 1000.0)%float) (spotPriceDkk p)
     | None => None
     end) /\
  (forall ts,
     Dict.get ts spots = None <->
     forall p, In p spot_cache -> norm (hourUtc p) = ts -> spotPriceDkk p = None) /\
  (forall before p after v,
     spot_cache = before ++ p :: after -> spotPriceDkk p = Some v ->
     (forall q, In q after -> norm (hourUtc q) = norm (hourUtc p) ->
                spotPriceDkk q = None) ->
     Dict.get (norm (hourUtc p)) spots = Some (v / 1000.0)%float).
Proof.
  intros lk Hr po spots.
  apply validate_settlement_some in Hr. destruct Hr as (sd & _ & ->).
  split; [reflexivity|]. split; [reflexivity|].
  pose proof (recalc_spot_cases lk i s sd) as Hc. cbv zeta in Hc.
  fold po spots in Hc.
  assert (Hlast : forall ts,
    Dict.get ts spots =
    match find (fun p => has_price p && String.eqb ts (norm (hourUtc p)))
               (rev spot_cache) with
    | Some p => option_map (fun v => (v / 1000.0)%float) (spotPriceDkk p)
    | None => None
    end).
  { intros ts.
    pose (kv := fun p : SpotPrice =>
                  match spotPriceDkk p with
                  | Some v => Some (norm (hourUtc p), (v / 1000.0)%float)
                  | None => None
                  end).
    assert (Hstep : forall d p, add_spot_price d p =
                                match kv p with
                                | Some (k', v) => Dict.set k' v d
                                | None => d
                                end).
    { intros d p. unfold add_spot_price, kv. now destruct (spotPriceDkk p). }
    unfold spots. cbn [lk build_lookups spot_lookup]. unfold build_spot_lookup.
    rewrite (dict_loop_get kv _ Hstep).
    rewrite (find_ext (assigns kv ts)
               (fun p => has_price p && String.eqb ts (norm (hourUtc p)))).
    - destruct (find _ (rev spot_cache)) as [p|]; [|reflexivity].
      unfold assigned, kv. now destruct (spotPriceDkk p).
    - intros p. unfold assigns, kv, has_price. now destruct (spotPriceDkk p). }
  split; [|split; [|split; [|split; [|split; [|split; [|split; [|split]]]]]]].
  - destruct Hc as [(Hb & Hs & _)|(Hb & Hs & _)]; rewrite Hs.
    + apply andb_true_iff in Hb. destruct Hb as [Hb1 Hb2].
      apply String.eqb_eq in Hb2. split; [auto|discriminate].
    + split; [congruence|]. intros [H1 H2].
      rewrite H1, H2 in Hb. discriminate.
  - destruct Hc as [(_ & Hs & Hm)|(_ & Hs & _)]; [auto|congruence].
  - destruct Hc as [(_ & Hs & _)|(_ & _ & Hm)]; [congruence|auto].
  - intros ts k Hin. unfold po, period_obs_of in Hin.
    apply filter_In in Hin. destruct Hin as [Hin Hp].
    unfold in_period in Hp. cbn [fst] in Hp.
    apply andb_true_iff in Hp. tauto.
  - intros ts k sp Hsp. unfold spot_contribution, lacks_spot. cbn [fst snd].
    rewrite Hsp. split; [reflexivity|]. split; [reflexivity|].
    destruct (spot_lookup_get_some spot_cache ts sp Dict.empty Hsp)
      as [Hd|Hex]; [discriminate Hd|exact Hex].
  - intros ts k Hn. unfold spot_contribution, lacks_spot. cbn [fst].
    now rewrite Hn.
  - exact Hlast.
  - intros ts. rewrite Hlast. split.
    + intros H p Hp Hts. destruct (spotPriceDkk p) as [v|] eqn:Ev; [|reflexivity].
      exfalso. destruct (find _ (rev spot_cache)) as [q|] eqn:Ef.
      * apply find_some in Ef. destruct Ef as [_ Ef].
        apply andb_true_iff in Ef. destruct Ef as [Ef _].
        unfold has_price in Ef. destruct (spotPriceDkk q); discriminate.
      * apply in_rev in Hp. apply (find_none _ _ Ef p) in Hp.
        unfold has_price in Hp. rewrite Ev, Hts, String.eqb_refl in Hp. discriminate.
    + intros H. destruct (find _ (rev spot_cache)) as [q|] eqn:Ef; [|reflexivity].
      apply find_some in Ef. destruct Ef as [Hq Ef].
      apply andb_true_iff in Ef. destruct Ef as [_ Ef].
      apply String.eqb_eq in Ef. apply in_rev in Hq.
      now rewrite (H q Hq (eq_sym Ef)).
  - intros before p after v -> Hv Hafter. rewrite Hlast.
    rewrite rev_app_distr. cbn [rev]. rewrite <- app_assoc. cbn [app].
    rewrite find_app_split.
    destruct (find _ (rev after)) as [q|] eqn:Ef.
    + exfalso. apply find_some in Ef. destruct Ef as [Hq Ef].
      apply andb_true_iff in Ef. destruct Ef as [Ef1 Ef2].
      apply String.eqb_eq in Ef2. apply in_rev in Hq.
      unfold has_price in Ef1.
      rewrite (Hafter q Hq (eq_sym Ef2)) in Ef1. discriminate.
    + cbn [find]. unfold has_price. rewrite Hv, String.eqb_refl. cbn [andb].
      now rewrite Hv.
Qed.

(** The cache lists hour 01 first and prices hour 00 twice around a [null]
    entry: hour 00 is priced by the last priced entry (750 per MWh), hour 01
    by its own (250), and hour 03, which has no entry, is the one missing
    hour. *)
Lemma spot_cost_recomputation_witness :
  Dict.get (norm (hour "00")) (spot_lookup lookups_late) = Some 0.75%float /\
  Dict.get (norm (hour "01")) (spot_lookup lookups_late) = Some 0.25%float /\
  r_recalc_spot result_jan_late = Some 1%float /\
  r_spot_missing result_jan_late = Some 1.
Proof.
  pose proof (spot_cost_recomputation cache spot_prices_late 0 settlement_jan
                result_jan_late validate_jan_late) as H.
  cbv zeta in H. destruct H as (_ & _ & _ & H & _ & _ & _ & _ & _ & _ & Hidx).
  split; [|split].
  - apply (Hidx [ {| hourUtc := hour "01"; spotPriceDkk := Some 250%float |};
                  {| hourUtc := hour "00"; spotPriceDkk := Some 500%float |};
                  {| hourUtc := hour "00"; spotPriceDkk := None |} ]
                {| hourUtc := "2024-01-01T00:00:00+00:00";
                   spotPriceDkk := Some 750%float |} [] 750%float);
      [reflexivity|reflexivity|intros q []].
  - apply (Hidx [] {| hourUtc := hour "01"; spotPriceDkk := Some 250%float |}
                [ {| hourUtc := hour "00"; spotPriceDkk := Some 500%float |};
                  {| hourUtc := hour "00"; spotPriceDkk := None |};
                  {| hourUtc := "2024-01-01T00:00:00+00:00";
                     spotPriceDkk := Some 750%float |} ] 250%float);
      [reflexivity|reflexivity|].
    intros q [<-|[<-|[<-|[]]]] Hq; try reflexivity; vm_compute in Hq; discriminate.
  - destruct H as [H1 H2].
    + vm_compute. discriminate.
    + rewrite H1, H2. vm_compute. split; reflexivity.
Defined.
